(** * Authenticated scraping session engine: a shallow embedding

    The development follows the Python sources:
    - [src/utils/rate_limiter.py]  (token bucket),
    - [src/scraper/base.py], [src/scraper/session_scraper.py]
      (HTTP session client, login form resolver, form-submit login),
    - [app.py], [scrape_t18.py]   (static-document extraction and the
      single-target orchestrator),
    - [scrape_etslink.py]         (frame-based extraction and the
      multi-target orchestrator),
    - [src/parser/html_parser.py]  (page summary),
    - [src/utils/helpers.py]       (text and address helpers),
    - [src/storage/json_storage.py], [src/storage/csv_storage.py]
      (file stores),
    - [src/main.py]                (example program).

    Conventions.  Python [str] values are [string]s of ASCII characters;
    case mapping and the whitespace test cover the ASCII range.  A parsed
    document is a tree of tags and text; the HTML parser itself
    (BeautifulSoup/lxml), the HTTP transport (httpx), the browser driver
    (Playwright) and the JSON store are libraries outside the repository and
    enter as parameters of the sections that use them. *)

From Stdlib Require Import String Ascii ZArith List Bool Lia QArith Qminmax Lqa.
From stdpp Require Import base gmap strings list pretty.

Set Warnings "-register-all,-clear-no-such-hyp".
Import ListNotations.

(** ** Python string operations *)

Module PyStr.

(** [bool(s)] for a [str]. *)
Definition truthy (s : string) : bool :=
    match s with EmptyString => false | String _ _ => true end.

(** [str.isspace] on one ASCII character: TAB..CR, FS..US and space. *)
Definition isspace (c : ascii) : bool :=
    let n := nat_of_ascii c in
    ((9 <=? n) && (n <=? 13)) || ((28 <=? n) && (n <=? 32)).

Fixpoint lstrip (s : string) : string :=
    match s with
    | EmptyString => EmptyString
    | String c s' => if isspace c then lstrip s' else s
    end.

Fixpoint rstrip (s : string) : string :=
    match s with
    | EmptyString => EmptyString
    | String c s' =>
        let r := rstrip s' in
        if isspace c && negb (truthy r) then EmptyString else String c r
    end.

(** [s.strip()] *)
Definition strip (s : string) : string := rstrip (lstrip s).

(** [s.lstrip(ch)] for a one-character argument. *)
Fixpoint lstrip_char (ch : ascii) (s : string) : string :=
    match s with
    | EmptyString => EmptyString
    | String c s' => if Ascii.eqb c ch then lstrip_char ch s' else s
    end.

Definition lower_char (c : ascii) : ascii :=
    let n := nat_of_ascii c in
    if (65 <=? n) && (n <=? 90) then ascii_of_nat (n + 32) else c.

Definition upper_char (c : ascii) : ascii :=
    let n := nat_of_ascii c in
    if (97 <=? n) && (n <=? 122) then ascii_of_nat (n - 32) else c.

Fixpoint map_chars (f : ascii -> ascii) (s : string) : string :=
    match s with
    | EmptyString => EmptyString
    | String c s' => String (f c) (map_chars f s')
    end.

Definition lower : string -> string := map_chars lower_char.
Definition upper : string -> string := map_chars upper_char.

(** [s.startswith(p)] and [s.startswith((p1, ..., pn))]. *)
Definition startswith (s p : string) : bool := String.prefix p s.
Definition startswith_any (s : string) (ps : list string) : bool :=
    existsb (startswith s) ps.

(** [sub in s] *)
Fixpoint contains (sub s : string) : bool :=
    String.prefix sub s ||
    match s with
    | EmptyString => false
    | String _ s' => contains sub s'
    end.

(** [sep.join(l)] *)
Fixpoint join (sep : string) (l : list string) : string :=
    match l with
    | [] => EmptyString
    | [x] => x
    | x :: l' => x +:+ sep +:+ join sep l'
    end.

(** [s.split()]: the maximal runs of non-whitespace characters. *)
Fixpoint split_ws_aux (cur : string) (s : string) : list string :=
    match s with
    | EmptyString => if truthy cur then [cur] else []
    | String c s' =>
        if isspace c
        then (if truthy cur then [cur] else []) ++ split_ws_aux EmptyString s'
        else split_ws_aux (cur +:+ String c EmptyString) s'
    end.
Definition split_ws : string -> list string := split_ws_aux EmptyString.

(** [x or d] for strings. *)
Definition or_else (x d : string) : string := if truthy x then x else d.

Fixpoint all_space (s : string) : bool :=
    match s with
    | EmptyString => true
    | String c s' => isspace c && all_space s'
    end.

End PyStr.

(** ** Parsed documents (the part of BeautifulSoup's tree the code reads) *)

Module Soup.
Import PyStr.

Inductive node : Type :=
  | NavigableString (s : string)
  | Tag (name : string) (attrs : list (string * string)) (contents : list node).

Definition is_tag (n : node) : bool :=
    match n with Tag _ _ _ => true | NavigableString _ => false end.

Definition name_of (n : node) : string :=
    match n with Tag nm _ _ => nm | NavigableString _ => EmptyString end.

Fixpoint assoc (k : string) (l : list (string * string)) : option string :=
    match l with
    | [] => None
    | (k', v) :: l' => if String.eqb k k' then Some v else assoc k l'
    end.

(** [tag.get(key)] and [tag.get(key, default)] *)
Definition get (key : string) (n : node) : option string :=
    match n with Tag _ a _ => assoc key a | NavigableString _ => None end.
Definition get_default (key default : string) (n : node) : string :=
    match get key n with Some v => v | None => default end.

(** All descendants in document order ([tag.descendants]). *)
Fixpoint descendants (n : node) : list node :=
    match n with
    | NavigableString _ => []
    | Tag _ _ cs => flat_map (fun c => c :: descendants c) cs
    end.

(** [tag.find_all(p)] and [tag.find(p)] for a predicate on tags. *)
Definition find_all_by (p : node -> bool) (n : node) : list node :=
    List.filter (fun d => is_tag d && p d) (descendants n).
Definition find_by (p : node -> bool) (n : node) : option node :=
    List.head (find_all_by p n).

Definition has_name (nm : string) (n : node) : bool := String.eqb (name_of n) nm.
Definition has_name_in (nms : list string) (n : node) : bool :=
    existsb (String.eqb (name_of n)) nms.

(** [tag.find_all("name")], [tag.find_all(["n1", "n2"])], [tag.find("name")] *)
Definition find_all (nm : string) : node -> list node := find_all_by (has_name nm).
Definition find_all_in (nms : list string) : node -> list node :=
    find_all_by (has_name_in nms).
Definition find (nm : string) : node -> option node := find_by (has_name nm).

(** An attribute filter [{key: value}]: the attribute is present and equal. *)
Definition attr_is (key value : string) (n : node) : bool :=
    match get key n with Some v => String.eqb v value | None => false end.

(** The [class] attribute is multi-valued: a filter is tried on every
      token and then on the tokens joined by one space. *)
Definition class_tokens (n : node) : option (list string) :=
    match get "class" n with Some v => Some (split_ws v) | None => None end.
Definition class_matches (f : string -> bool) (n : node) : bool :=
    match class_tokens n with
    | Some toks => existsb f toks || f (join " " toks)
    | None => false
    end.
Definition id_matches (f : string -> bool) (n : node) : bool :=
    match get "id" n with Some v => f v | None => false end.

(** The text strings below a node, in document order. *)
Definition strings (n : node) : list string :=
    flat_map (fun d => match d with NavigableString s => [s] | Tag _ _ _ => [] end)
             (descendants n).

(** [tag.get_text(strip=True)]: every string stripped, the empty ones
      skipped, the rest concatenated. *)
Definition get_text_strip (n : node) : string :=
    join "" (List.filter truthy (map strip (strings n))).

End Soup.

(** ** Static-document extraction ([app.py], [scrape_t18.py]) *)

Module Extract.
Import PyStr Soup.

Record link := { text : string; href : string }.

Record table_entry := {
  id : nat;
  headers : list string;
  rows : list (list string);
  rowCount : nat
}.

(** [soup.select("a[href]")]: the anchors that carry an [href] attribute. *)
Definition select_a_href (soup : node) : list node :=
  find_all_by (fun n => has_name "a" n && bool_decide (is_Some (get "href" n))) soup.

(** The filter shared by [do_scrape] and [scrape_t18]:
    [text and href and not href.startswith(("javascript:", "#", "mailto:"))]. *)
Definition link_kept (text href : string) : bool :=
  truthy text && truthy href &&
  negb (startswith_any href ["javascript:"; "#"; "mailto:"]).

(** [do_scrape], the loop over [soup.select("a[href]")]. *)
Definition absolute_href (base_url href : string) : string :=
  if negb (startswith href "http")
  then base_url +:+ "/" +:+ lstrip_char "/" href
  else href.

Definition nav_link (base_url : string) (a : node) : list link :=
  let href := get_default "href" "" a in
  let text := get_text_strip a in
  if link_kept text href
  then [ {| text := text; href := absolute_href base_url href |} ]
  else [].

Definition nav_links (base_url : string) (soup : node) : list link :=
  flat_map (nav_link base_url) (select_a_href soup).

(** [scrape_t18], the same loop; the href is stored as found. *)
Definition nav_link_t18 (a : node) : list link :=
  let href := get_default "href" "" a in
  let text := get_text_strip a in
  if link_kept text href then [ {| text := text; href := href |} ] else [].

Definition nav_links_t18 (soup : node) : list link :=
  flat_map nav_link_t18 (select_a_href soup).

(** [do_scrape], the loop over [table.find_all("tr")].  The accumulator is
    the pair of the local variables [headers] and [rows]. *)
Definition cells_of (tr : node) : list string :=
  map get_text_strip (find_all_in ["td"; "th"] tr).

(** [cells and any(c for c in cells)] *)
Definition row_kept (cells : list string) : bool :=
  negb (Nat.eqb (length cells) 0) && existsb truthy cells.

Definition has_th (tr : node) : bool :=
  match find "th" tr with Some _ => true | None => false end.

Definition list_truthy {A} (l : list A) : bool :=
  match l with [] => false | _ :: _ => true end.

Definition row_step (acc : list string * list (list string)) (tr : node)
  : list string * list (list string) :=
  let '(headers, rows) := acc in
  let cells := cells_of tr in
  if row_kept cells then
    if negb (list_truthy headers) && has_th tr
    then (cells, rows)
    else (headers, rows ++ [cells])
  else (headers, rows).

Definition scan_rows (table : node) : list string * list (list string) :=
  fold_left row_step (find_all "tr" table) ([], []).

(** One iteration of [for idx, table in enumerate(tables)]. *)
Definition table_record (idx : nat) (table : node) : list table_entry :=
  let '(headers, rows) := scan_rows table in
  if list_truthy rows || list_truthy headers
  then [ {| id := idx; headers := headers; rows := rows; rowCount := length rows |} ]
  else [].

Fixpoint enumerate_from {A} (i : nat) (l : list A) : list (nat * A) :=
  match l with
  | [] => []
  | x :: l' => (i, x) :: enumerate_from (S i) l'
  end.

Definition table_data (soup : node) : list table_entry :=
  flat_map (fun '(idx, table) => table_record idx table)
           (enumerate_from 0 (find_all "table" soup)).

End Extract.

(** ** Exceptions and the effect monad *)

Module Py.

(** The exception classes the code can meet.  [httpx.HTTPError] is the base
    class of [HTTPStatusError] and of the request errors (time-outs,
    connection errors, too many redirects); [httpx.InvalidURL], JSON decoding
    errors, [RuntimeError], driver and I/O errors are plain [Exception]s. *)
Inductive exn_class : Type :=
| HTTPStatusError (status_code : Z)
| TimeoutException
| ConnectError
| TooManyRedirects
| InvalidURL
| JSONDecodeError
| RuntimeError
| DriverError
| OSError.

Record exn := { cls : exn_class; msg : string }.

(** [isinstance(e, httpx.HTTPError)] *)
Definition is_HTTPError (e : exn) : bool :=
  match cls e with
  | HTTPStatusError _ | TimeoutException | ConnectError | TooManyRedirects => true
  | InvalidURL | JSONDecodeError | RuntimeError | DriverError | OSError => false
  end.

(** [isinstance(e, Exception)]: every class above derives from it. *)
Definition is_Exception (e : exn) : bool := true.

Inductive result (A : Type) : Type :=
| Ret (a : A)
| Raise (e : exn).
Arguments Ret {A} a.
Arguments Raise {A} e.

Definition M (S A : Type) : Type := S -> S * result A.

Definition ret {S A} (a : A) : M S A := fun s => (s, Ret a).
Definition raise {S A} (e : exn) : M S A := fun s => (s, Raise e).
Definition bind {S A B} (m : M S A) (k : A -> M S B) : M S B :=
  fun s => match m s with
           | (s', Ret a) => k a s'
           | (s', Raise e) => (s', Raise e)
           end.
Definition gets {S A} (f : S -> A) : M S A := fun s => (s, Ret (f s)).
Definition modify {S} (f : S -> S) : M S unit := fun s => (f s, Ret tt).

(** [try: m  except C as e: h e] where [catches] decides [isinstance(e, C)]. *)
Definition try_except {S A} (m : M S A) (catches : exn -> bool) (h : exn -> M S A)
  : M S A :=
  fun s => match m s with
           | (s', Ret a) => (s', Ret a)
           | (s', Raise e) => if catches e then h e s' else (s', Raise e)
           end.

(** [try: m  except C1 as e: h1 e  except C2 as e: h2 e]: the first clause
    whose class matches handles the exception. *)
Definition try_except2 {S A} (m : M S A)
  (c1 : exn -> bool) (h1 : exn -> M S A) (c2 : exn -> bool) (h2 : exn -> M S A)
  : M S A :=
  fun s => match m s with
           | (s', Ret a) => (s', Ret a)
           | (s', Raise e) =>
               if c1 e then h1 e s' else if c2 e then h2 e s' else (s', Raise e)
           end.

(** [try: m  finally: c]: [c] runs on both exits; an exception of [c]
    replaces the outcome of [m]. *)
Definition try_finally {S A} (m : M S A) (c : M S unit) : M S A :=
  fun s => match m s with
           | (s', r) => match c s' with
                        | (s'', Ret _) => (s'', r)
                        | (s'', Raise e) => (s'', Raise e)
                        end
           end.

(** [for x in l: body x] *)
Fixpoint for_each {S A} (l : list A) (body : A -> M S unit) : M S unit :=
  match l with
  | [] => ret tt
  | x :: l' => bind (body x) (fun _ => for_each l' body)
  end.

Definition when {S} (b : bool) (m : M S unit) : M S unit :=
  if b then m else ret tt.

(** The state of a run: the outside world [env] (network, remote site,
    browser, file system: an arbitrary state machine), the [trace] of what
    the run did to it, in program order, and the attributes and local
    variables [self] of the running code. *)
Record state (Env Ev O : Type) := { env : Env; trace : list Ev; self : O }.
Arguments env {Env Ev O} s.
Arguments trace {Env Ev O} s.
Arguments self {Env Ev O} s.
Arguments Build_state {Env Ev O} env trace self.

Definition emit {Env Ev O} (e : Ev) : M (state Env Ev O) unit :=
  modify (fun s => {| env := env s; trace := trace s ++ [e]; self := self s |}).

Definition update {Env Ev O} (f : O -> O) : M (state Env Ev O) unit :=
  modify (fun s => {| env := env s; trace := trace s; self := f (self s) |}).

Definition read {Env Ev O A} (f : O -> A) : M (state Env Ev O) A :=
  gets (fun s => f (self s)).

(** A call into the outside world, recorded as the event [e]. *)
Definition call {Env Ev O A} (e : Ev) (f : Env -> Env * result A)
  : M (state Env Ev O) A :=
  fun s =>
    match f (env s) with
    | (env', out) => ({| env := env'; trace := trace s ++ [e]; self := self s |}, out)
    end.

(** Run a method of an attribute object inside a method of its owner. *)
Definition zoom {Env Ev O P A} (proj : O -> P) (inj : P -> O -> O)
  (m : M (state Env Ev P) A) : M (state Env Ev O) A :=
  fun s =>
    match m {| env := env s; trace := trace s; self := proj (self s) |} with
    | (s', r) =>
        ({| env := env s'; trace := trace s'; self := inj (self s') (self s) |}, r)
    end.

(** [m] keeps the property [I] of the state, however it ends. *)
Definition preserves {S A} (I : S -> Prop) (m : M S A) : Prop :=
  forall s, I s -> I (fst (m s)).

(** [m] always returns: no exception comes out of it. *)
Definition returns {S A} (m : M S A) : Prop :=
  forall s, exists a, snd (m s) = Ret a.

End Py.

Declare Scope py_scope.
Delimit Scope py_scope with py.
Notation "'let!' x ':=' m 'in' k" := (Py.bind m (fun x => k))
  (at level 10, x pattern, m at level 100, k at level 200) : py_scope.
Notation "m ';;' k" := (Py.bind m (fun _ => k))
  (at level 100, k at level 200, right associativity) : py_scope.

(** ** The HTTP clients ([src/scraper/base.py], [src/scraper/session_scraper.py]) *)

Module Http.
Import PyStr Py.
Local Open Scope py_scope.

Inductive body : Type :=
| FormData (data : gmap string string)
| JsonData (json_data : string).

Inductive request : Type :=
| GET (url : string)
| POST (url : string) (payload : body) (follow_redirects : bool).

Record response := { status_code : Z; text : string }.

(** What a run does to the outside world, in program order. *)
Inductive event : Type :=
| EvOpen (timeout : Q)
| EvRequest (r : request)
| EvAclose
| EvMkdir
| EvSave.

(** [s.rstrip(ch)] for a one-character argument. *)
Fixpoint rstrip_char (ch : ascii) (s : string) : string :=
  match s with
  | EmptyString => EmptyString
  | String c s' =>
      let r := rstrip_char ch s' in
      if Ascii.eqb c ch && negb (truthy r) then EmptyString else String c r
  end.

(** The attributes of a [SessionScraper] (the request headers are left out:
    nothing below reads them). *)
Record SessionScraper := {
  base_url : string;
  timeout : Q;
  _client : bool;
  logged_in : bool
}.

(** [SessionScraper.__init__(base_url, timeout=30.0)] *)
Definition default_timeout : Q := 30.
Definition SessionScraper_init (base_url : string) (timeout : option Q) : SessionScraper :=
  {| base_url := rstrip_char "/" base_url;
     timeout := match timeout with Some t => t | None => default_timeout end;
     _client := false;
     logged_in := false |}.

(** The attributes of a [WebScraper]. *)
Record WebScraper := { ws_timeout : Q; ws_client : bool }.

Definition WebScraper_init (timeout : option Q) : WebScraper :=
  {| ws_timeout := match timeout with Some t => t | None => default_timeout end;
     ws_client := false |}.

Section Transport.

(** The network and the remote site: an arbitrary state machine [Env].
    [send] is [client.get]/[client.post] of httpx, redirects included: it
    answers with a response or raises (a time-out is one of its exceptions).  [status_raises] tells for which
    status codes [response.raise_for_status()] raises; [json_of] is
    [response.json()], [None] standing for a decoding error. *)
Variable Env : Type.
Variable send : Env -> request -> Env * result response.
Variable status_raises : Z -> bool.
Variable JSON : Type.
Variable json_of : string -> option JSON.

(** [BeautifulSoup(html, "lxml")] *)
Variable BeautifulSoup : string -> Soup.node.

Abbreviation state := (Py.state Env event).

(** [await client.get(url)] / [await client.post(url, ...)] *)
Definition client_send {O} (r : request) : M (state O) response :=
  call (EvRequest r) (fun env => send env r).

(** [response.raise_for_status()] *)
Definition raise_for_status {O} (r : response) : M (state O) unit :=
  if status_raises (status_code r)
  then raise {| cls := HTTPStatusError (status_code r); msg := "HTTP status error" |}
  else ret tt.

(** [response.json()] *)
Definition response_json {O} (r : response) : M (state O) JSON :=
  match json_of (text r) with
  | Some j => ret j
  | None => raise {| cls := JSONDecodeError; msg := "Expecting value" |}
  end.

(** *** [WebScraper] *)

Definition ws_get_client : M (state WebScraper) unit :=
  let! c := read ws_client in
  if c then ret tt
  else (let! t := read ws_timeout in
        emit (EvOpen t) ;;
        update (fun o => {| ws_timeout := ws_timeout o; ws_client := true |})).

Definition fetch (url : string) : M (state WebScraper) (option string) :=
  try_except
    (ws_get_client ;;
     let! response := client_send (GET url) in
     raise_for_status response ;;
     ret (Some (text response)))
    is_HTTPError
    (fun _ => ret None).

Definition fetch_json (url : string) : M (state WebScraper) (option JSON) :=
  try_except
    (ws_get_client ;;
     let! response := client_send (GET url) in
     raise_for_status response ;;
     let! j := response_json response in
     ret (Some j))
    is_HTTPError
    (fun _ => ret None).

Definition ws_close : M (state WebScraper) unit :=
  let! c := read ws_client in
  if c then
    emit EvAclose ;;
    update (fun o => {| ws_timeout := ws_timeout o; ws_client := false |})
  else ret tt.

(** *** [SessionScraper] *)

Definition _get_client : M (state SessionScraper) unit :=
  let! c := read _client in
  if c then ret tt
  else (let! t := read timeout in
        emit (EvOpen t) ;;
        update (fun o => {| base_url := base_url o; timeout := timeout o;
                            _client := true; logged_in := logged_in o |})).

Definition url_for (o : SessionScraper) (path : string) : string :=
  base_url o +:+ "/" +:+ lstrip_char "/" path.

Definition get (path : string) : M (state SessionScraper) (option string) :=
  _get_client ;;
  let! url := read (fun o => if truthy path then url_for o path else base_url o) in
  try_except
    (let! response := client_send (GET url) in
     raise_for_status response ;;
     ret (Some (text response)))
    is_HTTPError
    (fun _ => ret None).

Definition post (path : string) (data : gmap string string) (follow_redirects : bool)
  : M (state SessionScraper) (option string) :=
  _get_client ;;
  let! url := read (fun o => url_for o path) in
  try_except
    (let! response := client_send (POST url (FormData data) follow_redirects) in
     raise_for_status response ;;
     ret (Some (text response)))
    is_HTTPError
    (fun _ => ret None).

Definition json_post (path : string) (json_data : string) (follow_redirects : bool)
  : M (state SessionScraper) (option JSON) :=
  _get_client ;;
  let! url := read (fun o => url_for o path) in
  try_except2
    (let! response := client_send (POST url (JsonData json_data) follow_redirects) in
     raise_for_status response ;;
     let! j := response_json response in
     ret (Some j))
    is_HTTPError (fun _ => ret None)
    is_Exception (fun _ => ret None).

Definition form_post_json (path : string) (data : gmap string string)
  (follow_redirects : bool) : M (state SessionScraper) (option JSON) :=
  _get_client ;;
  let! url := read (fun o => url_for o path) in
  try_except2
    (let! response := client_send (POST url (FormData data) follow_redirects) in
     raise_for_status response ;;
     let! j := response_json response in
     ret (Some j))
    is_HTTPError (fun _ => ret None)
    is_Exception (fun _ => ret None).

(** *** [SessionScraper.login] and [SessionScraper.login_with_details] *)

(** [{username_field: username, password_field: password}], then
    [form_data.update(extra_fields)] when [extra_fields] is given and not
    empty. *)
Definition form_data (username_field username password_field password : string)
  (extra_fields : option (gmap string string)) : gmap string string :=
  let base := <[password_field := password]> (<[username_field := username]> ∅) in
  match extra_fields with
  | Some extra => if bool_decide (extra = ∅) then base else extra ∪ base
  | None => base
  end.

(** [lambda x: x and "error" in x.lower()] *)
Definition error_like (x : string) : bool := truthy x && contains "error" (lower x).

(** [soup.find("form", {"id": "loginForm"}) or
     soup.find("input", {"type": "password"})] *)
Definition login_form (soup : Soup.node) : option Soup.node :=
  match Soup.find_by (fun n => Soup.has_name "form" n && Soup.attr_is "id" "loginForm" n) soup with
  | Some f => Some f
  | None => Soup.find_by (fun n => Soup.has_name "input" n && Soup.attr_is "type" "password" n) soup
  end.

(** [soup.find(class_=lambda x: x and "error" in x.lower())] *)
Definition error_by_class (soup : Soup.node) : option Soup.node :=
  Soup.find_by (Soup.class_matches error_like) soup.

Definition set_logged_in : M (state SessionScraper) unit :=
  update (fun o => {| base_url := base_url o; timeout := timeout o;
                      _client := _client o; logged_in := true |}).

Definition login (login_path username password username_field password_field : string)
  (extra_fields : option (gmap string string)) : M (state SessionScraper) bool :=
  let form_data := form_data username_field username password_field password extra_fields in
  let! result := post login_path form_data true in
  match result with
  | Some html =>
      if truthy html then
        let soup := BeautifulSoup html in
        match login_form soup, error_by_class soup with
        | None, None => set_logged_in ;; ret true
        | _, _ => ret false
        end
      else ret false
  | None => ret false
  end.

Record login_details := { success : bool; error : option string }.

(** The list [error_selectors] of [login_with_details]. *)
Definition error_selectors (soup : Soup.node) : list (option Soup.node) :=
  [ Soup.find_by (Soup.class_matches error_like) soup;
    Soup.find_by (Soup.id_matches error_like) soup;
    Soup.find_by (fun n => Soup.has_name "div" n && Soup.class_matches (String.eqb "alert") n) soup;
    Soup.find_by (fun n => Soup.has_name "span" n && Soup.class_matches (String.eqb "error") n) soup;
    Soup.find_by (fun n => Soup.has_name "p" n && Soup.class_matches (String.eqb "error") n) soup ].

(** The loop [for elem in error_selectors: if elem: ...; break]. *)
Fixpoint first_error_text (sel : list (option Soup.node)) : option string :=
  match sel with
  | [] => None
  | Some elem :: _ => Some (Soup.get_text_strip elem)
  | None :: sel' => first_error_text sel'
  end.

Definition generic_failure : string :=
  "Login failed - invalid credentials or session error".

Definition login_with_details
  (login_path username password username_field password_field : string)
  (extra_fields : option (gmap string string)) : M (state SessionScraper) login_details :=
  let form_data := form_data username_field username password_field password extra_fields in
  let! result := post login_path form_data true in
  match result with
  | Some html =>
      if truthy html then
        let soup := BeautifulSoup html in
        let error_msg := first_error_text (error_selectors soup) in
        match login_form soup, error_msg with
        | None, None => set_logged_in ;; ret {| success := true; error := None |}
        | _, _ =>
            ret {| success := false;
                   error := Some (or_else (default "" error_msg) generic_failure) |}
        end
      else ret {| success := false; error := Some "No response from server" |}
  | None => ret {| success := false; error := Some "No response from server" |}
  end.

(** *** [SessionScraper.get_login_form_fields] *)

Record field := { type : string; value : string }.

Record form_info := {
  action : string;
  method : string;
  fields : gmap string field;
  hidden_fields : gmap string string
}.

(** The body of [for inp in form.find_all("input")], on the pair of the
    dictionaries [fields["fields"]] and [fields["hidden_fields"]]. *)
Definition input_step (acc : gmap string field * gmap string string) (inp : Soup.node)
  : gmap string field * gmap string string :=
  let '(visible, hidden) := acc in
  match Soup.get "name" inp with
  | None => acc
  | Some name =>
      if truthy name then
        let input_type := Soup.get_default "type" "text" inp in
        let value := Soup.get_default "value" "" inp in
        if String.eqb input_type "hidden"
        then (visible, <[name := value]> hidden)
        else (<[name := {| type := input_type; value := value |}]> visible, hidden)
      else acc
  end.

Definition form_fields (form : Soup.node) : form_info :=
  let '(visible, hidden) :=
    fold_left input_step (Soup.find_all "input" form) (∅, ∅) in
  {| action := Soup.get_default "action" "" form;
     method := Soup.get_default "method" "POST" form;
     fields := visible;
     hidden_fields := hidden |}.

(** The result is [None] for the empty dictionary [{}]. *)
Definition get_login_form_fields (login_page_path : string)
  : M (state SessionScraper) (option form_info) :=
  let! html := get login_page_path in
  match html with
  | None => ret None
  | Some html =>
      if truthy html then
        match Soup.find "form" (BeautifulSoup html) with
        | None => ret None
        | Some form => ret (Some (form_fields form))
        end
      else ret None
  end.

Definition close : M (state SessionScraper) unit :=
  let! c := read _client in
  if c then
    emit EvAclose ;;
    update (fun o => {| base_url := base_url o; timeout := timeout o;
                        _client := false; logged_in := logged_in o |})
  else ret tt.

End Transport.

Arguments close {Env}.
Arguments ws_close {Env}.
Arguments _get_client {Env}.
Arguments ws_get_client {Env}.
Arguments set_logged_in {Env}.
Arguments client_send {Env} send {O} r.
Arguments raise_for_status {Env} status_raises {O} r.
Arguments response_json {Env JSON} json_of {O} r.
Arguments fetch {Env}.
Arguments fetch_json {Env} send status_raises {JSON} json_of url.
Arguments get {Env}.
Arguments post {Env}.
Arguments json_post {Env} send status_raises {JSON} json_of path json_data follow_redirects.
Arguments form_post_json {Env} send status_raises {JSON} json_of path data follow_redirects.
Arguments login {Env}.
Arguments login_with_details {Env}.
Arguments get_login_form_fields {Env}.

End Http.

(** ** [HTMLParser.parse] ([src/parser/html_parser.py]) *)

Module HTMLParser.
Import PyStr Soup.

Record parsed := {
  title : option string;
  meta_description : option string;
  links : list Extract.link;
  headings : list (string * list string)
}.

Definition get_title (soup : node) : option string :=
  match find "title" soup with
  | Some title_tag => Some (get_text_strip title_tag)
  | None => None
  end.

Definition get_meta_description (soup : node) : option string :=
  match find_by (fun n => has_name "meta" n && attr_is "name" "description" n) soup with
  | Some meta => get "content" meta
  | None => None
  end.

Definition get_links (soup : node) : list Extract.link :=
  map (fun a_tag => {| Extract.href := get_default "href" "" a_tag;
                       Extract.text := get_text_strip a_tag |})
      (Extract.select_a_href soup).

Definition get_headings (soup : node) : list (string * list string) :=
  flat_map (fun tag_name =>
              let found := find_all tag_name soup in
              if Extract.list_truthy found
              then [(tag_name, map get_text_strip found)]
              else [])
           ["h1"; "h2"; "h3"; "h4"; "h5"; "h6"].

Definition parse (soup : node) : parsed :=
  {| title := get_title soup;
     meta_description := get_meta_description soup;
     links := get_links soup;
     headings := get_headings soup |}.

End HTMLParser.

(** ** The single-target orchestrator [do_scrape] ([app.py]) *)

Module T18.
Import PyStr Py Http.
Local Open Scope py_scope.

Inductive severity : Type := info | success | error.

Record log_entry := { type : severity; message : string }.

Record data := {
  title : option string;
  links : list Extract.link;
  tables : list Extract.table_entry;
  headings : list (string * list string);
  (** [None] while the key [meta_description] is absent *)
  meta_description : option (option string)
}.

Record save_data := {
  sv_title : option string;
  sv_navigation_links : list Extract.link;
  sv_tables : list Extract.table_entry;
  sv_headings : list (string * list string)
}.

(** The dictionary [result]; its [logs] entry is the list [logs] itself. *)
Record run_result := {
  r_success : bool;
  r_logs : list log_entry;
  r_data : data
}.

(** The local variables of [do_scrape] that change during the run. *)
Record locals := {
  scraper : SessionScraper;
  result : run_result
}.

Definition base_url : string := "https://t18.tideworks.com/fc-T18".

Definition initial_result : run_result :=
  {| r_success := false;
     r_logs := [];
     r_data := {| title := None; links := []; tables := []; headings := [];
                  meta_description := None |} |}.

Definition initial_locals : locals :=
  {| scraper := SessionScraper_init base_url None; result := initial_result |}.

Section Run.

Variable Env : Type.
Variable send : Env -> request -> Env * Py.result response.
Variable status_raises : Z -> bool.
Variable BeautifulSoup : string -> Soup.node.

(** [JSONStorage(path)] creates the parent directory; [storage.save(d)]
    writes the file.  Both may raise. *)
Variable storage_init : Env -> Env * Py.result unit.
Variable storage_save : Env -> save_data -> Env * Py.result unit.

Abbreviation St := (Py.state Env event locals).

Definition on_scraper {A} (m : M (Py.state Env event SessionScraper) A) : M St A :=
  zoom scraper (fun p o => {| scraper := p; result := result o |}) m.

(** [logs.append({"type": t, "message": m})] *)
Definition log (t : severity) (m : string) : M St unit :=
  update (fun o =>
    {| scraper := scraper o;
       result := {| r_success := r_success (result o);
                    r_logs := r_logs (result o) ++ [ {| type := t; message := m |} ];
                    r_data := r_data (result o) |} |}).

Definition set_result (ok : bool) (d : data) : M St unit :=
  update (fun o =>
    {| scraper := scraper o;
       result := {| r_success := ok; r_logs := r_logs (result o); r_data := d |} |}).

Definition JSONStorage_init : M St unit := call EvMkdir storage_init.

Definition storage_save_ (d : save_data) : M St unit :=
  call EvSave (fun env => storage_save env d).

(** The statements of the [try] block up to the login, with its outcome. *)
Definition authenticate (username password : string) : M St bool :=
  log info "Connecting to T18 Tideworks..." ;;
  let! form_info := on_scraper (get_login_form_fields send status_raises BeautifulSoup "default.do") in
  log success "Found login form" ;;
  log info ("Logging in as " +:+ username +:+ "...") ;;
  let extra_fields :=
    match form_info with Some f => Some (hidden_fields f) | None => Some ∅ end in
  let login_path :=
    or_else (match form_info with Some f => action f | None => "" end) "j_security_check" in
  on_scraper (login send status_raises BeautifulSoup login_path username password
                    "j_username" "j_password" extra_fields).

(** The statements after a successful login. *)
Definition extract_dashboard : M St unit :=
  log success "Login successful!" ;;
  log info "Fetching dashboard..." ;;
  let! dashboard_html := on_scraper (get send status_raises "default.do") in
  match dashboard_html with
  | Some html =>
      if truthy html then
        log info "Parsing page content..." ;;
        let data := HTMLParser.parse (BeautifulSoup html) in
        let soup := BeautifulSoup html in
        let nav_links := Extract.nav_links base_url soup in
        let table_data := Extract.table_data soup in
        storage_save_ {| sv_title := HTMLParser.title data;
                         sv_navigation_links := nav_links;
                         sv_tables := table_data;
                         sv_headings := HTMLParser.headings data |} ;;
        log success "Data saved to data/t18_data.json" ;;
        log info ("Found " +:+ pretty (length nav_links) +:+ " links and "
                  +:+ pretty (length table_data) +:+ " tables") ;;
        log success "Scraping complete!" ;;
        set_result true
          {| title := HTMLParser.title data;
             links := nav_links;
             tables := table_data;
             headings := HTMLParser.headings data;
             meta_description := Some (HTMLParser.meta_description data) |}
      else log error "Failed to fetch dashboard."
  | None => log error "Failed to fetch dashboard."
  end.

(** The [try] block: the two early [return result] statements leave it
    through the [finally] clause like its normal end. *)
Definition try_block (username password : string) : M St unit :=
  let! login_success := authenticate username password in
  if negb login_success
  then log error "Login failed. Check your credentials."
  else extract_dashboard.

Definition do_scrape (username password : string) : M St run_result :=
  JSONStorage_init ;;
  try_finally
    (try_except (try_block username password)
                is_Exception
                (fun e => log error ("Error: " +:+ msg e)))
    (on_scraper close) ;;
  read result.

(** A call of [do_scrape]: fresh local variables, no event yet. *)
Definition call_do_scrape (username password : string) (env : Env)
  : St * Py.result run_result :=
  do_scrape username password {| env := env; trace := []; self := initial_locals |}.

End Run.

Arguments on_scraper {Env A} m.
Arguments log {Env} t m.
Arguments set_result {Env} ok d.
Arguments JSONStorage_init {Env} storage_init.
Arguments storage_save_ {Env} storage_save d.
Arguments authenticate {Env} send status_raises BeautifulSoup username password.
Arguments extract_dashboard {Env} send status_raises BeautifulSoup storage_save.
Arguments try_block {Env} send status_raises BeautifulSoup storage_save username password.
Arguments do_scrape {Env} send status_raises BeautifulSoup storage_init storage_save
  username password.
Arguments call_do_scrape {Env} send status_raises BeautifulSoup storage_init storage_save
  username password env.

(** The requests among the events, by method. *)
Definition is_post (e : event) : bool :=
  match e with EvRequest (POST _ _ _) => true | _ => false end.
Definition is_get (e : event) : bool :=
  match e with EvRequest (GET _) => true | _ => false end.
Definition is_aclose (e : event) : bool :=
  match e with EvAclose => true | _ => false end.
Definition is_save (e : event) : bool :=
  match e with EvSave => true | _ => false end.
Definition is_error (l : log_entry) : bool :=
  match type l with error => true | _ => false end.

End T18.

(** ** The multi-target orchestrator ([scrape_etslink.py]) *)

Module ETSLink.
Import PyStr Py.
Local Open Scope py_scope.

Record location := { name : string; loc_base_url : string; code : string }.

(** The dictionary [ETSLINK_LOCATIONS], in its order of definition. *)
Definition ETSLINK_LOCATIONS : list (string * location) :=
  [ ("LAX", {| name := "Los Angeles"; loc_base_url := "https://www.etslink.com"; code := "LAX" |});
    ("OAK", {| name := "Oakland"; loc_base_url := "https://www.etslink.com"; code := "OAK" |});
    ("TIW", {| name := "Tacoma"; loc_base_url := "https://www.etslink.com"; code := "TIW" |}) ].

(** [ETSLINK_LOCATIONS.get(key)] and [list(ETSLINK_LOCATIONS.keys())] *)
Fixpoint locations_get (key : string) (d : list (string * location)) : option location :=
  match d with
  | [] => None
  | (k, v) :: d' => if String.eqb key k then Some v else locations_get key d'
  end.
Definition locations_keys : list string := map fst ETSLINK_LOCATIONS.

Inductive severity : Type := info | success | error.
Record log_entry := { type : severity; message : string }.

(** The attributes of an [ETSLinkScraper]; a driver handle is [true] while
    the attribute holds an object and [false] while it is [None]. *)
Record ETSLinkScraper := {
  username : string;
  password : string;
  base_url : string;
  logged_in : bool;
  playwright : bool;
  browser : bool;
  context : bool;
  page : bool
}.

Definition ETSLinkScraper_init (username password : string) : ETSLinkScraper :=
  {| username := username; password := password;
     base_url := "https://www.etslink.com";
     logged_in := false;
     playwright := false; browser := false; context := false; page := false |}.

(** What a run does to the browser and the file system. *)
Inductive event : Type :=
| EvStart | EvLaunch | EvNewContext | EvNewPage
| EvSubmit
| EvQueryError | EvQueryPassword
| EvNavigate (code : string)
| EvListFrames
| EvInspect (iframe : nat)
| EvFrameId (iframe : nat)
| EvFrame (code : string) (iframe : nat)
| EvTitle
| EvScreenshot (path : string)
| EvMkdir
| EvSave
| EvClosePage | EvCloseContext | EvCloseBrowser | EvStop.

Section Browser.

(** The browser, the remote site and the file system: a state machine
    [Env].  [Grid] and [FTable] are the grid and table records computed by
    the script evaluated inside a frame. *)
Variable Env : Type.
Variable Grid FTable : Type.

Record page_data := {
  url : option string;
  title : option string;
  total_grids : option nat;
  total_tables : option nat;
  screenshot_path : option string
}.

(** The dictionary [result] of [scrape_location]; grids and tables carry
    their [source_iframe]. *)
Record location_result := {
  r_location : string;
  r_code : string;
  r_data : page_data;
  r_tables : list (FTable * string);
  r_grids : list (Grid * string);
  r_error : option string
}.

(** What [scrape_location] returns: [{"error": ...}] alone for an unknown
    code, the dictionary [result] otherwise. *)
Inductive loc_data : Type :=
| Unknown (error : string)
| Scraped (r : location_result).

(** ["error" in loc_data], [loc_data["error"]], [len(loc_data.get("tables", []))] *)
Definition error_of (d : loc_data) : option string :=
  match d with
  | Unknown e => Some e
  | Scraped r => r_error r
  end.
Definition table_count (d : loc_data) : nat :=
  match d with
  | Unknown _ => 0
  | Scraped r => length (r_tables r)
  end.

(** The browser driver and the JSON store, as the run sees them. *)
Record driver := {
  PLAYWRIGHT_AVAILABLE : bool;
  (** [async_playwright().start()], [chromium.launch], [new_context],
      [new_page] *)
  pw_start : Env -> Env * Py.result unit;
  pw_launch : Env -> Env * Py.result unit;
  pw_new_context : Env -> Env * Py.result unit;
  pw_new_page : Env -> Env * Py.result unit;
  (** From [page.goto] to the saving of the cookies: fills the two inputs,
      clicks or presses Enter, waits for a verification step; answers with
      [page.url] as read after the wait. *)
  submit_credentials : Env -> string -> string -> Env * Py.result string;
  (** [query_selector('.error, ...')] then [inner_text()]; [None]: no
      element. *)
  query_error : Env -> Env * Py.result (option string);
  (** [query_selector('input[type="password"]')] then [is_visible()] *)
  password_visible : Env -> Env * Py.result bool;
  (** The menu and tab clicks that open a data page (the target's code
      only names the event). *)
  navigate : Env -> string -> Env * Py.result unit;
  (** [page.query_selector_all('iframe')] *)
  query_iframes : Env -> Env * Py.result (list nat);
  (** [iframe.get_attribute('id')] *)
  iframe_id : Env -> nat -> Env * Py.result (option string);
  (** One frame, from [is_visible] to [frame.evaluate]: [None] when the
      frame is hidden, has no content frame or yields no data. *)
  process_frame : Env -> string -> nat
                  -> Env * Py.result (option (list Grid * list FTable));
  (** [page.url], [page.title()] and [page.screenshot(path=...)] *)
  page_url : Env -> string;
  page_title : Env -> Env * Py.result string;
  screenshot : Env -> string -> Env * Py.result unit;
  (** [JSONStorage(path)] and [storage.save(result["locations"])] *)
  storage_init : Env -> Env * Py.result unit;
  storage_save : Env -> gmap string loc_data -> Env * Py.result unit
}.

Variable D : driver.

Definition set_handles (pw br cx pg : bool) (o : ETSLinkScraper) : ETSLinkScraper :=
  {| username := username o; password := password o; base_url := base_url o;
     logged_in := logged_in o;
     playwright := pw; browser := br; context := cx; page := pg |}.

Definition set_logged_in (o : ETSLinkScraper) : ETSLinkScraper :=
  {| username := username o; password := password o; base_url := base_url o;
     logged_in := true;
     playwright := playwright o; browser := browser o; context := context o;
     page := page o |}.

Abbreviation Sc := (Py.state Env event ETSLinkScraper).

(** [ETSLinkScraper.login] *)
Definition login : M Sc (bool * string) :=
  if negb (PLAYWRIGHT_AVAILABLE D) then
    ret (false, "Playwright not installed. Run: pip install playwright && playwright install chromium")
  else
    try_except
      (call EvStart (pw_start D) ;;
       update (fun o => set_handles true (browser o) (context o) (page o) o) ;;
       call EvLaunch (pw_launch D) ;;
       update (fun o => set_handles (playwright o) true (context o) (page o) o) ;;
       call EvNewContext (pw_new_context D) ;;
       update (fun o => set_handles (playwright o) (browser o) true (page o) o) ;;
       call EvNewPage (pw_new_page D) ;;
       update (fun o => set_handles (playwright o) (browser o) (context o) true o) ;;
       let! user := read username in
       let! pass := read password in
       let! url := call EvSubmit (fun env => submit_credentials D env user pass) in
       if contains "main" (lower url) || contains "home" (lower url) then
         update set_logged_in ;; ret (true, "")
       else
         let! error_elem := call EvQueryError (query_error D) in
         match error_elem with
         | Some error_text => ret (false, or_else (strip error_text) "Login failed")
         | None =>
             let! visible := call EvQueryPassword (password_visible D) in
             if visible
             then ret (false, "Login failed - invalid credentials or CAPTCHA required")
             else update set_logged_in ;; ret (true, "")
         end)
      is_Exception
      (fun e => ret (false, "Browser error: " +:+ msg e)).

(** The state of one call of [scrape_location]: the scraper and the local
    dictionary [result]. *)
Record frame := { this : ETSLinkScraper; result : location_result }.
Abbreviation Fr := (Py.state Env event frame).

Definition set_result (f : location_result -> location_result) : M Fr unit :=
  update (fun fr => {| this := this fr; result := f (result fr) |}).

(** [result["grids"].extend(...)], [result["tables"].extend(...)] after the
    tagging with [source_iframe]. *)
Definition extend (id : string) (gd : list Grid * list FTable)
  (r : location_result) : location_result :=
  {| r_location := r_location r; r_code := r_code r; r_data := r_data r;
     r_tables := r_tables r ++ map (fun t => (t, id)) (snd gd);
     r_grids := r_grids r ++ map (fun g => (g, id)) (fst gd);
     r_error := r_error r |}.

Definition set_error (e : string) (r : location_result) : location_result :=
  {| r_location := r_location r; r_code := r_code r; r_data := r_data r;
     r_tables := r_tables r; r_grids := r_grids r; r_error := Some e |}.

Definition set_data (d : page_data) (r : location_result) : location_result :=
  {| r_location := r_location r; r_code := r_code r; r_data := d;
     r_tables := r_tables r; r_grids := r_grids r; r_error := r_error r |}.

(** The body of [for iframe in iframes], with its own [try]/[except]. *)
Definition scrape_frame (code : string) (iframe : nat) : M Fr unit :=
  try_except
    (let! id := call (EvFrameId iframe) (fun env => iframe_id D env iframe) in
     let source_iframe := match id with
                          | Some i => or_else i "unknown"
                          | None => "unknown"
                          end in
     let! grid_data := call (EvFrame code iframe)
                            (fun env => process_frame D env code iframe) in
     match grid_data with
     | Some gd => set_result (extend source_iframe gd)
     | None => ret tt
     end)
    is_Exception
    (fun _ => ret tt).

Definition empty_page_data : page_data :=
  {| url := None; title := None; total_grids := None; total_tables := None;
     screenshot_path := None |}.

Definition with_url (u : string) (d : page_data) : page_data :=
  {| url := Some u; title := title d; total_grids := total_grids d;
     total_tables := total_tables d; screenshot_path := screenshot_path d |}.

Definition with_title (t : string) (grids tables : nat) (d : page_data) : page_data :=
  {| url := url d; title := Some t; total_grids := Some grids;
     total_tables := Some tables; screenshot_path := screenshot_path d |}.

Definition with_screenshot (p : string) (d : page_data) : page_data :=
  {| url := url d; title := title d; total_grids := total_grids d;
     total_tables := total_tables d; screenshot_path := Some p |}.

(** The [try] block of [scrape_location]. *)
Definition scrape_body (location_code : string) : M Fr unit :=
  call (EvNavigate (upper location_code)) (fun env => navigate D env (upper location_code)) ;;
  let! iframes := call EvListFrames (query_iframes D) in
  for_each iframes (fun iframe =>
    let! _ := call (EvInspect iframe) (fun env => iframe_id D env iframe) in ret tt) ;;
  for_each iframes (scrape_frame (upper location_code)) ;;
  let! url := gets (fun s => page_url D (env s)) in
  set_result (fun r => set_data (with_url url (r_data r)) r) ;;
  let! title := call EvTitle (page_title D) in
  set_result (fun r => set_data (with_title title (length (r_grids r))
                                            (length (r_tables r)) (r_data r)) r) ;;
  let screenshot_path := "data/etslink_" +:+ lower location_code +:+ "_screenshot.png" in
  call (EvScreenshot screenshot_path) (fun env => screenshot D env screenshot_path) ;;
  set_result (fun r => set_data (with_screenshot screenshot_path (r_data r)) r).

(** The dictionary [result] as [scrape_location] creates it. *)
Definition new_result (location : location) (location_code : string) : location_result :=
  {| r_location := name location; r_code := upper location_code;
     r_data := empty_page_data; r_tables := []; r_grids := [];
     r_error := None |}.

Definition scrape_location (location_code : string) : M Sc loc_data :=
  let! ok := read (fun o => logged_in o && page o) in
  if negb ok then
    raise {| cls := RuntimeError; msg := "Not logged in. Call login() first." |}
  else
    match locations_get (upper location_code) ETSLINK_LOCATIONS with
    | None => ret (Unknown ("Unknown location: " +:+ location_code))
    | Some location =>
        zoom (fun o => {| this := o; result := new_result location location_code |})
             (fun fr _ => this fr)
          (try_except (scrape_body location_code)
                      is_Exception
                      (fun e => set_result (set_error (msg e))) ;;
           let! r := read result in
           ret (Scraped r))
    end.

(** [ETSLinkScraper.scrape_all_locations] *)
Fixpoint scrape_all_locations (location_codes : list string)
  (results : gmap string loc_data) : M Sc (gmap string loc_data) :=
  match location_codes with
  | [] => ret results
  | code :: rest =>
      let! d := try_except (scrape_location code) is_Exception
                           (fun e => ret (Unknown (msg e))) in
      scrape_all_locations rest (<[code := d]> results)
  end.

(** [ETSLinkScraper.close]; the four driver calls are taken not to raise. *)
Definition close : M Sc unit :=
  let! p := read page in
  when p (emit EvClosePage ;;
          update (fun o => set_handles (playwright o) (browser o) (context o) false o)) ;;
  let! c := read context in
  when c (emit EvCloseContext ;;
          update (fun o => set_handles (playwright o) (browser o) false (page o) o)) ;;
  let! b := read browser in
  when b (emit EvCloseBrowser ;;
          update (fun o => set_handles (playwright o) false (context o) (page o) o)) ;;
  let! w := read playwright in
  when w (emit EvStop ;;
          update (fun o => set_handles false (browser o) (context o) (page o) o)).

(** *** [scrape_etslink] *)

(** The dictionary [result]; its [logs] entry is the list [logs] itself. *)
Record run_result := {
  r_success : bool;
  r_logs : list log_entry;
  r_locations : gmap string loc_data
}.

Record locals := { scraper : ETSLinkScraper; run : run_result }.
Abbreviation St := (Py.state Env event locals).

Definition on_scraper {A} (m : M Sc A) : M St A :=
  zoom scraper (fun p o => {| scraper := p; run := run o |}) m.

Definition log (t : severity) (m : string) : M St unit :=
  update (fun o =>
    {| scraper := scraper o;
       run := {| r_success := r_success (run o);
                 r_logs := r_logs (run o) ++ [ {| type := t; message := m |} ];
                 r_locations := r_locations (run o) |} |}).

(** [result["locations"][loc] = loc_data] *)
Definition record_location (loc : string) (d : loc_data) : M St unit :=
  update (fun o =>
    {| scraper := scraper o;
       run := {| r_success := r_success (run o);
                 r_logs := r_logs (run o);
                 r_locations := <[loc := d]> (r_locations (run o)) |} |}).

Definition set_success : M St unit :=
  update (fun o =>
    {| scraper := scraper o;
       run := {| r_success := true;
                 r_logs := r_logs (run o);
                 r_locations := r_locations (run o) |} |}).

(** The body of [for i, loc in enumerate(locations)]; [total] is
    [len(locations)]. *)
Definition scrape_one (total : nat) (iloc : nat * string) : M St unit :=
  let '(i, loc) := iloc in
  log info ("Scraping " +:+ loc +:+ " (" +:+ pretty (i + 1) +:+ "/"
            +:+ pretty total +:+ ")...") ;;
  let! loc_data := on_scraper (scrape_location loc) in
  record_location loc loc_data ;;
  match error_of loc_data with
  | None =>
      log success ("  " +:+ loc +:+ ": Found " +:+ pretty (table_count loc_data)
                   +:+ " tables")
  | Some e => log error ("  " +:+ loc +:+ ": " +:+ e)
  end.

(** The statements after a successful login. *)
Definition scrape_targets (locations : list string) : M St unit :=
  log success "Login successful!" ;;
  log info ("Scraping " +:+ pretty (length locations) +:+ " locations...") ;;
  for_each (Extract.enumerate_from 0 locations) (scrape_one (length locations)) ;;
  call EvMkdir (storage_init D) ;;
  let! locs := read (fun o => r_locations (run o)) in
  call EvSave (fun env => storage_save D env locs) ;;
  log success "Data saved to data/etslink_data.json" ;;
  set_success ;;
  log success "Scraping complete!".

Definition try_block (locations : list string) : M St unit :=
  log info "Connecting to ETSLink..." ;;
  let! (login_success, login_error) := on_scraper login in
  if negb login_success then
    log error (or_else login_error "Login failed. Check credentials.")
  else scrape_targets locations.

Definition initial_locals (username password : string) : locals :=
  {| scraper := ETSLinkScraper_init username password;
     run := {| r_success := false; r_logs := []; r_locations := ∅ |} |}.

(** [locations] is [None] when the caller leaves the default. *)
Definition scrape_etslink (locations : option (list string)) : M St run_result :=
  let locations := match locations with
                   | Some l => l
                   | None => locations_keys
                   end in
  try_finally
    (try_except (try_block locations)
                is_Exception
                (fun e => log error ("Error: " +:+ msg e)))
    (on_scraper close) ;;
  read run.

(** A call of [scrape_etslink]: fresh local variables, no event yet. *)
Definition call_scrape_etslink (username password : string)
  (locations : option (list string)) (env : Env) : St * Py.result run_result :=
  scrape_etslink locations
    {| env := env; trace := []; self := initial_locals username password |}.

End Browser.

Arguments driver Env Grid FTable : clear implicits.
Arguments PLAYWRIGHT_AVAILABLE {Env Grid FTable} d.
Arguments pw_start {Env Grid FTable} d.
Arguments pw_launch {Env Grid FTable} d.
Arguments pw_new_context {Env Grid FTable} d.
Arguments pw_new_page {Env Grid FTable} d.
Arguments submit_credentials {Env Grid FTable} d.
Arguments query_error {Env Grid FTable} d.
Arguments password_visible {Env Grid FTable} d.
Arguments navigate {Env Grid FTable} d.
Arguments query_iframes {Env Grid FTable} d.
Arguments iframe_id {Env Grid FTable} d.
Arguments process_frame {Env Grid FTable} d.
Arguments page_url {Env Grid FTable} d.
Arguments page_title {Env Grid FTable} d.
Arguments screenshot {Env Grid FTable} d.
Arguments storage_init {Env Grid FTable} d.
Arguments storage_save {Env Grid FTable} d.
Arguments r_location {Grid FTable} _.
Arguments r_code {Grid FTable} _.
Arguments r_data {Grid FTable} _.
Arguments r_tables {Grid FTable} _.
Arguments r_grids {Grid FTable} _.
Arguments r_error {Grid FTable} _.
Arguments this {Grid FTable} _.
Arguments result {Grid FTable} _.
Arguments scraper {Grid FTable} _.
Arguments run {Grid FTable} _.
Arguments r_success {Grid FTable} _.
Arguments r_logs {Grid FTable} _.
Arguments r_locations {Grid FTable} _.
Arguments error_of {Grid FTable} _.
Arguments table_count {Grid FTable} _.
Arguments Unknown {Grid FTable} error.
Arguments Scraped {Grid FTable} r.
Arguments Build_location_result {Grid FTable}.
Arguments Build_frame {Grid FTable}.
Arguments Build_locals {Grid FTable}.
Arguments Build_run_result {Grid FTable}.
Arguments extend {Grid FTable} id gd r.
Arguments set_error {Grid FTable} e r.
Arguments set_data {Grid FTable} d r.
Arguments new_result {Grid FTable} location location_code.
Arguments login {Env Grid FTable} D.
Arguments scrape_frame {Env Grid FTable} D code iframe.
Arguments scrape_body {Env Grid FTable} D location_code.
Arguments scrape_location {Env Grid FTable} D location_code.
Arguments scrape_all_locations {Env Grid FTable} D location_codes results.
Arguments close {Env}.
Arguments on_scraper {Env Grid FTable A} m.
Arguments log {Env Grid FTable} t m.
Arguments record_location {Env Grid FTable} loc d.
Arguments set_success {Env Grid FTable}.
Arguments scrape_one {Env Grid FTable} D total iloc.
Arguments scrape_targets {Env Grid FTable} D locations.
Arguments try_block {Env Grid FTable} D locations.
Arguments scrape_etslink {Env Grid FTable} D locations.
Arguments call_scrape_etslink {Env Grid FTable} D username password locations env.
Arguments initial_locals {Grid FTable} username password.
Arguments set_result {Env Grid FTable} f.

(** The events of a run, by kind. *)
Definition is_submit (e : event) : bool :=
  match e with EvSubmit => true | _ => false end.
Definition is_extraction (e : event) : bool :=
  match e with
  | EvNavigate _ | EvListFrames | EvInspect _ | EvFrameId _ | EvFrame _ _ | EvTitle
  | EvScreenshot _ | EvSave | EvMkdir => true
  | _ => false
  end.
Definition is_closing (e : event) : bool :=
  match e with
  | EvClosePage | EvCloseContext | EvCloseBrowser | EvStop => true
  | _ => false
  end.
Definition is_error (l : log_entry) : bool :=
  match type l with error => true | _ => false end.

(** The frames whose extraction was started, in order. *)
Definition frames_started (evs : list event) : list nat :=
  flat_map (fun e => match e with EvFrameId i => [i] | _ => [] end) evs.

(** What [close] emits for the handles that are set. *)
Definition closing (o : ETSLinkScraper) : list event :=
  (if page o then [EvClosePage] else []) ++
  (if context o then [EvCloseContext] else []) ++
  (if browser o then [EvCloseBrowser] else []) ++
  (if playwright o then [EvStop] else []).

End ETSLink.

(** ** The token bucket ([src/utils/rate_limiter.py])

    Times and token counts are Python floats; they are modelled as exact
    rationals, so rounding is outside the model. *)

Module Limiter.
Local Open Scope Q_scope.

Record RateLimiter := {
  rate : Q;
  burst : Z;
  tokens : Q;
  last_update : Q
}.

(** [RateLimiter(requests_per_second=1.0, burst=1)], built at time [now]. *)
Definition RateLimiter_init (requests_per_second : option Q) (burst_arg : option Z)
  (now : Q) : RateLimiter :=
  let b := match burst_arg with Some b => b | None => 1%Z end in
  {| rate := match requests_per_second with Some r => r | None => 1 end;
     burst := b;
     tokens := inject_Z b;
     last_update := now |}.

(** [_refill_tokens], with [now] the reading of [time.monotonic()]. *)
Definition _refill_tokens (now : Q) (l : RateLimiter) : RateLimiter :=
  let elapsed := now - last_update l in
  {| rate := rate l;
     burst := burst l;
     tokens := Qmin (inject_Z (burst l)) (tokens l + elapsed * rate l);
     last_update := now |}.

(** [self.tokens -= 1] *)
Definition take (l : RateLimiter) : RateLimiter :=
  {| rate := rate l; burst := burst l; tokens := tokens l - 1;
     last_update := last_update l |}.

(** One turn of the [while True] loop of [_wait_for_token]: the token is
    taken, or the caller must sleep [wait_time]; a zero rate makes the
    division raise. *)
Inductive attempt : Type :=
| Taken (l : RateLimiter)
| Sleep (l : RateLimiter) (wait_time : Q)
| ZeroDivisionError (l : RateLimiter).

Definition try_take (now : Q) (l : RateLimiter) : attempt :=
  let l1 := _refill_tokens now l in
  if Qle_bool 1 (tokens l1) then Taken (take l1)
  else if Qeq_bool (rate l1) 0 then ZeroDivisionError l1
  else Sleep l1 ((1 - tokens l1) / rate l1).

Inductive outcome (Clock : Type) : Type :=
| Acquired (l : RateLimiter) (c : Clock)
| Raised (l : RateLimiter) (c : Clock)
| Waiting (l : RateLimiter) (c : Clock).
Arguments Acquired {Clock} l c.
Arguments Raised {Clock} l c.
Arguments Waiting {Clock} l c.

Section Clock.

(** The clock: [monotonic] is [time.monotonic()], [sleep] is
    [asyncio.sleep(wait_time)]. *)
Variable Clock : Type.
Variable monotonic : Clock -> Clock * Q.
Variable sleep : Clock -> Q -> Clock.

(** [_wait_for_token], cut after [fuel] turns of the loop; [acquire] runs it
    under the lock. *)
Fixpoint _wait_for_token (fuel : nat) (c : Clock) (l : RateLimiter) : outcome Clock :=
  match fuel with
  | O => Waiting l c
  | S fuel' =>
      let '(c1, now) := monotonic c in
      match try_take now l with
      | Taken l' => Acquired l' c1
      | ZeroDivisionError l1 => Raised l1 c1
      | Sleep l1 wait_time => _wait_for_token fuel' (sleep c1 wait_time) l1
      end
  end.

Definition acquire : nat -> Clock -> RateLimiter -> outcome Clock := _wait_for_token.

(** A clock on which a sleep lasts at least as long as asked: the reading
    after [sleep w] is at least the reading before it plus [w]. *)
Definition honest : Prop :=
  forall c w, snd (monotonic c) + w <= snd (monotonic (sleep (fst (monotonic c)) w)).

(** The limiter states a sequence of [acquire] calls can go through. *)
Inductive reachable (l0 : RateLimiter) : RateLimiter -> Prop :=
| reach_init : reachable l0 l0
| reach_refill l now : reachable l0 l -> reachable l0 (_refill_tokens now l)
| reach_take l : reachable l0 l -> Qle 1 (tokens l) -> reachable l0 (take l).

End Clock.

Arguments _wait_for_token {Clock} monotonic sleep fuel c l.
Arguments acquire {Clock} monotonic sleep.
Arguments honest {Clock} monotonic sleep.

(** A clock for examples: the state is the current time; sleeping advances
    it by the requested delay. *)
Definition ideal_monotonic (t : Q) : Q * Q := (t, t).
Definition ideal_sleep (t w : Q) : Q := t + Qmax w 0.

End Limiter.

(** ** Reference descriptions and sample inputs used by the properties *)

Module TableSpec.
Import PyStr Soup Extract.

(** A cell is blank when every string below it is empty or whitespace; a
    row is blank when all its cells are (a row without cells included). *)
Definition blank_cell (cell : node) : bool := forallb all_space (strings cell).
Definition blank_row (tr : node) : bool :=
  forallb blank_cell (find_all_in ["td"; "th"] tr).

Fixpoint remove_first {A} (p : A -> bool) (l : list A) : list A :=
  match l with
  | [] => []
  | x :: l' => if p x then l' else x :: remove_first p l'
  end.

(** The table as the invariant describes it: blank rows are dropped; of the
    rows that remain, the first one with a [th] cell gives the headers and
    the others, in order, give the rows. *)
Definition described (trs : list node) : list string * list (list string) :=
  let kept := List.filter (fun tr => negb (blank_row tr)) trs in
  (match List.find has_th kept with
   | Some h => cells_of h
   | None => []
   end,
   map cells_of (remove_first has_th kept)).

Definition td (s : string) : node := Tag "td" [] [NavigableString s].
Definition th (s : string) : node := Tag "th" [] [NavigableString s].
Definition tr (cells : list node) : node := Tag "tr" [] cells.

(** The table [[["", ""], ["A", "B"]]] inside a page. *)
Definition sample_page : node :=
  Tag "html" [] [ Tag "body" [] [
    Tag "table" [] [ tr [td ""; td ""]; tr [td "A"; td "B"] ] ] ].

(** A page with a header row, a whitespace row and two data rows. *)
Definition headed_page : node :=
  Tag "html" [] [ Tag "body" [] [
    Tag "table" [] [ tr [th "Vessel"; th "ETA"];
                     tr [td "  "; td ""];
                     tr [td "Ever Given"; td " 12:00 "];
                     tr [th "Total"; td "1"] ] ] ].

End TableSpec.

Module LinkSamples.
Import Soup.

Definition anchor (href text : string) : node :=
  Tag "a" [("href", href)] [NavigableString text].

Definition links_page : node :=
  Tag "html" [] [ Tag "body" [] [
    anchor "/about" "About";
    anchor "https://other.example/x" "Other";
    anchor "javascript:void(0)" "Script";
    anchor "#top" "Top";
    anchor "mailto:ops@site.example" "Mail";
    anchor "/hidden" "  ";
    anchor "ftp://files.example/x" "Files" ] ].

End LinkSamples.

Module HttpSpec.
Import Py Http.

(** What a fetch answers for an outcome of the transport: the body of a
    response whose status passes [raise_for_status], [None] for a rejected
    status and for an [httpx.HTTPError], the exception itself otherwise. *)
Definition answer (status_raises : Z -> bool) (out : result response)
  : result (option string) :=
  match out with
  | Ret r => if status_raises (status_code r) then Ret None else Ret (Some (text r))
  | Raise e => if is_HTTPError e then Ret None else Raise e
  end.

(** An HTTP-level failure: an error status, or an exception of the
    [httpx.HTTPError] family (connection error, time-out, ...). *)
Definition http_failure (status_raises : Z -> bool) (out : result response) : bool :=
  match out with
  | Ret r => status_raises (status_code r)
  | Raise e => is_HTTPError e
  end.

(** The url [get] requests. *)
Definition get_url (o : SessionScraper) (path : string) : string :=
  if PyStr.truthy path then url_for o path else base_url o.

(** A transport for examples: the world is the list of the outcomes still
    to come, one per request; when none is left the connection fails. *)
Definition scripted (script : list (result response)) (r : request)
  : list (result response) * result response :=
  match script with
  | out :: rest => (rest, out)
  | [] => ([], Raise {| cls := ConnectError; msg := "connection refused" |})
  end.

(** [raise_for_status] of current httpx: every status outside 2xx raises. *)
Definition not_2xx (status : Z) : bool := negb ((200 <=? status)%Z && (status <? 300)%Z).

Definition start {Env} (env : Env) (o : SessionScraper)
  : Py.state Env event SessionScraper :=
  {| env := env; trace := []; self := o |}.

Definition ok (html : string) : result response :=
  Ret {| status_code := 200; text := html |}.
Definition not_found : result response :=
  Ret {| status_code := 404; text := "Not Found" |}.
Definition timed_out : result response :=
  Raise {| cls := TimeoutException; msg := "timed out" |}.

End HttpSpec.

Module FormSpec.
Import PyStr Soup Http.

(** The inputs of a form that carry the non-empty name [n]. *)
Definition named (n : string) (inp : node) : bool :=
  match Soup.get "name" inp with
  | Some m => truthy m && String.eqb m n
  | None => false
  end.

Definition is_hidden (inp : node) : bool :=
  String.eqb (get_default "type" "text" inp) "hidden".

Definition field_of (inp : node) : field :=
  {| type := get_default "type" "text" inp; value := get_default "value" "" inp |}.

(** A login page: one form with a text input, a password input and a
    hidden CSRF token. *)
Definition login_form_node : node :=
  Tag "form" [("action", "j_security_check"); ("method", "post")]
    [ Tag "input" [("type", "text"); ("name", "j_username")] [];
      Tag "input" [("type", "password"); ("name", "j_password")] [];
      Tag "input" [("type", "hidden"); ("name", "csrf"); ("value", "tok123")] [];
      Tag "input" [("type", "submit"); ("value", "Login")] [] ].

Definition login_page : node :=
  Tag "html" [] [ Tag "body" [] [ Tag "h1" [] [NavigableString "Sign in"];
                                   login_form_node ] ].

End FormSpec.

Module LoginSpec.
Import PyStr Soup Http.

Definition found (o : option node) : bool :=
  match o with Some _ => true | None => false end.

(** The indicators the two login methods look for in the response page. *)
Definition has_password_input (soup : node) : bool :=
  found (find_by (fun n => has_name "input" n && attr_is "type" "password" n) soup).
Definition has_login_form (soup : node) : bool :=
  found (find_by (fun n => has_name "form" n && attr_is "id" "loginForm" n) soup).
Definition has_error_class (soup : node) : bool :=
  found (find_by (class_matches error_like) soup).
Definition has_error_id (soup : node) : bool :=
  found (find_by (id_matches error_like) soup).
Definition has_alert_div (soup : node) : bool :=
  found (find_by (fun n => has_name "div" n && class_matches (String.eqb "alert") n) soup).

(** All the indicators of [login_with_details] together. *)
Definition indicators (soup : node) : bool :=
  has_login_form soup || has_password_input soup ||
  has_error_class soup || has_error_id soup || has_alert_div soup.

(** The claim's reading of a failure indicator: a password input, or an
    element with an error-style class or id. *)
Definition claimed_failure (soup : node) : bool :=
  has_password_input soup || has_error_class soup || has_error_id soup.

(** A response page that still shows the form [loginForm], without any
    password input and without any error element. *)
Definition form_only_html : string := "<form id='loginForm'></form>".
Definition form_only_page : node :=
  Tag "html" [] [ Tag "body" [] [ Tag "form" [("id", "loginForm")] [] ] ].

(** A response page that still contains a password input. *)
Definition password_page : node :=
  Tag "html" [] [ Tag "body" [] [
    Tag "form" [("action", "login")]
      [ Tag "input" [("type", "password"); ("name", "password")] [] ] ] ].

(** A response page with an error element. *)
Definition error_page : node :=
  Tag "html" [] [ Tag "body" [] [
    Tag "div" [("class", "msg loginError")] [NavigableString " Bad password "];
    Tag "p" [] [NavigableString "Welcome"] ] ].

End LoginSpec.

Module RunSamples.
Import Py.

(** A store that always works, on any world. *)
Definition store_init {Env} (env : Env) : Env * result unit := (env, Ret tt).
Definition store_save {Env A} (env : Env) (d : A) : Env * result unit := (env, Ret tt).

(** A browser for examples.  The world is [unit]; tables are named by
    strings and there are no grids.  After the credentials are submitted
    the page is at [landing]; the error element, if any, reads
    [error_text].  The page shows three frames; frame 2 fails while it is
    processed; the menu of target [OAK] cannot be opened. *)
Definition sample_driver (landing : string) (error_text : option string)
  : ETSLink.driver unit unit string :=
  {| ETSLink.PLAYWRIGHT_AVAILABLE := true;
     ETSLink.pw_start := fun env => (env, Ret tt);
     ETSLink.pw_launch := fun env => (env, Ret tt);
     ETSLink.pw_new_context := fun env => (env, Ret tt);
     ETSLink.pw_new_page := fun env => (env, Ret tt);
     ETSLink.submit_credentials := fun env _ _ => (env, Ret landing);
     ETSLink.query_error := fun env => (env, Ret error_text);
     ETSLink.password_visible := fun env => (env, Ret true);
     ETSLink.navigate := fun env code =>
       if String.eqb code "OAK"
       then (env, Raise {| cls := DriverError; msg := "Timeout 30000ms exceeded" |})
       else (env, Ret tt);
     ETSLink.query_iframes := fun env => (env, Ret [1; 2; 3]);
     ETSLink.iframe_id := fun env i => (env, Ret (Some ("frame" +:+ pretty i)));
     ETSLink.process_frame := fun env code i =>
       if Nat.eqb i 2
       then (env, Raise {| cls := DriverError; msg := "Frame was detached" |})
       else (env, Ret (Some ([], ["table of " +:+ code])));
     ETSLink.page_url := fun _ => "https://www.etslink.com/main";
     ETSLink.page_title := fun env => (env, Ret "ETSLink");
     ETSLink.screenshot := fun env _ => (env, Ret tt);
     ETSLink.storage_init := store_init;
     ETSLink.storage_save := store_save |}.

(** The login is rejected with a message on the page. *)
Definition rejecting_driver : ETSLink.driver unit unit string :=
  sample_driver "https://www.etslink.com/login" (Some " Invalid user id or password ").

(** The login succeeds: the page lands on [/main]. *)
Definition accepting_driver : ETSLink.driver unit unit string :=
  sample_driver "https://www.etslink.com/main" None.

(** A parser for examples: the text [login] is the login page, any other
    text a page that still shows a password input. *)
Definition sample_parse (html : string) : Soup.node :=
  if String.eqb html "login" then FormSpec.login_page else LoginSpec.password_page.

(** The site answers the login page, then the login page again. *)
Definition rejecting_site : list (result Http.response) :=
  [HttpSpec.ok "login"; HttpSpec.ok "again"].

End RunSamples.

(** ** Text and URL helpers ([src/utils/helpers.py]) *)

Module Helpers.
Import PyStr.

(** The outcome of a call that may raise [ValueError]. *)
Inductive checked (A : Type) : Type :=
| Value (a : A)
| ValueError (msg : string).
Arguments Value {A} a.
Arguments ValueError {A} msg.

(** [re.sub(r"\s+", " ", text)]: every maximal run of whitespace is
    replaced by one space; [in_run] tells that the character before was
    whitespace. *)
Fixpoint sub_ws (in_run : bool) (text : string) : string :=
  match text with
  | EmptyString => EmptyString
  | String c text' =>
      if isspace c
      then if in_run then sub_ws true text' else String " " (sub_ws true text')
      else String c (sub_ws false text')
  end.

Definition clean_text (text : string) : string := strip (sub_ws false text).

(** No character of [s] is whitespace. *)
Fixpoint no_space (s : string) : bool :=
  match s with
  | EmptyString => true
  | String c s' => negb (isspace c) && no_space s'
  end.

(** The attributes of [urlparse(url)] the helpers read. *)
Record ParseResult := { scheme : string; netloc : string; path : string }.

(** [s.rsplit(ch, 1)[-1]]: what follows the last [ch], the whole of [s]
    when there is none. *)
Fixpoint rsplit_last (ch : ascii) (s : string) : string :=
  match s with
  | EmptyString => EmptyString
  | String c s' =>
      if contains (String ch EmptyString) s' then rsplit_last ch s'
      else if Ascii.eqb c ch then s' else s
  end.

Section Urllib.

(** [urllib.parse.urljoin] and [urllib.parse.urlparse]; both raise
    [ValueError] on some malformed inputs. *)
Variable urljoin : string -> string -> checked string.
Variable urlparse : string -> checked ParseResult.

(** [base_url] is [None] when the caller leaves the default. *)
Definition normalize_url (url : string) (base_url : option string) : checked string :=
  let url := strip url in
  let resolved :=
    match base_url with
    | Some base =>
        if truthy base && negb (startswith_any url ["http://"; "https://"; "//"])
        then urljoin base url
        else Value url
    | None => Value url
    end in
  match resolved with
  | Value url => if startswith url "//" then Value ("https:" +:+ url) else Value url
  | ValueError m => ValueError m
  end.

Definition extract_domain (url : string) : checked string :=
  match urlparse url with
  | Value parsed => Value (netloc parsed)
  | ValueError m => ValueError m
  end.

(** [all([result.scheme, result.netloc])], [False] on [ValueError]. *)
Definition is_valid_url (url : string) : bool :=
  match urlparse url with
  | Value result => truthy (scheme result) && truthy (netloc result)
  | ValueError _ => false
  end.

Definition get_file_extension (url : string) : checked (option string) :=
  match urlparse url with
  | Value parsed =>
      let path := path parsed in
      if contains "." path
      then Value (Some (lower (rsplit_last "." path)))
      else Value None
  | ValueError m => ValueError m
  end.

End Urllib.

(** A string does not begin with whitespace. *)
Definition starts_clean (s : string) : bool :=
  match s with
  | EmptyString => true
  | String c _ => negb (isspace c)
  end.

(** Stand-ins for [urlparse] and [urljoin] in examples: they know one
    address and its directory, and refuse everything else. *)
Definition sample_urlparse (url : string) : checked ParseResult :=
  if String.eqb url "https://example.com/docs/file.PDF"
  then Value {| scheme := "https"; netloc := "example.com"; path := "/docs/file.PDF" |}
  else ValueError "Invalid URL".

Definition sample_urljoin (base url : string) : checked string :=
  if String.eqb base "https://example.com" && String.eqb url "/page"
  then Value "https://example.com/page"
  else ValueError "Invalid URL".

End Helpers.

(** ** JSON values *)

Module Json.

(** What [json.load] returns and [json.dump] accepts: [None], booleans,
    numbers, strings, lists and dictionaries with string keys.  Integers
    and floats are one kind of number, an exact rational; the float values
    that are not JSON ([nan], the infinities) are left out. *)
Inductive json : Type :=
| JNull
| JBool (b : bool)
| JNumber (q : Q)
| JString (s : string)
| JArray (items : list json)
| JObject (members : gmap string json).

(** [bool(j)] *)
Definition truthy (j : json) : bool :=
  match j with
  | JNull => false
  | JBool b => b
  | JNumber q => negb (Qeq_bool q 0)
  | JString s => PyStr.truthy s
  | JArray items => Extract.list_truthy items
  | JObject members => negb (Nat.eqb (size members) 0)
  end.

(** [x or d] *)
Definition or_else (x d : json) : json := if truthy x then x else d.

End Json.

(** ** The JSON file store ([src/storage/json_storage.py])

    A [JSONStorage] reads and writes the one file at [self.filepath]; the
    state is that file: [None] while it does not exist, otherwise the JSON
    value its text stands for.  Errors of the operating system and files
    whose text is not JSON are outside this model; the orchestrators take
    the store as a parameter that may raise. *)

Module JSONStore.
Import Json Helpers.

Abbreviation file := (option json).

(** [storage.save(data)] *)
Definition save (data : json) (f : file) : file := Some data.

(** [storage.load()]: Python's [None] is [JNull], for a missing file as
    for a file that holds [null]. *)
Definition load (f : file) : json := default JNull f.

(** [storage.append(item)] *)
Definition append (item : json) (f : file) : file * checked unit :=
  match or_else (load f) (JArray []) with
  | JArray data => (save (JArray (data ++ [item])) f, Value tt)
  | _ => (f, ValueError "Cannot append to non-array JSON file")
  end.

(** [storage.update(key, value)] *)
Definition update (key : string) (value : json) (f : file) : file * checked unit :=
  match or_else (load f) (JObject ∅) with
  | JObject data => (save (JObject (<[key := value]> data)) f, Value tt)
  | _ => (f, ValueError "Cannot update non-object JSON file")
  end.

(** [storage.exists()] *)
Definition exists_ (f : file) : bool :=
  match f with Some _ => true | None => false end.

(** The dictionary [update] starts from: the stored object, the empty
    dictionary when there is none. *)
Definition old_members (f : file) : gmap string json :=
  match load f with JObject members => members | _ => ∅ end.

(** A run of [append] calls, stopped by the first one that raises. *)
Fixpoint append_all (items : list json) (f : file) : file * checked unit :=
  match items with
  | [] => (f, Value tt)
  | item :: rest =>
      match append item f with
      | (f', Value _) => append_all rest f'
      | (f', ValueError m) => (f', ValueError m)
      end
  end.

(** The answer of the routes [GET /api/data] and [GET /api/etslink/data]
    ([app.py]): the stored data when [load] returns something true, the
    message [No data found] otherwise. *)
Record data_response := {
  success : bool;
  data : json;
  message : option string
}.

Definition get_saved_data (f : file) : data_response :=
  let data := load f in
  if truthy data
  then {| success := true; data := data; message := None |}
  else {| success := false; data := JNull; message := Some "No data found" |}.

End JSONStore.

(** ** The CSV file store ([src/storage/csv_storage.py])

    The state is the text of the file at [self.filepath], [None] while it
    does not exist.  The encoding of a header and of a row is that of
    [csv.DictWriter]; it enters as a parameter. *)

Module CSVStore.
Import PyStr Helpers.

Abbreviation file := (option string).

(** A row: a dictionary, its keys in insertion order. *)
Abbreviation row := (list (string * string)).

Record CSVStorage := { fieldnames : option (list string) }.

(** [self.fieldnames or list(first.keys())] *)
Definition fieldnames_for (self : CSVStorage) (first : row) : list string :=
  match fieldnames self with
  | Some (name :: names) => name :: names
  | Some [] | None => map fst first
  end.

Section Writer.

(** What [writer.writeheader()] and [writer.writerow(row)] write for the
    given field names; [writerow] raises [ValueError] for a row with a key
    that is not a field name. *)
Variable header_text : list string -> string.
Variable row_text : list string -> row -> checked string.

(** [open(self.filepath, "w")] and [open(self.filepath, "a")] *)
Definition open_w (f : file) : file := Some EmptyString.
Definition open_a (f : file) : file := Some (default EmptyString f).

Definition write (text : string) (f : file) : file :=
  match f with
  | Some old => Some (old +:+ text)
  | None => None
  end.

Definition writeheader (names : list string) (f : file) : file :=
  write (header_text names) f.

(** [writer.writerow(row)]; nothing is written when it raises. *)
Definition writerow (names : list string) (r : row) (f : file) : file * checked unit :=
  match row_text names r with
  | Value text => (write text f, Value tt)
  | ValueError m => (f, ValueError m)
  end.

(** [writer.writerows(rows)]: row by row, up to the first one that raises. *)
Fixpoint writerows (names : list string) (rows : list row) (f : file)
  : file * checked unit :=
  match rows with
  | [] => (f, Value tt)
  | r :: rest =>
      match writerow names r f with
      | (f', Value _) => writerows names rest f'
      | (f', ValueError m) => (f', ValueError m)
      end
  end.

(** [storage.save(data)] *)
Definition save (self : CSVStorage) (data : list row) (f : file) : file * checked unit :=
  match data with
  | [] => (f, Value tt)
  | first :: _ =>
      let names := fieldnames_for self first in
      writerows names data (writeheader names (open_w f))
  end.

(** [storage.append(row)]: the header is written when the file does not
    exist or is empty. *)
Definition append (self : CSVStorage) (r : row) (f : file) : file * checked unit :=
  let file_exists := match f with Some text => truthy text | None => false end in
  let names := fieldnames_for self r in
  let f1 := open_a f in
  writerow names r (if negb file_exists then writeheader names f1 else f1).

(** [storage.append_rows(rows)]: the header is written when the file does
    not exist. *)
Definition append_rows (self : CSVStorage) (rows : list row) (f : file)
  : file * checked unit :=
  match rows with
  | [] => (f, Value tt)
  | first :: _ =>
      let file_exists := match f with Some _ => true | None => false end in
      let names := fieldnames_for self first in
      let f1 := open_a f in
      writerows names rows (if negb file_exists then writeheader names f1 else f1)
  end.

(** [storage.exists()] *)
Definition exists_ (f : file) : bool :=
  match f with Some _ => true | None => false end.

(** One call after another; the second is not made when the first raises. *)
Definition and_then (r : file * checked unit) (next : file -> file * checked unit)
  : file * checked unit :=
  match r with
  | (f, Value _) => next f
  | (f, ValueError m) => (f, ValueError m)
  end.

End Writer.

(** A writer for examples: fields and rows end with a line feed, the
    values are separated by commas; a key outside the field names is
    refused. *)
Definition lookup_field (r : row) (name : string) : string :=
  default EmptyString (Soup.assoc name r).

Definition sample_header (names : list string) : string :=
  join "," names +:+ String (ascii_of_nat 10) EmptyString.

Definition sample_row (names : list string) (r : row) : checked string :=
  if forallb (fun kv => existsb (String.eqb (fst kv)) names) r
  then Value (join "," (map (lookup_field r) names) +:+ String (ascii_of_nat 10) EmptyString)
  else ValueError "dict contains fields not in fieldnames".

End CSVStore.

(** ** Runs of the token bucket, and the synchronous limiter
       ([src/utils/rate_limiter.py]) *)

Module LimiterRuns.
Import Limiter.
Local Open Scope Q_scope.

(** Turns of the loop of [_wait_for_token] at the clock readings [nows],
    whoever makes them: the number of tokens taken, and the bucket after
    the last turn. *)
Fixpoint turns (nows : list Q) (l : RateLimiter) : nat * RateLimiter :=
  match nows with
  | [] => (O, l)
  | now :: rest =>
      match try_take now l with
      | Taken l' => let '(n, l'') := turns rest l' in (S n, l'')
      | Sleep l1 _ => turns rest l1
      | ZeroDivisionError l1 => turns rest l1
      end
  end.

(** Clock readings that do not go back, starting from [t]. *)
Fixpoint ascending (t : Q) (nows : list Q) : Prop :=
  match nows with
  | [] => True
  | now :: rest => t <= now /\ ascending now rest
  end.

End LimiterRuns.

Module SyncLimiter.
Local Open Scope Q_scope.

Record SyncRateLimiter := {
  interval : Q;
  last_request : option Q
}.

(** [SyncRateLimiter(requests_per_second=1.0, burst=1)]: [burst] is not
    used; a rate of zero makes the division raise [ZeroDivisionError]
    ([None]). *)
Definition SyncRateLimiter_init (requests_per_second : option Q) (burst : option Z)
  : option SyncRateLimiter :=
  let rps := match requests_per_second with Some r => r | None => 1 end in
  if Qeq_bool rps 0 then None
  else Some {| interval := 1 / rps; last_request := None |}.

Section Clock.

(** [monotonic] is [time.monotonic()], [sleep] is [time.sleep(seconds)]. *)
Variable Clock : Type.
Variable monotonic : Clock -> Clock * Q.
Variable sleep : Clock -> Q -> Clock.

(** [limiter.wait()] *)
Definition wait (c : Clock) (l : SyncRateLimiter) : Clock * SyncRateLimiter :=
  let c1 :=
    match last_request l with
    | Some last =>
        let '(c', now) := monotonic c in
        let elapsed := now - last in
        if Qle_bool (interval l) elapsed
        then c'
        else sleep c' (interval l - elapsed)
    | None => c
    end in
  let '(c2, now) := monotonic c1 in
  (c2, {| interval := interval l; last_request := Some now |}).

(** [n] calls of [wait] in a row. *)
Fixpoint waits (n : nat) (c : Clock) (l : SyncRateLimiter) : Clock * SyncRateLimiter :=
  match n with
  | O => (c, l)
  | S n' => let '(c', l') := wait c l in waits n' c' l'
  end.

(** A clock that does not go back between two readings, and on which a
    sleep lasts at least as long as asked. *)
Definition steady : Prop :=
  (forall c, snd (monotonic c) <= snd (monotonic (fst (monotonic c)))) /\
  Limiter.honest monotonic sleep.

End Clock.

Arguments wait {Clock} monotonic sleep c l.
Arguments waits {Clock} monotonic sleep n c l.
Arguments steady {Clock} monotonic sleep.

End SyncLimiter.

(** ** Descriptions used for the session client *)

Module SessionSpec.
Import PyStr Py Http.

(** What [_get_client] emits: the opening of a client when none is open. *)
Definition opened (o : SessionScraper) : list event :=
  if _client o then [] else [EvOpen (timeout o)].

(** The scraper with its client attribute set or cleared. *)
Definition set_client (c : bool) (o : SessionScraper) : SessionScraper :=
  {| base_url := base_url o; timeout := timeout o; _client := c;
     logged_in := logged_in o |}.

Definition set_flag (b : bool) (o : SessionScraper) : SessionScraper :=
  {| base_url := base_url o; timeout := timeout o; _client := _client o;
     logged_in := b |}.


(** What a JSON operation answers for an outcome of the transport. *)
Definition json_answer {JSON} (status_raises : Z -> bool) (json_of : string -> option JSON)
  (out : result response) : option JSON :=
  match out with
  | Ret r => if status_raises (status_code r) then None else json_of (text r)
  | Raise _ => None
  end.

(** The dictionary [{username_field: username, password_field: password}]
    and its update by [extra_fields], key by key. *)
Definition credentials_lookup (username_field username password_field password : string)
  (extra_fields : option (gmap string string)) (k : string) : option string :=
  match default ∅ extra_fields !! k with
  | Some v => Some v
  | None =>
      if String.eqb k password_field then Some password
      else if String.eqb k username_field then Some username
      else None
  end.

End SessionSpec.

(** ** Descriptions used for the parser, and the page of its tests *)

Module ParserSpec.
Import PyStr Soup.

(** The heading levels, in the order [get_headings] asks for them. *)
Definition levels : list string := ["h1"; "h2"; "h3"; "h4"; "h5"; "h6"].

(** The filter of the two scrapers, on a link of the parser. *)
Definition kept (l : Extract.link) : bool :=
  Extract.link_kept (Extract.text l) (Extract.href l).

(** The link with its target made absolute as [do_scrape] does. *)
Definition absolute (base_url : string) (l : Extract.link) : Extract.link :=
  {| Extract.text := Extract.text l;
     Extract.href := Extract.absolute_href base_url (Extract.href l) |}.

(** The document of [tests/test_parser.py], as a tree. *)
Definition sample_html : node :=
  Tag "html" []
    [ Tag "head" []
        [ Tag "title" [] [NavigableString "Test Page"];
          Tag "meta" [("name", "description"); ("content", "A test page for scraping")] [] ];
      Tag "body" []
        [ Tag "h1" [] [NavigableString "Main Heading"];
          Tag "h2" [] [NavigableString "Subheading 1"];
          Tag "h2" [] [NavigableString "Subheading 2"];
          Tag "p" [] [NavigableString "Some content here."];
          Tag "a" [("href", "https://example.com")] [NavigableString "Example Link"];
          Tag "a" [("href", "/about")] [NavigableString "About Page"] ] ].

End ParserSpec.

(** ** Descriptions used for the table records *)

Module TableIds.

(** Numbers that go up strictly, none below [k]. *)
Fixpoint ascending_from (k : nat) (l : list nat) : Prop :=
  match l with
  | [] => True
  | a :: l' => k <= a /\ ascending_from (S a) l'
  end.

End TableIds.

(** ** Descriptions used for the browser scraper *)

Module ETSLinkSpec.
Import PyStr Py ETSLink.

(** What [scrape_location] raises on a scraper that is not logged in. *)
Definition not_logged_in : exn :=
  {| cls := RuntimeError; msg := "Not logged in. Call login() first." |}.

(** The path of the screenshot of a target. *)
Definition screenshot_of (location_code : string) : string :=
  "data/etslink_" +:+ lower location_code +:+ "_screenshot.png".

(** The name, the code and the page data of the dictionary [result] of a
    call of [scrape_location]. *)
Definition header_is {Env Grid FTable : Type} (c l : string) (d : page_data)
  (st : Py.state Env event (frame Grid FTable)) : Prop :=
  r_code (result (self st)) = c /\ r_location (result (self st)) = l /\
  r_data (result (self st)) = d.

(** The page data of a target whose extraction went through: the address
    and the title of the page, the numbers of grids and tables, the path of
    the screenshot. *)
Definition complete {Grid FTable : Type} (location_code : string)
  (r : location_result Grid FTable) : Prop :=
  url (r_data r) <> None /\ title (r_data r) <> None /\
  total_grids (r_data r) = Some (length (r_grids r)) /\
  total_tables (r_data r) = Some (length (r_tables r)) /\
  screenshot_path (r_data r) = Some (screenshot_of location_code).

(** A scraper after a successful login: logged in, all handles set. *)
Definition ready (username password : string) : ETSLinkScraper :=
  set_logged_in (set_handles true true true true (ETSLinkScraper_init username password)).

End ETSLinkSpec.

(** ** The command-line scraper [scrape_t18] ([scrape_t18.py])

    What it prints is left out. *)

Module T18Cli.
Import PyStr Py Http.
Local Open Scope py_scope.

Record table_entry := { table_index : nat; rows : list (list string) }.

(** The dictionary [result] handed to the store. *)
Record saved := {
  title : option string;
  navigation_links : list Extract.link;
  tables : list table_entry;
  headings : list (string * list string)
}.

Definition base_url : string := "https://t18.tideworks.com/fc-T18".

(** The loop over [table.find_all("tr")]: every row with at least one
    cell. *)
Definition table_rows (table : Soup.node) : list (list string) :=
  List.filter Extract.list_truthy (map Extract.cells_of (Soup.find_all "tr" table)).

Definition table_record (i : nat) (table : Soup.node) : list table_entry :=
  let rows := table_rows table in
  if Extract.list_truthy rows then [ {| table_index := i; rows := rows |} ] else [].

Definition table_data (soup : Soup.node) : list table_entry :=
  flat_map (fun '(i, table) => table_record i table)
           (Extract.enumerate_from 0 (Soup.find_all "table" soup)).

(** The dictionary [result] for a dashboard page. *)
Definition result_of (data : HTMLParser.parsed) (soup : Soup.node) : saved :=
  {| title := HTMLParser.title data;
     navigation_links := firstn 20 (Extract.nav_links_t18 soup);
     tables := table_data soup;
     headings := HTMLParser.headings data |}.

Section Run.

Variable Env : Type.
Variable send : Env -> request -> Env * Py.result response.
Variable status_raises : Z -> bool.
Variable BeautifulSoup : string -> Soup.node.
Variable storage_init : Env -> Env * Py.result unit.
Variable storage_save : Env -> saved -> Env * Py.result unit.

Abbreviation St := (Py.state Env event SessionScraper).

(** The [try] block. *)
Definition try_block (username password : string) : M St unit :=
  let! form_info := get_login_form_fields send status_raises BeautifulSoup "default.do" in
  let extra_fields :=
    match form_info with Some f => Some (hidden_fields f) | None => Some ∅ end in
  let login_path :=
    match form_info with Some f => action f | None => "default.do" end in
  let! login_success :=
    login send status_raises BeautifulSoup login_path username password
          "j_username" "j_password" extra_fields in
  if login_success then
    let! dashboard_html := get send status_raises "default.do" in
    match dashboard_html with
    | Some html =>
        if truthy html then
          let data := HTMLParser.parse (BeautifulSoup html) in
          let soup := BeautifulSoup html in
          call EvSave (fun env => storage_save env (result_of data soup))
        else ret tt
    | None => ret tt
    end
  else ret tt.

Definition scrape_t18 (username password : string) : M St unit :=
  call EvMkdir storage_init ;;
  try_finally (try_block username password) close.

(** A call of [scrape_t18]: a new scraper, no event yet. *)
Definition call_scrape_t18 (username password : string) (env : Env)
  : St * Py.result unit :=
  scrape_t18 username password
    {| env := env; trace := []; self := SessionScraper_init base_url None |}.

End Run.

Arguments try_block {Env} send status_raises BeautifulSoup storage_save username password.
Arguments scrape_t18 {Env} send status_raises BeautifulSoup storage_init storage_save
  username password.
Arguments call_scrape_t18 {Env} send status_raises BeautifulSoup storage_init storage_save
  username password env.

End T18Cli.

(** ** The example program [main] ([src/main.py]) *)

Module Main.
Import PyStr Py Http.
Local Open Scope py_scope.

Definition url : string := "https://example.com".

Section Run.

Variable Env : Type.
Variable send : Env -> request -> Env * Py.result response.
Variable status_raises : Z -> bool.
Variable BeautifulSoup : string -> Soup.node.
Variable storage_init : Env -> Env * Py.result unit.
Variable storage_save : Env -> HTMLParser.parsed -> Env * Py.result unit.

Abbreviation St := (Py.state Env event WebScraper).

Definition main : M St unit :=
  call EvMkdir storage_init ;;
  let! html := fetch send status_raises url in
  match html with
  | Some html =>
      if truthy html
      then call EvSave (fun env => storage_save env (HTMLParser.parse (BeautifulSoup html)))
      else ret tt
  | None => ret tt
  end ;;
  ws_close.

Definition call_main (env : Env) : St * Py.result unit :=
  main {| env := env; trace := []; self := WebScraper_init None |}.

End Run.

Arguments main {Env} send status_raises BeautifulSoup storage_init storage_save.
Arguments call_main {Env} send status_raises BeautifulSoup storage_init storage_save env.

End Main.

(** ** A store that records what it is given

    The world is a pair: the network, and the list of the dictionaries
    saved so far.  The network does not touch the list; the store does
    not fail. *)

Module Recording.
Import Py Http.

Definition lift_send {Net A : Type} (send : Net -> request -> Net * result response)
  (w : Net * list A) (r : request) : (Net * list A) * result response :=
  let '(n', out) := send (fst w) r in ((n', snd w), out).

Definition record_init {Net A : Type} (w : Net * list A) : (Net * list A) * result unit :=
  (w, Ret tt).

Definition record_save {Net A : Type} (w : Net * list A) (d : A)
  : (Net * list A) * result unit :=
  ((fst w, snd w ++ [d]), Ret tt).

(** The dictionary [do_scrape] saves for the data it returns. *)
Definition saved_of (d : T18.data) : T18.save_data :=
  {| T18.sv_title := T18.title d;
     T18.sv_navigation_links := T18.links d;
     T18.sv_tables := T18.tables d;
     T18.sv_headings := T18.headings d |}.

End Recording.

(** ** Descriptions used for the runs *)

Module RunSpec.
Import PyStr Py Http.

(** The form [do_scrape] posts for an answer of the login form resolver:
    the credentials under [j_username] and [j_password] with the hidden
    fields of the form, sent to the action of the form, to
    [j_security_check] when there is no form or no action. *)
Definition login_fields (username password : string) (info : option form_info)
  : gmap string string :=
  form_data "j_username" username "j_password" password
    (Some (match info with Some f => hidden_fields f | None => ∅ end)).

Definition login_request (o : SessionScraper) (username password : string)
  (info : option form_info) : request :=
  POST (url_for o (or_else (match info with Some f => action f | None => EmptyString end)
                           "j_security_check"))
       (FormData (login_fields username password info))
       true.

(** A store whose [save] fails, and a transport that refuses the address. *)
Definition failing_save {Env A : Type} (env : Env) (d : A) : Env * result unit :=
  (env, Raise {| cls := OSError; msg := "No space left on device" |}).

Definition invalid_url : result response :=
  Raise {| cls := InvalidURL; msg := "Invalid URL" |}.

End RunSpec.

(** * Properties *)

(** ** Strings and text *)

Section TextFacts.
Import PyStr Soup.

Lemma all_space_lstrip s : all_space (lstrip s) = all_space s.
Proof.
  induction s as [|c s IH]; simpl; [reflexivity|].
  destruct (isspace c) eqn:E; simpl; [exact IH | now rewrite E].
Qed.

Lemma truthy_rstrip s : truthy (rstrip s) = negb (all_space s).
Proof.
  induction s as [|c s IH]; simpl; [reflexivity|].
  rewrite IH, negb_involutive.
  destruct (isspace c), (all_space s); reflexivity.
Qed.

Lemma truthy_strip s : truthy (strip s) = negb (all_space s).
Proof. unfold strip. now rewrite truthy_rstrip, all_space_lstrip. Qed.

Lemma truthy_append a b : truthy (a +:+ b) = truthy a || truthy b.
Proof. destruct a; reflexivity. Qed.

Lemma truthy_join_empty l :
  forallb truthy l = true -> truthy (join "" l) = Extract.list_truthy l.
Proof.
  destruct l as [|x l]; simpl; [reflexivity|].
  intros H. apply andb_true_iff in H as [Hx _].
  destruct l; [exact Hx|]. now rewrite truthy_append, Hx.
Qed.

Lemma forallb_filter_same {A} (p : A -> bool) l : forallb p (List.filter p l) = true.
Proof. apply forallb_filter. Qed.

Lemma list_truthy_filter {A} (p : A -> bool) l :
  Extract.list_truthy (List.filter p l) = existsb p l.
Proof.
  induction l as [|x l IH]; simpl; [reflexivity|].
  destruct (p x); simpl; [reflexivity|exact IH].
Qed.

Lemma existsb_negb_forallb {A} (p : A -> bool) l :
  existsb (fun x => negb (p x)) l = negb (forallb p l).
Proof.
  induction l as [|x l IH]; simpl; [reflexivity|].
  rewrite IH. now destruct (p x).
Qed.

Lemma existsb_map_comp {A B} (f : A -> B) (p : B -> bool) l :
  existsb p (map f l) = existsb (fun x => p (f x)) l.
Proof. induction l as [|x l IH]; simpl; [reflexivity|now rewrite IH]. Qed.

Lemma existsb_pointwise {A} (p q : A -> bool) l :
  (forall x, p x = q x) -> existsb p l = existsb q l.
Proof. intros H. induction l as [|x l IH]; simpl; [reflexivity|now rewrite H, IH]. Qed.

(** The stripped text of a node is empty exactly when every string below
    it is empty or whitespace. *)
Lemma truthy_get_text n :
  truthy (get_text_strip n) = negb (forallb all_space (strings n)).
Proof.
  unfold get_text_strip.
  rewrite truthy_join_empty by apply forallb_filter_same.
  rewrite list_truthy_filter, existsb_map_comp, <- existsb_negb_forallb.
  apply existsb_pointwise. intros s. apply truthy_strip.
Qed.

End TextFacts.

(** ** Table extraction *)

Section TableFacts.
Import PyStr Soup Extract TableSpec.

(** The test [cells and any(c for c in cells)] holds exactly for the rows
    that are not blank. *)
Lemma row_kept_blank tr : row_kept (cells_of tr) = negb (blank_row tr).
Proof.
  unfold row_kept, cells_of, blank_row.
  set (cs := find_all_in ["td"; "th"] tr).
  rewrite existsb_map_comp, <- existsb_negb_forallb.
  rewrite (existsb_pointwise _ (fun x => negb (blank_cell x)))
    by (intros x; apply truthy_get_text).
  destruct cs; reflexivity.
Qed.

Lemma row_kept_nonempty cells : row_kept cells = true -> list_truthy cells = true.
Proof. destruct cells; [discriminate|reflexivity]. Qed.

(** Once the headers are set, every remaining kept row is appended. *)
Lemma scan_with_headers trs hd rows :
  list_truthy hd = true ->
  fold_left row_step trs (hd, rows) =
  (hd, rows ++ map cells_of (List.filter (fun tr => negb (blank_row tr)) trs)).
Proof.
  intros Hhd. revert rows.
  induction trs as [|tr trs IH]; intros rows; simpl.
  - now rewrite app_nil_r.
  - rewrite <- row_kept_blank.
    destruct (row_kept (cells_of tr)) eqn:K; simpl.
    + rewrite Hhd. simpl. rewrite IH, <- app_assoc. reflexivity.
    + apply IH.
Qed.

Lemma scan_without_headers trs rows :
  fold_left row_step trs ([], rows) =
  (fst (described trs), rows ++ snd (described trs)).
Proof.
  revert rows. unfold described.
  induction trs as [|tr trs IH]; intros rows; simpl.
  - now rewrite app_nil_r.
  - rewrite <- row_kept_blank.
    destruct (row_kept (cells_of tr)) eqn:K; simpl.
    + destruct (has_th tr) eqn:T; simpl.
      * rewrite scan_with_headers by now apply row_kept_nonempty.
        reflexivity.
      * rewrite IH, <- app_assoc. reflexivity.
    + apply IH.
Qed.

Lemma scan_rows_described table : scan_rows table = described (find_all "tr" table).
Proof.
  unfold scan_rows. rewrite scan_without_headers.
  now destruct (described (find_all "tr" table)).
Qed.

Lemma table_record_rowCount idx table :
  Forall (fun e => rowCount e = length (rows e)) (table_record idx table).
Proof.
  unfold table_record. destruct (scan_rows table) as [hd rs].
  destruct (list_truthy rs || list_truthy hd); repeat constructor.
Qed.

Lemma table_data_rowCount soup :
  Forall (fun e => rowCount e = length (rows e)) (table_data soup).
Proof.
  unfold table_data. generalize 0. 
  induction (find_all "table" soup) as [|t ts IH]; intros i; simpl.
  - constructor.
  - apply Forall_app. split; [apply table_record_rowCount | apply IH].
Qed.

(** C2.  Static-document table extraction ([do_scrape]): a row is dropped
    exactly when every one of its cells is empty or whitespace; the rows
    found are those of the description [described]: of the rows that are
    not dropped, the first one containing a [th] cell becomes the headers
    and is left out of [rows], the others are the rows, in order; every
    extracted table has [rowCount] equal to the length of [rows]; and the
    table [[["", ""], ["A", "B"]]] yields rows [[["A", "B"]]] with
    [rowCount] 1. *)
Theorem table_extraction_invariant :
  (forall acc tr, blank_row tr = true -> row_step acc tr = acc) /\
  (forall table, scan_rows table = described (find_all "tr" table)) /\
  (forall soup, Forall (fun e => rowCount e = length (rows e)) (table_data soup)) /\
  table_data sample_page =
    [ {| id := 0; headers := []; rows := [["A"; "B"]]; rowCount := 1 |} ].
Proof.
  assert (D : forall acc tr, blank_row tr = true -> row_step acc tr = acc).
  { intros [hd rs] tr Hb. unfold row_step.
    rewrite row_kept_blank, Hb. reflexivity. }
  repeat split.
  - exact D.
  - exact scan_rows_described.
  - exact table_data_rowCount.
Qed.

(** A row of two empty cells leaves the accumulator as it is. *)
Lemma table_extraction_witness :
  row_step (["Vessel"], [["Ever Given"]]) (tr [td ""; td "  "])
    = (["Vessel"], [["Ever Given"]]).
Proof.
  refine (proj1 table_extraction_invariant
            (["Vessel"], [["Ever Given"]]) (tr [td ""; td "  "]) _).
  vm_compute. reflexivity.
Defined.

(** A table with a header row: the whitespace row is dropped, the first
    [th] row gives the headers, the later [th] row is an ordinary row. *)
Example table_with_headers :
  table_data headed_page =
    [ {| id := 0; headers := ["Vessel"; "ETA"];
         rows := [["Ever Given"; "12:00"]; ["Total"; "1"]];
         rowCount := 2 |} ].
Proof. reflexivity. Qed.

End TableFacts.

(** ** Link extraction *)

Section LinkFacts.
Import PyStr Soup Extract LinkSamples.

(** C6, counterexample.  On the base [https://site.example/app] the anchor
    [<a href="ftp://files.example/x">Files</a>] carries an absolute target,
    yet [do_scrape] does not leave it unchanged: the test for "absolute" is
    [href.startswith("http")], so the target is prefixed with the base. *)
Lemma absolute_href_rewritten :
  nav_links "https://site.example/app"
    (Tag "body" [] [anchor "ftp://files.example/x" "Files"]) =
    [ {| text := "Files";
         href := "https://site.example/app/ftp://files.example/x" |} ] /\
  nav_links "https://site.example/app"
    (Tag "body" [] [anchor "ftp://files.example/x" "Files"]) <>
    [ {| text := "Files"; href := "ftp://files.example/x" |} ].
Proof. split; [reflexivity | discriminate]. Qed.

(** C6, as amended.  For an anchor [a] with target [h] and non-empty
    stripped text [t]: if [h] is empty or starts with [javascript:], [#] or
    [mailto:], neither [do_scrape] nor [scrape_t18] lists it; otherwise
    both list it, and [do_scrape] stores [h] unchanged when it starts with
    [http] and [base_url + "/" + h.lstrip("/")] when it does not.  In
    particular [/about] on [https://site.example/app] becomes
    [https://site.example/app/about]. *)
Theorem link_normalization (base_url h t : string) (a : node) :
  get "href" a = Some h ->
  get_text_strip a = t ->
  truthy t = true ->
  (truthy h && negb (startswith_any h ["javascript:"; "#"; "mailto:"]) = false ->
     nav_link base_url a = [] /\ nav_link_t18 a = []) /\
  (truthy h && negb (startswith_any h ["javascript:"; "#"; "mailto:"]) = true ->
     map text (nav_link_t18 a) = [t] /\
     (startswith h "http" = true ->
        nav_link base_url a = [ {| text := t; href := h |} ]) /\
     (startswith h "http" = false ->
        nav_link base_url a =
          [ {| text := t; href := base_url +:+ "/" +:+ lstrip_char "/" h |} ])) /\
  absolute_href "https://site.example/app" "/about" = "https://site.example/app/about".
Proof.
  intros Hh Ht Htt.
  unfold nav_link, nav_link_t18, link_kept, get_default, absolute_href.
  rewrite Hh, Ht, Htt. simpl andb.
  split; [|split]; [intros K | intros K | reflexivity]; rewrite K.
  - split; reflexivity.
  - split; [reflexivity|]. split; intros Hp; now rewrite Hp.
Qed.

(** The rule at work on a page: the relative target is rewritten, the
    [http] target is kept, the pseudo-scheme targets and the anchor without
    text are left out. *)
Lemma link_normalization_witness :
  nav_link "https://site.example/app" (anchor "/about" "About") =
    [ {| text := "About"; href := "https://site.example/app/about" |} ].
Proof.
  refine (proj2 (proj2 (proj1 (proj2
    (link_normalization "https://site.example/app" "/about" "About"
       (anchor "/about" "About") _ _ _)) _)) _); reflexivity.
Defined.

Example links_of_page :
  nav_links "https://site.example/app" links_page =
    [ {| text := "About"; href := "https://site.example/app/about" |};
      {| text := "Other"; href := "https://other.example/x" |};
      {| text := "Files"; href := "https://site.example/app/ftp://files.example/x" |} ] /\
  nav_links_t18 links_page =
    [ {| text := "About"; href := "/about" |};
      {| text := "Other"; href := "https://other.example/x" |};
      {| text := "Files"; href := "ftp://files.example/x" |} ].
Proof. split; reflexivity. Qed.

End LinkFacts.

(** ** The HTTP clients *)

Section HttpFacts.
Import PyStr Py Http HttpSpec.

Context {Env : Type} (send : Env -> request -> Env * result response)
        (status_raises : Z -> bool)
        {JSON : Type} (json_of : string -> option JSON).

Abbreviation Ss := (Py.state Env event SessionScraper).
Abbreviation Ws := (Py.state Env event WebScraper).

(** [_get_client] touches neither the world nor the attributes a request
    reads. *)
Lemma get_client_env (st : Ss) :
  env (fst (_get_client st)) = env st /\
  base_url (self (fst (_get_client st))) = base_url (self st) /\
  logged_in (self (fst (_get_client st))) = logged_in (self st) /\
  _client (self (fst (_get_client st))) = true /\
  snd (_get_client st) = Ret tt.
Proof.
  unfold _get_client, bind, read, gets; simpl.
  destruct (_client (self st)) eqn:E; simpl; auto.
Qed.

(** Unfold one request and split on what the transport answers. *)
Ltac run_request client_flag :=
  unfold answer, http_failure, bind, try_except, try_except2, read, gets,
    client_send, call, raise_for_status, raise, ret; simpl;
  unfold _get_client, ws_get_client, bind, read, gets; simpl;
  try unfold url_for;
  destruct client_flag; simpl;
  match goal with
  | |- context [send ?e ?r] => destruct (send e r) as [env' [r'|e']]
  end; simpl.

Ltac split_answer :=
  repeat match goal with
    | |- context [status_raises ?c] => destruct (status_raises c); simpl
    | |- context [is_HTTPError ?e] => is_var e; destruct (is_HTTPError e); simpl
    end;
  reflexivity.

Lemma get_answer path (st : Ss) :
  snd (get send status_raises path st) =
  answer status_raises (snd (send (env st) (GET (get_url (self st) path)))).
Proof.
  unfold get, get_url. destruct (truthy path) eqn:Hp;
    run_request (_client (self st)); rewrite ?Hp; simpl; split_answer.
Qed.

Lemma post_answer path data fr (st : Ss) :
  snd (post send status_raises path data fr st) =
  answer status_raises
    (snd (send (env st) (POST (url_for (self st) path) (FormData data) fr))).
Proof.
  unfold post. run_request (_client (self st)); split_answer.
Qed.

Lemma fetch_answer url (st : Ws) :
  snd (fetch send status_raises url st) =
  answer status_raises (snd (send (env st) (GET url))).
Proof.
  unfold fetch. run_request (ws_client (self st)); split_answer.
Qed.

Lemma fetch_json_failure url (st : Ws) :
  http_failure status_raises (snd (send (env st) (GET url))) = true ->
  snd (fetch_json send status_raises json_of url st) = Ret None.
Proof.
  unfold fetch_json. run_request (ws_client (self st));
    intros H; rewrite H; reflexivity.
Qed.

Lemma json_post_failure path json_data fr (st : Ss) :
  http_failure status_raises
    (snd (send (env st) (POST (url_for (self st) path) (JsonData json_data) fr))) = true ->
  snd (json_post send status_raises json_of path json_data fr st) = Ret None.
Proof.
  unfold json_post. run_request (_client (self st));
    intros H; rewrite H; reflexivity.
Qed.

Lemma form_post_json_failure path data fr (st : Ss) :
  http_failure status_raises
    (snd (send (env st) (POST (url_for (self st) path) (FormData data) fr))) = true ->
  snd (form_post_json send status_raises json_of path data fr st) = Ret None.
Proof.
  unfold form_post_json. run_request (_client (self st));
    intros H; rewrite H; reflexivity.
Qed.

Lemma answer_failure out :
  http_failure status_raises out = true -> answer status_raises out = Ret None.
Proof. destruct out as [r|e]; simpl; intros H; now rewrite H. Qed.

End HttpFacts.

Section FetchClaims.
Import PyStr Py Http HttpSpec.

Context {Env : Type} (send : Env -> request -> Env * result response)
        (status_raises : Z -> bool)
        {JSON : Type} (json_of : string -> option JSON).

(** C10.  For [get], [post], [json_post] and [form_post_json] of the
    session client and [fetch] and [fetch_json] of the base scraper: when
    the transport fails at the HTTP level (an error status, or an exception
    of the [httpx.HTTPError] family such as a connection error or a
    time-out), the operation returns [None] and raises nothing.  For the
    three text operations the result is in every case an optional body,
    unless the transport raises an exception outside that family, which is
    the only thing that comes through. *)
Theorem http_failure_returns_none :
  (forall path (st : Py.state Env event SessionScraper),
     http_failure status_raises
       (snd (send (env st) (GET (get_url (self st) path)))) = true ->
     snd (get send status_raises path st) = Ret None) /\
  (forall path data fr (st : Py.state Env event SessionScraper),
     http_failure status_raises
       (snd (send (env st) (POST (url_for (self st) path) (FormData data) fr))) = true ->
     snd (post send status_raises path data fr st) = Ret None) /\
  (forall path json_data fr (st : Py.state Env event SessionScraper),
     http_failure status_raises
       (snd (send (env st) (POST (url_for (self st) path) (JsonData json_data) fr))) = true ->
     snd (json_post send status_raises json_of path json_data fr st) = Ret None) /\
  (forall path data fr (st : Py.state Env event SessionScraper),
     http_failure status_raises
       (snd (send (env st) (POST (url_for (self st) path) (FormData data) fr))) = true ->
     snd (form_post_json send status_raises json_of path data fr st) = Ret None) /\
  (forall url (st : Py.state Env event WebScraper),
     http_failure status_raises (snd (send (env st) (GET url))) = true ->
     snd (fetch send status_raises url st) = Ret None) /\
  (forall url (st : Py.state Env event WebScraper),
     http_failure status_raises (snd (send (env st) (GET url))) = true ->
     snd (fetch_json send status_raises json_of url st) = Ret None) /\
  (forall path (st : Py.state Env event SessionScraper) e,
     snd (get send status_raises path st) = Raise e -> is_HTTPError e = false) /\
  (forall path data fr (st : Py.state Env event SessionScraper) e,
     snd (post send status_raises path data fr st) = Raise e -> is_HTTPError e = false) /\
  (forall url (st : Py.state Env event WebScraper) e,
     snd (fetch send status_raises url st) = Raise e -> is_HTTPError e = false).
Proof.
  assert (P : forall out e, answer status_raises out = Raise e -> is_HTTPError e = false).
  { intros [r|e'] e; simpl.
    - destruct (status_raises (status_code r)); discriminate.
    - destruct (is_HTTPError e') eqn:E; [discriminate|]. congruence. }
  repeat split.
  - intros path st H. rewrite get_answer. now apply answer_failure.
  - intros path data fr st H. rewrite post_answer. now apply answer_failure.
  - intros. now apply json_post_failure.
  - intros. now apply form_post_json_failure.
  - intros url st H. rewrite fetch_answer. now apply answer_failure.
  - intros. now apply fetch_json_failure.
  - intros path st e. rewrite get_answer. apply P.
  - intros path data fr st e. rewrite post_answer. apply P.
  - intros url st e. rewrite fetch_answer. apply P.
Qed.

(** C3, as amended.  In [get] and [post] of the session client a response
    whose status [raise_for_status] rejects, and equally a time-out of the
    transport, make the operation return [None]; no exception reaches the
    caller, who therefore cannot tell the two apart.  A session built
    without a time-out uses 30 seconds, and the client is opened with the
    session's time-out. *)
Theorem http_errors_answer_none :
  (forall path (st : Py.state Env event SessionScraper) env' r,
     send (env st) (GET (get_url (self st) path)) = (env', Ret r) ->
     status_raises (status_code r) = true ->
     snd (get send status_raises path st) = Ret None) /\
  (forall path (st : Py.state Env event SessionScraper) env' e,
     send (env st) (GET (get_url (self st) path)) = (env', Raise e) ->
     cls e = TimeoutException ->
     snd (get send status_raises path st) = Ret None) /\
  (forall path data fr (st : Py.state Env event SessionScraper) env' r,
     send (env st) (POST (url_for (self st) path) (FormData data) fr) = (env', Ret r) ->
     status_raises (status_code r) = true ->
     snd (post send status_raises path data fr st) = Ret None) /\
  (forall path data fr (st : Py.state Env event SessionScraper) env' e,
     send (env st) (POST (url_for (self st) path) (FormData data) fr) = (env', Raise e) ->
     cls e = TimeoutException ->
     snd (post send status_raises path data fr st) = Ret None) /\
  (forall base, timeout (SessionScraper_init base None) = 30%Q) /\
  (forall st : Py.state Env event SessionScraper,
     _client (self st) = false ->
     trace (fst (_get_client st)) = trace st ++ [EvOpen (timeout (self st))]).
Proof.
  repeat split.
  - intros path st env' r H S. rewrite get_answer, H. simpl. now rewrite S.
  - intros path st env' e H C. rewrite get_answer, H. simpl.
    unfold is_HTTPError. now rewrite C.
  - intros path data fr st env' r H S. rewrite post_answer, H. simpl. now rewrite S.
  - intros path data fr st env' e H C. rewrite post_answer, H. simpl.
    unfold is_HTTPError. now rewrite C.
  - intros st H. unfold _get_client, bind, read, gets. simpl. now rewrite H.
Qed.

End FetchClaims.

Section FetchExamples.
Import PyStr Py Http HttpSpec.

(** C3, counterexample.  A session on [https://site.example/app] asks for
    [status]; the server answers 404.  [get] raises no HTTP error tagged
    404: it returns [None].  When the transport times out instead, [get]
    returns the same [None]. *)
Lemma status_error_not_raised :
  snd (get scripted not_2xx "status"
         (start [not_found] (SessionScraper_init "https://site.example/app/" None)))
    = Ret None /\
  snd (get scripted not_2xx "status"
         (start [not_found] (SessionScraper_init "https://site.example/app/" None)))
    <> Raise {| cls := HTTPStatusError 404; msg := "HTTP status error" |} /\
  snd (get scripted not_2xx "status"
         (start [timed_out] (SessionScraper_init "https://site.example/app/" None)))
    = Ret None.
Proof. repeat split; try reflexivity. discriminate. Qed.

(** The 404 answer and the time-out, through the two theorems. *)
Lemma http_errors_answer_none_witness :
  snd (get scripted not_2xx "status"
         (start [not_found] (SessionScraper_init "https://site.example/app/" None)))
    = Ret None.
Proof.
  refine (proj1 (http_errors_answer_none scripted not_2xx) "status"
            (start [not_found] (SessionScraper_init "https://site.example/app/" None))
            [] {| status_code := 404; text := "Not Found" |} _ _);
    vm_compute; reflexivity.
Defined.

Lemma http_failure_returns_none_witness :
  snd (post scripted not_2xx "login" ∅ true
         (start [timed_out] (SessionScraper_init "https://site.example/app/" None)))
    = Ret None.
Proof.
  refine (proj1 (proj2 (http_failure_returns_none scripted not_2xx
                          (fun _ : string => @None unit)))
            "login" ∅ true
            (start [timed_out] (SessionScraper_init "https://site.example/app/" None)) _).
  vm_compute. reflexivity.
Defined.

(** What the run of the counterexample did: one client opened with the
    default time-out, one request to the joined url. *)
Example status_error_trace :
  trace (fst (get scripted not_2xx "/status"
                (start [not_found] (SessionScraper_init "https://site.example/app/" None))))
  = [EvOpen 30; EvRequest (GET "https://site.example/app/status")].
Proof. reflexivity. Qed.

Example get_ok_body :
  snd (get scripted not_2xx ""
         (start [ok "<html></html>"] (SessionScraper_init "https://site.example/app" None)))
  = Ret (Some "<html></html>").
Proof. reflexivity. Qed.

End FetchExamples.

(** ** The login form resolver *)

Section FormFacts.
Import PyStr Py Http HttpSpec FormSpec.

Lemma last_filter_cons {A} (p : A -> bool) x l :
  last (List.filter p (x :: l)) =
  match last (List.filter p l) with
  | Some y => Some y
  | None => if p x then Some x else None
  end.
Proof.
  simpl. destruct (p x); [|now destruct (last (List.filter p l))].
  destruct (List.filter p l) as [|y l']; [reflexivity|].
  change (last (x :: y :: l')) with (last (y :: l')).
  destruct (last (y :: l')) eqn:E; [reflexivity|].
  exfalso. revert E. generalize y. induction l' as [|z l'' IH]; intros y0 E.
  - discriminate.
  - apply (IH z). exact E.
Qed.

(** The two dictionaries after the loop over the inputs: under each name,
    the last input of that kind with that name; other names are as before. *)
Lemma input_loop inputs vis hid n :
  snd (fold_left input_step inputs (vis, hid)) !! n =
    match last (List.filter (fun i => named n i && is_hidden i) inputs) with
    | Some i => Some (Soup.get_default "value" "" i)
    | None => hid !! n
    end /\
  fst (fold_left input_step inputs (vis, hid)) !! n =
    match last (List.filter (fun i => named n i && negb (is_hidden i)) inputs) with
    | Some i => Some (field_of i)
    | None => vis !! n
    end.
Proof.
  revert vis hid.
  induction inputs as [|inp inputs IH]; intros vis hid; [split; reflexivity|].
  rewrite !last_filter_cons.
  change (fold_left input_step (inp :: inputs) (vis, hid))
    with (fold_left input_step inputs (input_step (vis, hid) inp)).
  destruct (input_step (vis, hid) inp) as [vis' hid'] eqn:S.
  destruct (IH vis' hid') as [IHh IHv]. rewrite IHh, IHv. clear IH IHh IHv.
  assert (hid' !! n = (if named n inp && is_hidden inp
                       then Some (Soup.get_default "value" "" inp) else hid !! n) /\
          vis' !! n = (if named n inp && negb (is_hidden inp)
                       then Some (field_of inp) else vis !! n)) as [Hh Hv].
  { unfold input_step, named, is_hidden, field_of in *.
    destruct (Soup.get "name" inp) as [m|]; [|inversion S; subst; split; reflexivity].
    destruct (truthy m); [|inversion S; subst; split; reflexivity].
    simpl andb.
    destruct (String.eqb (Soup.get_default "type" "text" inp) "hidden");
      inversion S; subst; clear S; simpl.
    - rewrite andb_false_r, andb_true_r. split; [|reflexivity].
      destruct (String.eqb_spec m n) as [->|Hne].
      + apply lookup_insert_eq.
      + now apply lookup_insert_ne.
    - rewrite andb_false_r, andb_true_r. split; [reflexivity|].
      destruct (String.eqb_spec m n) as [->|Hne].
      + apply lookup_insert_eq.
      + now apply lookup_insert_ne. }
  rewrite Hh, Hv.
  split.
  - destruct (last (List.filter _ inputs)); [reflexivity|].
    destruct (named n inp && is_hidden inp); [reflexivity|apply lookup_empty || reflexivity].
  - destruct (last (List.filter (fun i => named n i && negb (is_hidden i)) inputs));
      [reflexivity|].
    destruct (named n inp && negb (is_hidden inp)); reflexivity.
Qed.

Lemma form_fields_lookup form n :
  hidden_fields (form_fields form) !! n =
    (Soup.get_default "value" "") <$>
      last (List.filter (fun i => named n i && is_hidden i) (Soup.find_all "input" form)) /\
  fields (form_fields form) !! n =
    field_of <$>
      last (List.filter (fun i => named n i && negb (is_hidden i))
                        (Soup.find_all "input" form)).
Proof.
  unfold form_fields.
  destruct (input_loop (Soup.find_all "input" form) ∅ ∅ n) as [Hh Hv].
  destruct (fold_left input_step (Soup.find_all "input" form) (∅, ∅)) as [vis hid].
  simpl in *. rewrite Hh, Hv, !lookup_empty.
  split.
  - now destruct (last (List.filter _ (Soup.find_all "input" form))).
  - now destruct (last (List.filter (fun i => named n i && negb (is_hidden i))
                                     (Soup.find_all "input" form))).
Qed.

Context {Env : Type} (send : Env -> request -> Env * result response)
        (status_raises : Z -> bool) (BeautifulSoup : string -> Soup.node).

Lemma resolver_run path (st : Py.state Env event SessionScraper) :
  snd (get_login_form_fields send status_raises BeautifulSoup path st) =
  match snd (get send status_raises path st) with
  | Ret (Some html) =>
      if truthy html
      then Ret (form_fields <$> Soup.find "form" (BeautifulSoup html))
      else Ret None
  | Ret None => Ret None
  | Raise e => Raise e
  end.
Proof.
  unfold get_login_form_fields, bind.
  destruct (get send status_raises path st) as [st' [[html|]|e]]; simpl; try reflexivity.
  destruct (truthy html); [|reflexivity].
  destruct (Soup.find "form" (BeautifulSoup html)); reflexivity.
Qed.

End FormFacts.

Section FormClaims.
Import PyStr Py Http HttpSpec FormSpec.

Context {Env : Type} (send : Env -> request -> Env * result response)
        (status_raises : Z -> bool) (BeautifulSoup : string -> Soup.node).

(** C7.  [get_login_form_fields] fetches the page and reads the first
    [form] of the document; when the page has no form (or could not be
    fetched) it returns the empty result and raises nothing of its own.
    For the form found, the submit path is the form's [action] attribute,
    and every input with a non-empty name is placed under its name, in
    [hidden_fields] with its value when its type is [hidden], in [fields]
    with its type (default [text]) and value otherwise; as in any
    dictionary, of several inputs of one kind with one name the last is the
    one that stays. *)
Theorem login_form_resolver :
  (forall path (st : Py.state Env event SessionScraper),
     snd (get_login_form_fields send status_raises BeautifulSoup path st) =
     match snd (get send status_raises path st) with
     | Ret (Some html) =>
         if truthy html
         then Ret (form_fields <$> List.head (Soup.find_all "form" (BeautifulSoup html)))
         else Ret None
     | Ret None => Ret None
     | Raise e => Raise e
     end) /\
  (forall form, action (form_fields form) = Soup.get_default "action" "" form) /\
  (forall form n,
     hidden_fields (form_fields form) !! n =
       (Soup.get_default "value" "") <$>
         last (List.filter (fun i => named n i && is_hidden i)
                           (Soup.find_all "input" form))) /\
  (forall form n,
     fields (form_fields form) !! n =
       field_of <$>
         last (List.filter (fun i => named n i && negb (is_hidden i))
                           (Soup.find_all "input" form))) /\
  (forall form,
     hidden_fields (form_fields form) !! EmptyString = None /\
     fields (form_fields form) !! EmptyString = None).
Proof.
  split; [|split; [|split; [|split]]].
  - intros path st. apply resolver_run.
  - intros form. unfold form_fields.
    now destruct (fold_left input_step (Soup.find_all "input" form) (∅, ∅)).
  - intros form n. apply form_fields_lookup.
  - intros form n. apply form_fields_lookup.
  - intros form.
    destruct (form_fields_lookup form EmptyString) as [-> ->].
    assert (E : forall q l, List.filter (fun i => named EmptyString i && q i) l = []).
    { intros q l. induction l as [|i l IH]; [reflexivity|]. simpl.
      replace (named EmptyString i) with false; [exact IH|].
      unfold named. destruct (Soup.get "name" i) as [[|c m]|]; reflexivity. }
    rewrite !E. split; reflexivity.
Qed.

End FormClaims.

Section FormExamples.
Import PyStr Py Http HttpSpec FormSpec.

(** A login page with a password input and a hidden CSRF field: the token
    is in [hidden_fields], the visible inputs are in [fields], and the
    submit path is the declared action. *)
Example resolve_login_page :
  exists f,
    snd (get_login_form_fields scripted not_2xx (fun _ => login_page) "default.do"
           (start [ok "<html>login</html>"]
                  (SessionScraper_init "https://site.example/app" None)))
      = Ret (Some f) /\
    action f = "j_security_check" /\
    hidden_fields f !! "csrf" = Some "tok123" /\
    hidden_fields f !! "j_password" = None /\
    fields f !! "j_password" = Some {| type := "password"; value := "" |} /\
    fields f !! "j_username" = Some {| type := "text"; value := "" |}.
Proof. eexists. repeat split; vm_compute; reflexivity. Qed.

(** A page without a form gives the empty result. *)
Example resolve_no_form :
  snd (get_login_form_fields scripted not_2xx
         (fun _ => Soup.Tag "html" [] [Soup.Tag "p" [] [Soup.NavigableString "hello"]])
         "default.do"
         (start [ok "<html><p>hello</p></html>"]
                (SessionScraper_init "https://site.example/app" None)))
    = Ret None.
Proof. reflexivity. Qed.

End FormExamples.

(** ** Login classification *)

Section LoginFacts.
Import PyStr Py Http HttpSpec LoginSpec.

Lemma find_by_none p soup :
  Soup.find_by p soup = None <->
  forall n, In n (Soup.descendants soup) -> Soup.is_tag n && p n = false.
Proof.
  unfold Soup.find_by, Soup.find_all_by.
  induction (Soup.descendants soup) as [|d l IH]; simpl.
  - split; [intros _ n []|reflexivity].
  - destruct (Soup.is_tag d && p d) eqn:E; simpl.
    + split; [discriminate|]. intros H. specialize (H d (or_introl eq_refl)). congruence.
    + rewrite IH. split.
      * intros H n [<-|Hn]; auto.
      * intros H n Hn. apply H. now right.
Qed.

Lemma find_by_weaker p q soup :
  (forall n, q n = true -> p n = true) ->
  Soup.find_by p soup = None -> Soup.find_by q soup = None.
Proof.
  intros Hqp. rewrite !find_by_none. intros H n Hn. specialize (H n Hn).
  destruct (Soup.is_tag n); [|reflexivity]. simpl in *.
  destruct (q n) eqn:Q; [|reflexivity]. rewrite (Hqp n Q) in H. discriminate.
Qed.

(** A class token equal to [error] is an error-like class. *)
Lemma class_error_is_error_like n :
  Soup.class_matches (String.eqb "error") n = true ->
  Soup.class_matches error_like n = true.
Proof.
  unfold Soup.class_matches. destruct (Soup.class_tokens n) as [toks|]; [|discriminate].
  assert (E : forall x, String.eqb "error" x = true -> error_like x = true).
  { intros x Hx. apply String.eqb_eq in Hx. subst x. reflexivity. }
  intros H. apply orb_true_iff in H as [H|H]; apply orb_true_iff.
  - left. apply existsb_exists in H as (x & Hin & Hx).
    apply existsb_exists. exists x. auto.
  - right. auto.
Qed.

Lemma found_false o : found o = false <-> o = None.
Proof. destruct o; simpl; split; congruence. Qed.

Lemma login_form_none soup :
  login_form soup = None <->
  has_login_form soup = false /\ has_password_input soup = false.
Proof.
  unfold login_form, has_login_form, has_password_input.
  destruct (Soup.find_by _ soup); simpl.
  - split; [discriminate|intros [? _]; discriminate].
  - rewrite found_false. tauto.
Qed.

(** No selector of [error_selectors] matches exactly when the page has no
    error-like class, no error-like id and no [div] of class [alert]. *)
Lemma first_error_none soup :
  first_error_text (error_selectors soup) = None <->
  has_error_class soup = false /\ has_error_id soup = false /\
  has_alert_div soup = false.
Proof.
  unfold error_selectors, has_error_class, has_error_id, has_alert_div.
  cbn [first_error_text].
  destruct (Soup.find_by (Soup.class_matches error_like) soup) eqn:C;
    cbn [first_error_text found].
  { split; [discriminate|intros [? _]; discriminate]. }
  destruct (Soup.find_by (Soup.id_matches error_like) soup);
    cbn [first_error_text found].
  { split; [discriminate|intros (_ & ? & _); discriminate]. }
  destruct (Soup.find_by (fun n => Soup.has_name "div" n && _) soup);
    cbn [first_error_text found].
  { split; [discriminate|intros (_ & _ & ?); discriminate]. }
  rewrite (find_by_weaker (Soup.class_matches error_like)
             (fun n => Soup.has_name "span" n && Soup.class_matches (String.eqb "error") n)
             soup); [| |exact C].
  2:{ intros n H. apply andb_true_iff in H as [_ H].
      now apply class_error_is_error_like. }
  rewrite (find_by_weaker (Soup.class_matches error_like)
             (fun n => Soup.has_name "p" n && Soup.class_matches (String.eqb "error") n)
             soup); [| |exact C].
  2:{ intros n H. apply andb_true_iff in H as [_ H].
      now apply class_error_is_error_like. }
  tauto.
Qed.

(** The text [login_with_details] reports is that of the first selector
    that matches, the class selector first. *)
Lemma first_error_class soup elem :
  Soup.find_by (Soup.class_matches error_like) soup = Some elem ->
  first_error_text (error_selectors soup) = Some (Soup.get_text_strip elem).
Proof. intros H. unfold error_selectors. cbn [first_error_text]. now rewrite H. Qed.

Context {Env : Type} (send : Env -> request -> Env * result response)
        (status_raises : Z -> bool) (BeautifulSoup : string -> Soup.node).

Lemma login_answer lp u p uf pf extra (st : Py.state Env event SessionScraper) :
  snd (login send status_raises BeautifulSoup lp u p uf pf extra st) =
  match snd (post send status_raises lp (form_data uf u pf p extra) true st) with
  | Ret (Some html) =>
      Ret (truthy html &&
           negb (has_login_form (BeautifulSoup html)) &&
           negb (has_password_input (BeautifulSoup html)) &&
           negb (has_error_class (BeautifulSoup html)))
  | Ret None => Ret false
  | Raise e => Raise e
  end.
Proof.
  unfold login, bind.
  destruct (post send status_raises lp _ true st) as [st' [[html|]|e]]; simpl;
    try reflexivity.
  destruct (truthy html); [|reflexivity]. simpl.
  unfold has_login_form, has_password_input, has_error_class, login_form, error_by_class.
  destruct (Soup.find_by _ (BeautifulSoup html)); simpl; [reflexivity|].
  destruct (Soup.find_by _ (BeautifulSoup html)); simpl; [reflexivity|].
  destruct (Soup.find_by _ (BeautifulSoup html)); reflexivity.
Qed.

Lemma details_answer lp u p uf pf extra (st : Py.state Env event SessionScraper) :
  snd (login_with_details send status_raises BeautifulSoup lp u p uf pf extra st) =
  match snd (post send status_raises lp (form_data uf u pf p extra) true st) with
  | Ret (Some html) =>
      if truthy html then
        if indicators (BeautifulSoup html)
        then Ret {| success := false;
                    error := Some (or_else
                      (default "" (first_error_text (error_selectors (BeautifulSoup html))))
                      generic_failure) |}
        else Ret {| success := true; error := None |}
      else Ret {| success := false; error := Some "No response from server" |}
  | Ret None => Ret {| success := false; error := Some "No response from server" |}
  | Raise e => Raise e
  end.
Proof.
  unfold login_with_details, bind.
  destruct (post send status_raises lp _ true st) as [st' [[html|]|e]];
    cbn [snd]; try reflexivity.
  destruct (truthy html); [|reflexivity].
  set (soup := BeautifulSoup html).
  destruct (indicators soup) eqn:I.
  - destruct (login_form soup) eqn:L; [reflexivity|].
    destruct (first_error_text (error_selectors soup)) eqn:F; [reflexivity|].
    apply login_form_none in L as [L1 L2].
    apply first_error_none in F as (F1 & F2 & F3).
    unfold indicators in I. rewrite L1, L2, F1, F2, F3 in I. discriminate.
  - unfold indicators in I.
    apply orb_false_iff in I as [I I5]. apply orb_false_iff in I as [I I4].
    apply orb_false_iff in I as [I I3]. apply orb_false_iff in I as [I1 I2].
    rewrite (proj2 (login_form_none soup) (conj I1 I2)).
    rewrite (proj2 (first_error_none soup) (conj I3 (conj I4 I5))).
    reflexivity.
Qed.

End LoginFacts.

Section LoginClaims.
Import PyStr Py Http HttpSpec LoginSpec.

Context {Env : Type} (send : Env -> request -> Env * result response)
        (status_raises : Z -> bool) (BeautifulSoup : string -> Soup.node).

(** C1, as amended.  Let the credential POST return a non-empty page.
    [login_with_details] reports success exactly when the page shows none
    of its indicators: a form with id [loginForm], an input of type
    [password], an element whose class or id contains [error], a [div] of
    class [alert]; otherwise it reports a failure whose message is the
    stripped text of the first selector that matches (the class selector
    first) when that text is not empty, and the generic message otherwise.
    [login] returns [True] only if the page has no form [loginForm], no
    password input and no element with an error class, and it does return
    [True] when the page shows none of the indicators.  In particular a page
    that still contains a password input yields a failure in both. *)
Theorem login_classification lp u p uf pf extra
  (st : Py.state Env event SessionScraper) html :
  snd (post send status_raises lp (form_data uf u pf p extra) true st) = Ret (Some html) ->
  truthy html = true ->
  (exists d,
     snd (login_with_details send status_raises BeautifulSoup lp u p uf pf extra st) = Ret d /\
     success d = negb (indicators (BeautifulSoup html)) /\
     (success d = false ->
      error d = Some (or_else
                  (default "" (first_error_text (error_selectors (BeautifulSoup html))))
                  generic_failure))) /\
  (forall elem,
     Soup.find_by (Soup.class_matches error_like) (BeautifulSoup html) = Some elem ->
     snd (login_with_details send status_raises BeautifulSoup lp u p uf pf extra st) =
       Ret {| success := false;
              error := Some (or_else (Soup.get_text_strip elem) generic_failure) |}) /\
  (indicators (BeautifulSoup html) = true ->
   has_error_class (BeautifulSoup html) = false ->
   has_error_id (BeautifulSoup html) = false ->
   has_alert_div (BeautifulSoup html) = false ->
     snd (login_with_details send status_raises BeautifulSoup lp u p uf pf extra st) =
       Ret {| success := false; error := Some generic_failure |}) /\
  (has_password_input (BeautifulSoup html) = true ->
     snd (login send status_raises BeautifulSoup lp u p uf pf extra st) = Ret false /\
     exists m,
       snd (login_with_details send status_raises BeautifulSoup lp u p uf pf extra st) =
         Ret {| success := false; error := Some m |}) /\
  (snd (login send status_raises BeautifulSoup lp u p uf pf extra st) = Ret true ->
     has_login_form (BeautifulSoup html) = false /\
     has_password_input (BeautifulSoup html) = false /\
     has_error_class (BeautifulSoup html) = false) /\
  (indicators (BeautifulSoup html) = false ->
     snd (login send status_raises BeautifulSoup lp u p uf pf extra st) = Ret true).
Proof.
  intros Hpost Hhtml.
  rewrite login_answer, details_answer, Hpost, Hhtml.
  set (soup := BeautifulSoup html).
  split; [|split; [|split; [|split; [|split]]]].
  - destruct (indicators soup); eexists; (split; [reflexivity|]); split;
      try reflexivity; discriminate.
  - intros elem Hc.
    assert (I : indicators soup = true).
    { unfold indicators, has_error_class. rewrite Hc. cbn [found].
      now rewrite !orb_true_r. }
    rewrite I, (first_error_class soup elem Hc). reflexivity.
  - intros I C D A. rewrite I.
    now rewrite (proj2 (first_error_none soup) (conj C (conj D A))).
  - intros P. split.
    + rewrite P. cbn [negb]. now rewrite andb_false_r.
    + unfold indicators. rewrite P, orb_true_r. cbn [orb]. eexists. reflexivity.
  - intros H. injection H as H.
    cbn [andb] in H. apply andb_true_iff in H as [H H3].
    apply andb_true_iff in H as [H1 H2].
    apply negb_true_iff in H1, H2, H3. auto.
  - intros I. unfold indicators in I.
    apply orb_false_iff in I as [I _]. apply orb_false_iff in I as [I _].
    apply orb_false_iff in I as [I I3]. apply orb_false_iff in I as [I1 I2].
    now rewrite I1, I2, I3.
Qed.

End LoginClaims.

Section LoginExamples.
Import PyStr Py Http HttpSpec LoginSpec.

(** C1, counterexample.  The response page shows the form [loginForm]
    again and contains neither a password input nor an element with an
    error class or id; the claim would report success, but [login] returns
    [False] and [login_with_details] a failure with the generic message. *)
Lemma login_form_alone_fails :
  claimed_failure form_only_page = false /\
  snd (login scripted not_2xx (fun _ => form_only_page)
         "login" "alice" "secret" "username" "password" None
         (start [ok form_only_html] (SessionScraper_init "https://site.example" None)))
    = Ret false /\
  snd (login_with_details scripted not_2xx (fun _ => form_only_page)
         "login" "alice" "secret" "username" "password" None
         (start [ok form_only_html] (SessionScraper_init "https://site.example" None)))
    = Ret {| success := false; error := Some generic_failure |}.
Proof. repeat split; vm_compute; reflexivity. Qed.

(** A response page that still contains a password input: both methods
    report a failure. *)
Lemma login_classification_witness :
  snd (login scripted not_2xx (fun _ => password_page)
         "login" "alice" "secret" "username" "password" None
         (start [ok "<html>again</html>"] (SessionScraper_init "https://site.example" None)))
    = Ret false.
Proof.
  refine (proj1 (proj1 (proj2 (proj2 (proj2
    (login_classification scripted not_2xx (fun _ => password_page)
       "login" "alice" "secret" "username" "password" None
       (start [ok "<html>again</html>"] (SessionScraper_init "https://site.example" None))
       "<html>again</html>" _ _)))) _)); vm_compute; reflexivity.
Defined.

(** The message of a failure is the text of the error element. *)
Example login_error_message :
  snd (login_with_details scripted not_2xx (fun _ => error_page)
         "login" "alice" "secret" "username" "password" None
         (start [ok "<html>error</html>"] (SessionScraper_init "https://site.example" None)))
    = Ret {| success := false; error := Some "Bad password" |}.
Proof. vm_compute; reflexivity. Qed.

End LoginExamples.

(** ** The token bucket *)

Section LimiterFacts.
Import Limiter.
Local Open Scope Q_scope.

Lemma refill_le_burst now l : tokens (_refill_tokens now l) <= inject_Z (burst l).
Proof. apply Q.le_min_l. Qed.

Lemma take_le_burst l : tokens l <= inject_Z (burst l) -> tokens (take l) <= inject_Z (burst l).
Proof. simpl. intros H. lra. Qed.

(** The three outcomes of one turn of the loop. *)
Lemma try_take_cases now l :
  match try_take now l with
  | Taken l' =>
      1 <= tokens (_refill_tokens now l) /\ l' = take (_refill_tokens now l)
  | Sleep l1 w =>
      l1 = _refill_tokens now l /\ tokens l1 < 1 /\ ~ rate l == 0 /\
      w = (1 - tokens l1) / rate l
  | ZeroDivisionError l1 =>
      l1 = _refill_tokens now l /\ tokens l1 < 1 /\ rate l == 0
  end.
Proof.
  unfold try_take.
  destruct (Qle_bool 1 (tokens (_refill_tokens now l))) eqn:E.
  - apply Qle_bool_iff in E. auto.
  - assert (tokens (_refill_tokens now l) < 1) as Hlt.
    { apply Qnot_le_lt. intros H. apply Qle_bool_iff in H. congruence. }
    destruct (Qeq_bool (rate (_refill_tokens now l)) 0) eqn:R.
    + apply Qeq_bool_iff in R. auto.
    + repeat split; auto. intros H. apply Qeq_bool_iff in H. simpl in *. congruence.
Qed.

Lemma reachable_le_burst l0 l :
  reachable l0 l ->
  tokens l0 <= inject_Z (burst l0) ->
  tokens l <= inject_Z (burst l) /\ burst l = burst l0 /\ rate l = rate l0.
Proof.
  intros R H0. induction R as [|l now R IH|l R IH H1].
  - auto.
  - destruct IH as (_ & B & Rt). split; [exact (refill_le_burst now l)|]. simpl. auto.
  - destruct IH as (T & B & Rt). split; [exact (take_le_burst l T)|]. simpl. auto.
Qed.

Context {Clock : Type} (monotonic : Clock -> Clock * Q) (sleep : Clock -> Q -> Clock).

(** A successful [acquire] ends with a turn that refilled the bucket,
    found at least one token and took exactly one. *)
Lemma acquire_last_turn fuel c l l' c' :
  acquire monotonic sleep fuel c l = Acquired l' c' ->
  reachable l l' /\
  exists now l0,
    reachable l l0 /\
    1 <= tokens (_refill_tokens now l0) /\
    l' = take (_refill_tokens now l0).
Proof.
  unfold acquire. revert c l.
  induction fuel as [|fuel IH]; intros c l; simpl; [discriminate|].
  destruct (monotonic c) as [c1 now].
  pose proof (try_take_cases now l) as T.
  destruct (try_take now l) as [l1|l1 w|l1]; [| |discriminate].
  - intros E. injection E as <- <-. destruct T as [T ->]. split.
    + apply reach_take; [apply reach_refill; constructor|exact T].
    + exists now, l. split; [constructor|auto].
  - intros E. destruct T as (-> & _).
    destruct (IH _ _ E) as (R & now' & l0 & R0 & H1 & ->).
    assert (Tr : forall x, reachable (_refill_tokens now l) x -> reachable l x).
    { intros x Rx. induction Rx; [apply reach_refill; constructor| |].
      - now apply reach_refill.
      - now apply reach_take. }
    split; [now apply Tr|]. exists now', l0. auto.
Qed.

(** With a positive rate, a burst of at least one and an honest clock, two
    turns of the loop are enough. *)
Lemma acquire_terminates c l :
  honest monotonic sleep ->
  0 < rate l -> 1 <= inject_Z (burst l) ->
  exists l' c', acquire monotonic sleep 2 c l = Acquired l' c'.
Proof.
  intros Hc Hr Hb. unfold acquire. simpl.
  specialize (Hc c).
  destruct (monotonic c) as [c1 now] eqn:M0. simpl in Hc.
  pose proof (try_take_cases now l) as T.
  destruct (try_take now l) as [l1|l1 w|l1].
  - eauto.
  - destruct T as (-> & Hlt & Hne & ->).
    specialize (Hc ((1 - tokens (_refill_tokens now l)) / rate l)).
    set (w := (1 - tokens (_refill_tokens now l)) / rate l) in *.
    destruct (monotonic (sleep c1 w)) as [c2 now2]. simpl in Hc.
    pose proof (try_take_cases now2 (_refill_tokens now l)) as T2.
    destruct (try_take now2 (_refill_tokens now l)) as [l2|l2 w2|l2]; [eauto| |].
    + exfalso. destruct T2 as (-> & Hlt2 & _).
      revert Hlt2. apply Qle_not_lt.
      change (1 <= Qmin (inject_Z (burst l))
                        (tokens (_refill_tokens now l) + (now2 - now) * rate l)).
      apply Q.min_glb; [exact Hb|].
      assert (E : w * rate l == 1 - tokens (_refill_tokens now l)).
      { unfold w. field. intros Z. rewrite Z in Hr. inversion Hr. }
      assert (w * rate l <= (now2 - now) * rate l).
      { apply Qmult_le_compat_r; lra. }
      lra.
    + exfalso. destruct T2 as (_ & _ & Z). simpl in Z. rewrite Z in Hr. inversion Hr.
  - exfalso. destruct T as (_ & _ & Z). rewrite Z in Hr. inversion Hr.
Qed.

End LimiterFacts.

Section LimiterClaims.
Import Limiter.
Local Open Scope Q_scope.

Context {Clock : Type} (monotonic : Clock -> Clock * Q) (sleep : Clock -> Q -> Clock).

(** C8.  Every turn of [acquire] first refills the bucket lazily,
    [tokens = min(burst, tokens + elapsed * rate)] with [elapsed] the time
    since the last refill, which becomes the new refill time; an [acquire]
    that completes found at least one token after the refill of its last
    turn and took exactly one; in every state a sequence of acquires can
    reach from a bucket that does not exceed [burst] (a new bucket holds
    exactly [burst]) the token count does not exceed [burst].  With a
    positive rate, a burst of at least one and a clock on which sleeping
    takes at least the time asked, [acquire] completes within two turns. *)
Theorem token_bucket_invariant :
  (forall now l,
     tokens (_refill_tokens now l) =
       Qmin (inject_Z (burst l)) (tokens l + (now - last_update l) * rate l) /\
     last_update (_refill_tokens now l) = now) /\
  (forall fuel c l,
     acquire monotonic sleep (S fuel) c l =
       match try_take (snd (monotonic c)) l with
       | Taken l' => Acquired l' (fst (monotonic c))
       | ZeroDivisionError l1 => Raised l1 (fst (monotonic c))
       | Sleep l1 w => acquire monotonic sleep fuel (sleep (fst (monotonic c)) w) l1
       end) /\
  (forall now l,
     match try_take now l with
     | Taken l' => 1 <= tokens (_refill_tokens now l) /\
                   tokens l' = tokens (_refill_tokens now l) - 1
     | Sleep l1 _ | ZeroDivisionError l1 =>
         l1 = _refill_tokens now l /\ tokens l1 < 1
     end) /\
  (forall fuel c l l' c',
     acquire monotonic sleep fuel c l = Acquired l' c' ->
     exists now l0,
       reachable l l0 /\
       1 <= tokens (_refill_tokens now l0) /\
       tokens l' = tokens (_refill_tokens now l0) - 1) /\
  (forall l0 l,
     reachable l0 l -> tokens l0 <= inject_Z (burst l0) ->
     tokens l <= inject_Z (burst l)) /\
  (forall rps b now,
     tokens (RateLimiter_init rps b now) = inject_Z (burst (RateLimiter_init rps b now))) /\
  (forall fuel c l l' c',
     tokens l <= inject_Z (burst l) ->
     acquire monotonic sleep fuel c l = Acquired l' c' ->
     tokens l' <= inject_Z (burst l') - 1) /\
  (honest monotonic sleep ->
   forall c l, 0 < rate l -> 1 <= inject_Z (burst l) ->
     exists l' c', acquire monotonic sleep 2 c l = Acquired l' c').
Proof.
  split; [|split; [|split; [|split; [|split; [|split; [|split]]]]]].
  - intros now l. split; reflexivity.
  - intros fuel c l. unfold acquire. simpl.
    destruct (monotonic c) as [c1 now]. reflexivity.
  - intros now l. pose proof (try_take_cases now l) as T.
    destruct (try_take now l) as [l1|l1 w|l1].
    + destruct T as [T ->]. split; [exact T|reflexivity].
    + destruct T as (-> & T & _). auto.
    + destruct T as (-> & T & _). auto.
  - intros fuel c l l' c' E.
    destruct (acquire_last_turn monotonic sleep fuel c l l' c' E)
      as (_ & now & l0 & R & H1 & ->).
    exists now, l0. repeat split; auto.
  - intros l0 l R H. now apply (reachable_le_burst l0 l R H).
  - intros rps b now. reflexivity.
  - intros fuel c l l' c' H E.
    destruct (acquire_last_turn monotonic sleep fuel c l l' c' E)
      as (_ & now & l0 & R & H1 & ->).
    destruct (reachable_le_burst l l0 R H) as (_ & B & _).
    pose proof (refill_le_burst now l0) as L.
    cbn [take tokens burst _refill_tokens] in *. lra.
  - intros Hc c l. now apply acquire_terminates.
Qed.

End LimiterClaims.

Section LimiterExamples.
Import Limiter.
Local Open Scope Q_scope.

Lemma ideal_clock_honest : honest ideal_monotonic ideal_sleep.
Proof.
  intros c w. unfold ideal_monotonic, ideal_sleep. simpl.
  pose proof (Q.le_max_l w 0). lra.
Qed.

(** On the ideal clock a bucket of rate 2 and burst 1 is acquired within
    two turns. *)
Lemma token_bucket_witness :
  exists l' c',
    acquire ideal_monotonic ideal_sleep 2 0 (RateLimiter_init (Some 2) (Some 1%Z) 0)
      = Acquired l' c'.
Proof.
  refine (proj2 (proj2 (proj2 (proj2 (proj2 (proj2 (proj2
            (token_bucket_invariant ideal_monotonic ideal_sleep)))))))
            ideal_clock_honest 0 (RateLimiter_init (Some 2) (Some 1%Z) 0) _ _).
  - vm_compute. reflexivity.
  - vm_compute. discriminate.
Defined.

(** Two requests per second, burst one: the first [acquire] at time 0 takes
    the only token at once; the second must sleep half a second and
    completes at time 1/2. *)
Example back_to_back :
  exists l1 l2 t2,
    acquire ideal_monotonic ideal_sleep 2 0 (RateLimiter_init (Some 2) (Some 1%Z) 0)
      = Acquired l1 0 /\
    tokens l1 == 0 /\
    (exists t1, acquire ideal_monotonic ideal_sleep 1 0 l1
                  = Waiting (_refill_tokens 0 l1) t1) /\
    acquire ideal_monotonic ideal_sleep 2 0 l1 = Acquired l2 t2 /\
    t2 == 1 # 2 /\ tokens l2 == 0.
Proof.
  eexists _, _, _.
  split; [vm_compute; reflexivity|].
  split; [vm_compute; reflexivity|].
  split; [eexists; vm_compute; reflexivity|].
  split; [vm_compute; reflexivity|].
  split; vm_compute; reflexivity.
Qed.

End LimiterExamples.

(** ** The single-target orchestrator *)

Section T18Facts.
Import PyStr Py Http T18.

Context {Env : Type} (send : Env -> request -> Env * Py.result response)
        (status_raises : Z -> bool) (BeautifulSoup : string -> Soup.node)
        (storage_init : Env -> Env * Py.result unit)
        (storage_save : Env -> save_data -> Env * Py.result unit).

Abbreviation T18St := (Py.state Env event locals).

Lemma status_error_is_http c m :
  is_HTTPError {| cls := HTTPStatusError c; msg := m |} = true.
Proof. reflexivity. Qed.

Ltac reduce_run :=
  cbv [authenticate try_block extract_dashboard log set_result on_scraper
       get_login_form_fields login get post _get_client close set_logged_in
       storage_save_ JSONStorage_init client_send raise_for_status
       bind ret raise gets modify read update emit call zoom
       try_except try_finally when];
  cbn [fst snd env trace self scraper result r_success r_logs r_data
       _client logged_in Http.base_url timeout negb];
  rewrite ?status_error_is_http;
  change (truthy "default.do") with true;
  cbv beta iota.

(** One case split on what the world or the page decides next. *)
Ltac split_run :=
  match goal with
  | H : _client (scraper (self ?s)) = _ |- context [_client (scraper (self ?s))] =>
      rewrite H
  | |- context [_client (scraper (self ?s))] =>
      is_var s; destruct (_client (scraper (self s))) eqn:?
  | |- context [send ?e ?r] => destruct (send e r) as [? [?|?]]
  | |- context [storage_init ?e] => destruct (storage_init e) as [? [[]|?]]
  | |- context [storage_save ?e ?d] => destruct (storage_save e d) as [? [[]|?]]
  | |- context [status_raises ?c] => destruct (status_raises c)
  | |- context [is_HTTPError ?e] => is_var e; destruct (is_HTTPError e)
  | |- context [truthy (text ?r)] => destruct (truthy (text r))
  | |- context [Soup.find "form" ?x] => destruct (Soup.find "form" x)
  | |- context [login_form ?x] => destruct (login_form x)
  | |- context [error_by_class ?x] => destruct (error_by_class x)
  end.

Ltac run_all := repeat (progress reduce_run || split_run).

(** What [authenticate] leaves behind, whatever the site answers: the
    flag and the data of [result] untouched, only entries that are not
    errors added to the log, an open client, at most one POST (exactly one
    when it returns) and no client closed. *)
Lemma authenticate_effect u p (s : T18St) :
  (r_success (result (self (fst (authenticate send status_raises BeautifulSoup u p s))))
     = r_success (result (self s)) /\
   r_data (result (self (fst (authenticate send status_raises BeautifulSoup u p s))))
     = r_data (result (self s))) /\
  (exists extra,
     r_logs (result (self (fst (authenticate send status_raises BeautifulSoup u p s))))
       = r_logs (result (self s)) ++ extra /\
     forallb (fun l => negb (is_error l)) extra = true) /\
  _client (scraper (self (fst (authenticate send status_raises BeautifulSoup u p s)))) = true /\
  (exists evs,
     trace (fst (authenticate send status_raises BeautifulSoup u p s)) = trace s ++ evs /\
     length (List.filter is_post evs) <= 1 /\
     (forall b, snd (authenticate send status_raises BeautifulSoup u p s) = Ret b ->
                length (List.filter is_post evs) = 1) /\
     existsb (fun e => is_aclose e || is_save e) evs = false).
Proof.
  run_all;
  (split; [split; reflexivity|]);
  (split; [eexists; split; [rewrite <- ?app_assoc; reflexivity|reflexivity]|]);
  (split; [reflexivity|]);
  (eexists; split; [rewrite <- ?app_assoc; reflexivity|]);
  cbn [List.filter is_post length existsb app orb];
  repeat split; try lia; try reflexivity; try discriminate.
Qed.

Lemma no_close_or_save evs :
  existsb (fun e => is_aclose e || is_save e) evs = false ->
  existsb is_aclose evs = false.
Proof.
  induction evs as [|x l IH]; [reflexivity|]. simpl. intros N.
  apply orb_false_iff in N as [N1 N']. apply orb_false_iff in N1 as [-> _].
  now apply IH.
Qed.

(** After a successful login the dashboard is fetched with the client that
    is open; nothing closes it. *)
Lemma extract_dashboard_effect (s : T18St) :
  _client (scraper (self s)) = true ->
  _client (scraper (self (fst
     (extract_dashboard send status_raises BeautifulSoup storage_save s)))) = true /\
  exists evs,
    trace (fst (extract_dashboard send status_raises BeautifulSoup storage_save s))
      = trace s ++ evs /\
    existsb is_aclose evs = false.
Proof.
  intros C. run_all;
  (split; [reflexivity|]);
  (eexists; split; [rewrite <- ?app_assoc; reflexivity|reflexivity]).
Qed.

Lemma close_effect (s : T18St) :
  on_scraper close s =
  ({| env := env s;
      trace := trace s ++ (if _client (scraper (self s)) then [EvAclose] else []);
      self := {| scraper := {| Http.base_url := Http.base_url (scraper (self s));
                               timeout := timeout (scraper (self s));
                               _client := false;
                               logged_in := logged_in (scraper (self s)) |};
                 result := result (self s) |} |}, Ret tt).
Proof.
  unfold on_scraper, close, zoom, bind, read, gets, emit, update, modify. simpl.
  destruct s as [e t [[b tm c li] r]]; simpl.
  destruct c; simpl; [reflexivity|]. now rewrite app_nil_r.
Qed.

(** The [try] block with its [except] clause never raises and leaves the
    client open. *)
Lemma try_part_effect u p (s : T18St) :
  let m := try_except
             (try_block send status_raises BeautifulSoup storage_save u p)
             is_Exception
             (fun e => log error ("Error: " +:+ msg e)) in
  snd (m s) = Ret tt /\
  _client (scraper (self (fst (m s)))) = true /\
  exists evs, trace (fst (m s)) = trace s ++ evs /\ existsb is_aclose evs = false.
Proof.
  cbv zeta. unfold try_except, try_block, bind.
  pose proof (authenticate_effect u p s) as (_ & _ & C & evs & T & _ & _ & N).
  destruct (authenticate send status_raises BeautifulSoup u p s) as [s1 [[|]|e]];
    cbn [fst snd negb is_Exception] in *.
  - pose proof (extract_dashboard_effect s1 C) as (C2 & evs2 & T2 & N2).
    destruct (extract_dashboard send status_raises BeautifulSoup storage_save s1)
      as [s2 [[]|e2]]; cbn [fst snd] in *.
    + split; [reflexivity|]. split; [exact C2|].
      exists (evs ++ evs2). rewrite T2, T, app_assoc. split; [reflexivity|].
      rewrite existsb_app, N2, orb_false_r.
      now apply no_close_or_save.
    + split; [reflexivity|]. split; [exact C2|].
      exists (evs ++ evs2). simpl. rewrite T2, T, app_assoc. split; [reflexivity|].
      rewrite existsb_app, N2, orb_false_r.
      now apply no_close_or_save.
  - split; [reflexivity|]. split; [exact C|].
    exists evs. simpl. split; [exact T|].
    now apply no_close_or_save.
  - split; [reflexivity|]. split; [exact C|].
    exists evs. simpl. split; [exact T|].
    now apply no_close_or_save.
Qed.

(** However a call of [do_scrape] goes, the client is closed when it
    ends; when it returns, the closing is the last thing it did. *)
Lemma do_scrape_cleanup u p w :
  exists s' r,
    call_do_scrape send status_raises BeautifulSoup storage_init storage_save u p w
      = (s', r) /\
    _client (scraper (self s')) = false /\
    match r with
    | Ret res =>
        res = result (self s') /\
        exists tr, trace s' = tr ++ [EvAclose] /\ existsb is_aclose tr = false
    | Raise e =>
        snd (storage_init w) = Raise e /\ trace s' = [EvMkdir]
    end.
Proof.
  unfold call_do_scrape, do_scrape, JSONStorage_init, bind, call.
  cbn [Py.env trace self app].
  destruct (storage_init w) as [env0 [u0|e0]].
  2:{ eexists _, _. split; [reflexivity|]. split; [reflexivity|]. split; reflexivity. }
  unfold try_finally.
  set (s0 := {| env := env0; trace := [EvMkdir]; self := initial_locals |}).
  pose proof (try_part_effect u p s0) as (R & C & evs & T & N). cbv zeta in R, C, T.
  destruct (try_except _ is_Exception _ s0) as [s1 r1]. cbn [fst snd] in *. subst r1.
  rewrite close_effect, C. cbn [fst snd read gets self scraper _client trace].
  eexists _, _. split; [reflexivity|]. cbn [self scraper _client trace].
  split; [reflexivity|]. split; [reflexivity|].
  exists (trace s1). split; [reflexivity|].
  rewrite T. unfold s0. cbn [trace app existsb is_aclose orb]. exact N.
Qed.

(** A call of [do_scrape] in which the login does not succeed. *)
Lemma do_scrape_login_failed u p w env0 s1 r1 :
  storage_init w = (env0, Ret tt) ->
  authenticate send status_raises BeautifulSoup u p
    {| env := env0; trace := [EvMkdir]; self := initial_locals |} = (s1, r1) ->
  r1 <> Ret true ->
  exists s' res,
    call_do_scrape send status_raises BeautifulSoup storage_init storage_save u p w
      = (s', Ret res) /\
    r_success res = false /\
    r_data res = r_data initial_result /\
    length (List.filter is_error (r_logs res)) = 1 /\
    last (r_logs res) =
      Some {| type := error;
              message := match r1 with
                         | Raise e => "Error: " +:+ msg e
                         | Ret _ => "Login failed. Check your credentials."
                         end |} /\
    trace s' = trace s1 ++ [EvAclose] /\
    length (List.filter is_post (trace s')) <= 1 /\
    existsb is_save (trace s') = false.
Proof.
  intros M A NR.
  unfold call_do_scrape, do_scrape, JSONStorage_init, bind, call,
    try_finally, try_except, try_block.
  cbn [Py.env trace self app]. rewrite M.
  set (s0 := {| env := env0; trace := [EvMkdir]; self := initial_locals |}) in *.
  pose proof (authenticate_effect u p s0)
    as ((S & D) & (extra & L & NE) & C & evs & T & P & _ & N).
  unfold bind. rewrite A in *. cbn [fst snd] in *.
  assert (F : forall l, forallb (fun l => negb (is_error l)) l = true ->
                        List.filter is_error l = []).
  { induction l as [|x l IH]; [reflexivity|]. simpl. intros H.
    apply andb_true_iff in H as [H1 H2]. apply negb_true_iff in H1. rewrite H1. auto. }
  assert (G : existsb is_save (trace s1 ++ [EvAclose]) = false).
  { rewrite T, !existsb_app. cbn [trace s0 existsb is_save orb].
    rewrite orb_false_r.
    clear -N. induction evs as [|x l IH]; [reflexivity|]. simpl in *.
    apply orb_false_iff in N as [N1 N']. apply orb_false_iff in N1 as [_ ->].
    now apply IH. }
  assert (Q : length (List.filter is_post (trace s1 ++ [EvAclose])) <= 1).
  { rewrite T, !List.filter_app, !length_app. cbn [trace s0 List.filter is_post length].
    lia. }
  assert (K : forall m,
    length (List.filter is_error
      (r_logs (result (self s1)) ++ [ {| type := error; message := m |} ])) = 1 /\
    last (r_logs (result (self s1)) ++ [ {| type := error; message := m |} ])
      = Some {| type := error; message := m |}).
  { intros m. rewrite last_snoc. split; [|reflexivity].
    rewrite L, !List.filter_app, (F extra NE). reflexivity. }
  destruct r1 as [[|]|e]; [congruence| |]; cbn [negb is_Exception];
    unfold log at 1; unfold update, modify; cbn [fst snd];
    rewrite close_effect; cbn [fst snd self scraper result bind read gets trace _client];
    rewrite C; (eexists _, _; split; [reflexivity|]);
    cbn [r_success r_data r_logs]; rewrite S, D;
    (split; [reflexivity|]); (split; [reflexivity|]);
    (split; [apply K|]); (split; [apply K|]);
    (split; [reflexivity|]); split; assumption.
Qed.

End T18Facts.

(** ** Invariants of runs *)

Section RunFacts.
Import Py.

Context {S : Type}.

Lemma preserves_ret {A} (I : S -> Prop) (a : A) : preserves I (ret a).
Proof. intros s H. exact H. Qed.

Lemma preserves_raise {A} (I : S -> Prop) e : preserves I (@raise S A e).
Proof. intros s H. exact H. Qed.

Lemma preserves_gets {A} (I : S -> Prop) (f : S -> A) : preserves I (gets f).
Proof. intros s H. exact H. Qed.

Lemma preserves_bind {A B} (I : S -> Prop) (m : M S A) (k : A -> M S B) :
  preserves I m -> (forall a, preserves I (k a)) -> preserves I (bind m k).
Proof.
  intros Hm Hk s H. unfold bind. specialize (Hm s H).
  destruct (m s) as [s1 [a|e]]; simpl in *; [now apply Hk|exact Hm].
Qed.

Lemma preserves_try_except {A} (I : S -> Prop) (m : M S A) c h :
  preserves I m -> (forall e, preserves I (h e)) -> preserves I (try_except m c h).
Proof.
  intros Hm Hh s H. unfold try_except. specialize (Hm s H).
  destruct (m s) as [s1 [a|e]]; simpl in *; [exact Hm|].
  destruct (c e); [now apply Hh|exact Hm].
Qed.

Lemma preserves_for_each {A} (I : S -> Prop) (l : list A) body :
  (forall x, preserves I (body x)) -> preserves I (for_each l body).
Proof.
  intros Hb. induction l as [|x l IH]; simpl.
  - apply preserves_ret.
  - apply preserves_bind; [apply Hb|intros _; exact IH].
Qed.

Lemma preserves_match_option {A B} (I : S -> Prop) (o : option A)
  (f : A -> M S B) (d : M S B) :
  (forall a, preserves I (f a)) -> preserves I d ->
  preserves I (match o with Some a => f a | None => d end).
Proof. intros Hf Hd. destruct o; auto. Qed.

Lemma returns_ret {A} (a : A) : returns (@ret S A a).
Proof. intros s. now exists a. Qed.

Lemma returns_bind {A B} (m : M S A) (k : A -> M S B) :
  returns m -> (forall a, returns (k a)) -> returns (bind m k).
Proof.
  intros Hm Hk s. unfold bind. destruct (Hm s) as [a Ha].
  destruct (m s) as [s1 r]. simpl in Ha. subst r. apply Hk.
Qed.

(** A handler for every exception that itself returns makes the whole
    statement return. *)
Lemma returns_try_except {A} (m : M S A) h :
  (forall e, returns (h e)) -> returns (try_except m is_Exception h).
Proof.
  intros Hh s. unfold try_except.
  destruct (m s) as [s1 [a|e]]; simpl; [now exists a|apply Hh].
Qed.

Lemma returns_for_each {A} (l : list A) (body : A -> M S unit) :
  (forall x, returns (body x)) -> returns (for_each l body).
Proof.
  intros Hb. induction l as [|x l IH]; simpl.
  - apply returns_ret.
  - apply returns_bind; [apply Hb|intros _; exact IH].
Qed.

End RunFacts.

Section StateFacts.
Import Py.

Context {Env Ev O : Type}.

(** Properties of the attributes alone are kept by calls into the world,
    by events and by reads. *)
Lemma preserves_call {A} (P : O -> Prop) (e : Ev) (f : Env -> Env * result A) :
  preserves (fun s : state Env Ev O => P (self s)) (call e f).
Proof. intros s H. unfold call. destruct (f (env s)) as [env' out]. exact H. Qed.

Lemma preserves_emit (P : O -> Prop) (e : Ev) :
  preserves (fun s : state Env Ev O => P (self s)) (emit e).
Proof. intros s H. exact H. Qed.

Lemma preserves_read {A} (P : O -> Prop) (f : O -> A) :
  preserves (fun s : state Env Ev O => P (self s)) (read f).
Proof. intros s H. exact H. Qed.

Lemma preserves_update (P : O -> Prop) (f : O -> O) :
  (forall o, P o -> P (f o)) ->
  preserves (fun s : state Env Ev O => P (self s)) (update f).
Proof. intros Hf s H. simpl. now apply Hf. Qed.

Lemma returns_update (f : O -> O) : returns (@update Env Ev O f).
Proof. intros s. now exists tt. Qed.

Lemma returns_read {A} (f : O -> A) : returns (@read Env Ev O A f).
Proof. intros s. now exists (f (self s)). Qed.

End StateFacts.

(** ** The multi-target orchestrator *)

Section ETSLinkFacts.
Import PyStr Py ETSLink.

Context {Env Grid FTable : Type} (D : driver Env Grid FTable).

Abbreviation ESc := (Py.state Env event ETSLinkScraper).
Abbreviation EFr := (Py.state Env event (frame Grid FTable)).
Abbreviation ESt := (Py.state Env event (locals Grid FTable)).

(** [close] releases every handle that is set, and nothing else happens. *)
Lemma ets_close_effect (s : ESc) :
  close s =
  ({| env := env s;
      trace := trace s ++ closing (self s);
      self := set_handles false false false false (self s) |}, Ret tt).
Proof.
  destruct s as [e t [u p b li pw br cx pg]].
  unfold close, closing, bind, read, gets, when, emit, update, modify, ret, set_handles.
  cbn [env trace self page context browser playwright username password
       base_url logged_in fst snd].
  destruct pg, cx, br, pw; cbn; rewrite <- ?app_assoc, ?app_nil_r; reflexivity.
Qed.

Ltac reduce_login :=
  cbv [login bind ret raise gets modify read update emit call try_except
       set_handles set_logged_in];
  cbn [fst snd env trace self negb is_Exception
       username password base_url logged_in playwright browser context page];
  cbv beta iota.

Ltac split_login :=
  match goal with
  | |- context [PLAYWRIGHT_AVAILABLE D] => destruct (PLAYWRIGHT_AVAILABLE D)
  | |- context [pw_start D ?e] => destruct (pw_start D e) as [? [[]|?]]
  | |- context [pw_launch D ?e] => destruct (pw_launch D e) as [? [[]|?]]
  | |- context [pw_new_context D ?e] => destruct (pw_new_context D e) as [? [[]|?]]
  | |- context [pw_new_page D ?e] => destruct (pw_new_page D e) as [? [[]|?]]
  | |- context [submit_credentials D ?e ?u ?p] =>
      destruct (submit_credentials D e u p) as [? [?|?]]
  | |- context [query_error D ?e] => destruct (query_error D e) as [? [[?|]|?]]
  | |- context [password_visible D ?e] =>
      destruct (password_visible D e) as [? [[|]|?]]
  | |- context [contains "main" (lower ?u) || contains "home" (lower ?u)] =>
      destruct (contains "main" (lower u) || contains "home" (lower u))
  end.

(** [login] always returns a pair; it submits the credentials at most
    once, touches nothing of the extraction and closes nothing; when it
    answers [True] the scraper is logged in and holds a page. *)
Lemma login_effect (s : ESc) :
  exists s1 ok m,
    login D s = (s1, Ret (ok, m)) /\
    (ok = true -> logged_in (self s1) = true /\ page (self s1) = true) /\
    (ok = false -> logged_in (self s1) = logged_in (self s)) /\
    exists evs,
      trace s1 = trace s ++ evs /\
      length (List.filter is_submit evs) <= 1 /\
      existsb is_extraction evs = false /\
      existsb is_closing evs = false.
Proof.
  repeat (progress reduce_login || split_login);
  (eexists _, _, _; split; [reflexivity|]);
  cbn [self logged_in page];
  (split; [intros; try discriminate; split; reflexivity|]);
  (split; [intros; try discriminate; reflexivity|]);
  (eexists; split;
   [try (rewrite <- ?app_assoc; reflexivity); symmetry; apply app_nil_r|]);
  cbn; repeat split; lia.
Qed.

(** *** Frames *)

Ltac reduce_frame :=
  cbv [scrape_frame set_result extend bind ret raise gets modify read update
       emit call try_except];
  cbn [fst snd env trace self this result is_Exception
       r_location r_code r_data r_tables r_grids r_error];
  cbv beta iota.

(** One frame: whatever happens inside it, the loop goes on; the frame was
    started; the scraper, the error tag and what was collected before are
    kept, and the collections can only grow. *)
Lemma scrape_frame_effect code iframe (s : EFr) :
  snd (scrape_frame D code iframe s) = Ret tt /\
  this (self (fst (scrape_frame D code iframe s))) = this (self s) /\
  r_error (result (self (fst (scrape_frame D code iframe s)))) = r_error (result (self s)) /\
  (exists more,
     r_tables (result (self (fst (scrape_frame D code iframe s))))
       = r_tables (result (self s)) ++ more) /\
  (exists more,
     r_grids (result (self (fst (scrape_frame D code iframe s))))
       = r_grids (result (self s)) ++ more) /\
  frames_started (trace (fst (scrape_frame D code iframe s)))
    = frames_started (trace s) ++ [iframe] /\
  (forall e, snd (iframe_id D (env s) iframe) = Raise e ->
     self (fst (scrape_frame D code iframe s)) = self s) /\
  (forall e, snd (process_frame D (fst (iframe_id D (env s) iframe)) code iframe) = Raise e ->
     self (fst (scrape_frame D code iframe s)) = self s).
Proof.
  assert (F : forall t evs, frames_started (t ++ evs) = frames_started t ++ frames_started evs).
  { intros t evs. unfold frames_started. apply flat_map_app. }
  reduce_frame.
  destruct (iframe_id D (env s) iframe) as [env1 [id|e1]]; reduce_frame.
  - destruct (process_frame D env1 code iframe) as [env2 [[gd|]|e2]]; reduce_frame;
      (split; [reflexivity|]); (split; [reflexivity|]); (split; [reflexivity|]);
      (split; [eexists; first [reflexivity | symmetry; apply app_nil_r]|]);
      (split; [eexists; first [reflexivity | symmetry; apply app_nil_r]|]);
      (split; [rewrite <- app_assoc, F; reflexivity|]);
      split; intros e E; try discriminate; destruct s as [? ? [? ?]]; reflexivity.
  - (split; [reflexivity|]); (split; [reflexivity|]); (split; [reflexivity|]);
      (split; [eexists; symmetry; apply app_nil_r|]);
      (split; [eexists; symmetry; apply app_nil_r|]);
      (split; [rewrite F; reflexivity|]);
      split; intros e E; destruct s as [? ? [? ?]]; reflexivity.
Qed.

(** The loop over the frames starts every frame, in order, and returns. *)
Lemma frames_loop code iframes (s : EFr) :
  snd (for_each iframes (scrape_frame D code) s) = Ret tt /\
  this (self (fst (for_each iframes (scrape_frame D code) s))) = this (self s) /\
  r_error (result (self (fst (for_each iframes (scrape_frame D code) s))))
    = r_error (result (self s)) /\
  (exists more,
     r_tables (result (self (fst (for_each iframes (scrape_frame D code) s))))
       = r_tables (result (self s)) ++ more) /\
  (exists more,
     r_grids (result (self (fst (for_each iframes (scrape_frame D code) s))))
       = r_grids (result (self s)) ++ more) /\
  frames_started (trace (fst (for_each iframes (scrape_frame D code) s)))
    = frames_started (trace s) ++ iframes.
Proof.
  revert s. induction iframes as [|i l IH]; intros s.
  - simpl. repeat split; try (eexists; symmetry; apply app_nil_r).
    symmetry; apply app_nil_r.
  - cbn [for_each]. unfold bind.
    pose proof (scrape_frame_effect code i s) as (R & T & E & (mt & Ht) & (mg & Hg) & F & _).
    destruct (scrape_frame D code i s) as [s1 r1]. cbn [fst snd] in *. subst r1.
    destruct (IH s1) as (R' & T' & E' & (mt' & Ht') & (mg' & Hg') & F').
    split; [exact R'|]. split; [congruence|]. split; [congruence|].
    split; [exists (mt ++ mt'); rewrite Ht', Ht, app_assoc; reflexivity|].
    split; [exists (mg ++ mg'); rewrite Hg', Hg, app_assoc; reflexivity|].
    rewrite F', F, <- app_assoc. reflexivity.
Qed.

(** *** One target *)

Lemma preserves_this_set_result (o : ETSLinkScraper) f :
  preserves (fun s : EFr => this (self s) = o) (set_result f).
Proof. intros s H. exact H. Qed.

Lemma preserves_this_body (o : ETSLinkScraper) location_code :
  preserves (fun s : EFr => this (self s) = o) (scrape_body D location_code).
Proof.
  unfold scrape_body.
  repeat first
    [ apply preserves_bind; [|intros ?]
    | apply (preserves_call (fun fr : frame Grid FTable => this fr = o))
    | apply preserves_this_set_result
    | apply preserves_gets
    | apply (preserves_read (fun fr : frame Grid FTable => this fr = o))
    | apply preserves_ret
    | apply preserves_for_each; intros ? ].
  intros s H. rewrite <- H. apply scrape_frame_effect.
Qed.

(** Once logged in, [scrape_location] raises nothing: a failure inside the
    extraction ends as an error tag in the result; the scraper itself is
    left as it was. *)
Lemma scrape_location_effect loc (s : ESc) :
  logged_in (self s) = true -> page (self s) = true ->
  exists s' d, scrape_location D loc s = (s', Ret d) /\ self s' = self s.
Proof.
  intros L P. unfold scrape_location, bind at 1, read, gets. cbn [fst snd self].
  rewrite L, P. cbn [andb negb].
  destruct (locations_get (upper loc) ETSLINK_LOCATIONS) as [location|].
  2:{ eexists _, _. split; reflexivity. }
  unfold zoom.
  set (s0 := {| env := env s; trace := trace s; self := _ |}).
  set (m := (_ ;; _)%py).
  assert (Rm : exists r, snd (m s0) = Ret (Scraped r)).
  { unfold m, bind.
    destruct (returns_try_except (scrape_body D loc)
                (fun e => set_result (set_error (msg e)))
                (fun e => returns_update _) s0) as [[] H].
    destruct (try_except _ _ _ s0) as [s1 r1]. cbn [snd] in H. subst r1.
    eexists. reflexivity. }
  assert (Tm : this (self (fst (m s0))) = self s).
  { apply (preserves_bind (fun x : EFr => this (self x) = self s)); [| |reflexivity].
    - apply preserves_try_except; [apply preserves_this_body|].
      intros e. apply preserves_this_set_result.
    - intros _. apply preserves_bind; [apply preserves_gets|].
      intros r. apply preserves_ret. }
  destruct Rm as [r Rm]. destruct (m s0) as [s1 r1]. cbn [fst snd] in *. subst r1.
  eexists _, (Scraped r). split; [reflexivity|exact Tm].
Qed.

(** An exception inside the extraction of a known target ends as that
    target's error tag; what was collected before it is kept. *)
Lemma scrape_location_failure loc location (s : ESc) e :
  logged_in (self s) = true -> page (self s) = true ->
  locations_get (upper loc) ETSLINK_LOCATIONS = Some location ->
  snd (scrape_body D loc
         {| env := env s; trace := trace s;
            self := {| this := self s; result := new_result location loc |} |})
    = Raise e ->
  exists s' r,
    scrape_location D loc s = (s', Ret (Scraped r)) /\
    r_error r = Some (msg e) /\
    r_tables r = r_tables (result (self (fst (scrape_body D loc
         {| env := env s; trace := trace s;
            self := {| this := self s; result := new_result location loc |} |})))).
Proof.
  intros L P K B. unfold scrape_location, bind at 1, read, gets. cbn [fst snd self].
  rewrite L, P, K. cbn [andb negb]. unfold zoom, bind, try_except.
  destruct (scrape_body D loc _) as [s1 r1]. cbn [fst snd] in *. subst r1.
  cbn [is_Exception]. eexists _, _. split; [reflexivity|]. split; reflexivity.
Qed.

(** *** The loop over the targets *)

Lemma on_scraper_run {A} (m : M ESc A) (s : ESt) :
  on_scraper m s =
  (let (s1, r) := m {| env := env s; trace := trace s; self := scraper (self s) |} in
   ({| env := env s1; trace := trace s1;
       self := {| scraper := self s1; run := run (self s) |} |}, r)).
Proof. reflexivity. Qed.

(** One target: the iteration returns, whether the target's data carries
    an error tag or not; the data is stored under the target's key; the
    scraper and the flag [success] are untouched. *)
Lemma scrape_one_effect total i loc (s : ESt) :
  logged_in (scraper (self s)) = true -> page (scraper (self s)) = true ->
  exists s' d,
    scrape_one D total (i, loc) s = (s', Ret tt) /\
    snd (scrape_location D loc
           {| env := env s; trace := trace s; self := scraper (self s) |}) = Ret d /\
    scraper (self s') = scraper (self s) /\
    r_success (run (self s')) = r_success (run (self s)) /\
    r_locations (run (self s')) = <[loc := d]> (r_locations (run (self s))) /\
    exists e1 e2,
      r_logs (run (self s')) = r_logs (run (self s)) ++ [e1; e2] /\
      type e1 = info /\
      type e2 = match error_of d with Some _ => error | None => success end.
Proof.
  intros L P. unfold scrape_one, bind at 1 2.
  unfold log at 1. unfold update, modify. cbn [fst snd].
  rewrite on_scraper_run. cbn [env trace self scraper run].
  destruct (scrape_location_effect loc
              {| env := env s; trace := trace s; self := scraper (self s) |} L P)
    as (s1 & d & E & Es).
  rewrite E. cbn [fst snd self] in *.
  unfold bind, record_location, log, update, modify. cbn [fst snd self scraper run
    r_success r_logs r_locations].
  destruct (error_of d) eqn:Er; cbn [fst snd self scraper run r_success r_logs r_locations];
    (eexists _, d; split; [reflexivity|]);
    cbn [self scraper run r_success r_logs r_locations];
    (split; [reflexivity|]); (split; [exact Es|]); (split; [reflexivity|]);
    (split; [reflexivity|]);
    (eexists _, _; split; [rewrite <- app_assoc; reflexivity|]);
    (split; [reflexivity|]); cbn [type]; rewrite ?Er; reflexivity.
Qed.

Lemma targets_loop total k locs (s : ESt) :
  logged_in (scraper (self s)) = true -> page (scraper (self s)) = true ->
  exists s',
    for_each (Extract.enumerate_from k locs) (scrape_one D total) s = (s', Ret tt) /\
    scraper (self s') = scraper (self s) /\
    r_success (run (self s')) = r_success (run (self s)) /\
    dom (r_locations (run (self s'))) = dom (r_locations (run (self s))) ∪ list_to_set locs /\
    length (r_logs (run (self s'))) = length (r_logs (run (self s))) + 2 * length locs.
Proof.
  revert k s. induction locs as [|loc locs IH]; intros k s L P.
  - exists s. cbn. repeat split; [set_solver|lia].
  - cbn [Extract.enumerate_from for_each]. unfold bind.
    destruct (scrape_one_effect total k loc s L P)
      as (s1 & d & E & _ & Sc & Su & Lo & e1 & e2 & Lg & _).
    rewrite E.
    destruct (IH (Datatypes.S k) s1) as (s' & E' & Sc' & Su' & Lo' & Lg').
    { now rewrite Sc. } { now rewrite Sc. }
    exists s'. split; [exact E'|]. split; [congruence|]. split; [congruence|].
    split.
    + rewrite Lo', Lo, dom_insert_L. cbn [list_to_set]. set_solver.
    + rewrite Lg', Lg, length_app. cbn [length]. lia.
Qed.

(** *** The run *)

Lemma lift_close (s : ESt) :
  on_scraper close s =
  ({| env := env s;
      trace := trace s ++ closing (scraper (self s));
      self := {| scraper := set_handles false false false false (scraper (self s));
                 run := run (self s) |} |}, Ret tt).
Proof. rewrite on_scraper_run, ets_close_effect. reflexivity. Qed.

(** However a call of [scrape_etslink] goes, it returns the dictionary
    [result] after [close] has released every handle that was set; the
    closing events are the last of the run. *)
Lemma etslink_cleanup u p locations w :
  exists s' s1 : ESt,
    call_scrape_etslink D u p locations w = (s', Ret (run (self s'))) /\
    playwright (scraper (self s')) = false /\
    browser (scraper (self s')) = false /\
    context (scraper (self s')) = false /\
    page (scraper (self s')) = false /\
    trace s' = trace s1 ++ closing (scraper (self s1)) /\
    existsb is_closing (closing (scraper (self s1)))
      = playwright (scraper (self s1)) || browser (scraper (self s1))
        || context (scraper (self s1)) || page (scraper (self s1)).
Proof.
  unfold call_scrape_etslink, scrape_etslink, bind at 1, try_finally.
  set (s0 := {| env := w; trace := []; self := initial_locals u p |}).
  set (m := try_except _ is_Exception _).
  destruct (returns_try_except
              (try_block D match locations with Some l => l | None => locations_keys end)
              (fun e => log error ("Error: " +:+ msg e))
              (fun e => returns_update _) s0) as [[] R].
  fold m in R. destruct (m s0) as [s1 r1]. cbn [snd] in R. subst r1.
  rewrite lift_close. cbn [fst snd read gets self].
  eexists _, s1. split; [reflexivity|]. cbn [self scraper trace set_handles
    playwright browser context page].
  repeat (split; [reflexivity|]).
  unfold closing.
  destruct (page (scraper (self s1))), (context (scraper (self s1))),
    (browser (scraper (self s1))), (playwright (scraper (self s1))); reflexivity.
Qed.

(** A call of [scrape_etslink] in which the login does not succeed. *)
Lemma etslink_login_failed u p locations w s1 m :
  login D {| env := w; trace := []; self := ETSLinkScraper_init u p |}
    = (s1, Ret (false, m)) ->
  exists s' res,
    call_scrape_etslink D u p locations w = (s', Ret res) /\
    r_success res = false /\
    r_locations res = ∅ /\
    r_logs res =
      [ {| type := info; message := "Connecting to ETSLink..." |};
        {| type := error; message := or_else m "Login failed. Check credentials." |} ] /\
    trace s' = trace s1 ++ closing (self s1) /\
    length (List.filter is_submit (trace s')) <= 1 /\
    existsb is_extraction (trace s') = false.
Proof.
  intros E.
  unfold call_scrape_etslink, scrape_etslink, bind at 1, try_finally, try_except, try_block.
  unfold bind at 1 2. unfold log at 1. unfold update, modify. cbn [fst snd].
  rewrite on_scraper_run. cbn [env trace self scraper run initial_locals].
  rewrite E. cbn [negb]. unfold log, update, modify. cbn [fst snd].
  rewrite lift_close. cbn [fst snd read gets self scraper run trace].
  eexists _, _. split; [reflexivity|].
  cbn [r_success r_locations r_logs app].
  repeat (split; [reflexivity|]).
  destruct (login_effect {| env := w; trace := []; self := ETSLinkScraper_init u p |})
    as (s1' & ok & m' & E' & _ & _ & evs & T & Sb & Ex & Cl).
  rewrite E in E'. injection E' as <- <- <-.
  cbn [trace app] in T. rewrite T.
  assert (forall o, List.filter is_submit (closing o) = [] /\
                    existsb is_extraction (closing o) = false) as Hc.
  { intros o. unfold closing.
    destruct (page o), (context o), (browser o), (playwright o); split; reflexivity. }
  cbn [trace env self scraper run]. rewrite ?T.
  rewrite List.filter_app, existsb_app, length_app.
  destruct (Hc (self s1)) as [-> ->]. rewrite Ex. cbn. split; [lia|reflexivity].
Qed.

(** A call of [scrape_etslink] in which the login succeeds and the store
    works: every target has its entry, and the run is a success whatever
    the entries hold. *)
Lemma etslink_run_success u p locations w s1 m :
  (forall env, snd (storage_init D env) = Ret tt) ->
  (forall env d, snd (storage_save D env d) = Ret tt) ->
  login D {| env := w; trace := []; self := ETSLinkScraper_init u p |}
    = (s1, Ret (true, m)) ->
  exists s' res,
    call_scrape_etslink D u p locations w = (s', Ret res) /\
    r_success res = true /\
    dom (r_locations res)
      = list_to_set (match locations with Some l => l | None => locations_keys end).
Proof.
  intros Hi Hs E.
  unfold call_scrape_etslink, scrape_etslink, bind at 1, try_finally, try_except, try_block.
  set (locs := match locations with Some l => l | None => locations_keys end).
  unfold bind at 1 2. unfold log at 1. unfold update, modify. cbn [fst snd].
  rewrite on_scraper_run. cbn [env trace self scraper run initial_locals].
  rewrite E. cbn [negb].
  destruct (login_effect {| env := w; trace := []; self := ETSLinkScraper_init u p |})
    as (s1' & ok & m' & E' & Hok & _).
  rewrite E in E'. injection E' as <- <- <-. destruct (Hok eq_refl) as [L P].
  unfold scrape_targets. unfold bind at 1 2 3. unfold log at 1 2.
  unfold update, modify.
  cbn [fst snd env trace self scraper run r_success r_logs r_locations app].
  match goal with
  | |- context [for_each _ _ ?st] =>
      destruct (targets_loop (length locs) 0 locs st L P) as (s3 & E3 & Sc & Su & Lo & Lg)
  end.
  rewrite E3. cbn [self run r_locations r_logs scraper length] in Lo, Lg, Sc.
  unfold bind, call, read, gets, set_success, log, update, modify.
  cbn [fst snd env trace self].
  specialize (Hi (env s3)). destruct (storage_init D (env s3)) as [env4 r4].
  cbn [snd] in Hi. subst r4.
  cbn [fst snd env trace self run r_locations].
  specialize (Hs env4 (r_locations (run (self s3)))).
  destruct (storage_save D env4 _) as [env5 r5]. cbn [snd] in Hs. subst r5.
  cbn [fst snd env trace self scraper run r_success r_logs r_locations is_Exception].
  rewrite lift_close.
  cbn [fst snd read gets self scraper run trace r_success r_logs r_locations].
  eexists _, _. split; [reflexivity|].
  cbn [r_success r_locations r_logs]. split; [reflexivity|].
  rewrite Lo, dom_empty_L. set_solver.
Qed.

End ETSLinkFacts.

(** ** The orchestrators: failure of the login, cleanup, isolation *)

Section OrchestratorClaims.
Import PyStr Py.

Context {Env : Type} (send : Env -> Http.request -> Env * result Http.response)
        (status_raises : Z -> bool) (BeautifulSoup : string -> Soup.node)
        (storage_init : Env -> Env * result unit)
        (storage_save : Env -> T18.save_data -> Env * result unit).
Context {Env' Grid FTable : Type} (D : ETSLink.driver Env' Grid FTable).

(** C5.  A run in which the login does not succeed stops there.  In
    [do_scrape] (the login returned [False] or raised): the result is
    returned with [success] false and the initial data, its log holds
    exactly one error entry, the last one, which tells the reason; after
    the authentication nothing happened but the closing of the client, so
    no page was fetched or saved, and at most one credential POST was sent.
    In [scrape_etslink] (where [login] always returns a pair, so it fails
    by answering [False] with a message): the result is returned with
    [success] false and no location, its log is the connecting entry
    followed by one error entry with the message of the login (or the
    generic one when that is empty), no extraction event occurred, the
    credentials were submitted at most once, and the run ends with the
    closing of the handles. *)
Theorem authentication_failure_aborts :
  (forall u p w env0 s1 r1,
     storage_init w = (env0, Ret tt) ->
     T18.authenticate send status_raises BeautifulSoup u p
       {| env := env0; trace := [Http.EvMkdir]; self := T18.initial_locals |} = (s1, r1) ->
     r1 <> Ret true ->
     exists s' res,
       T18.call_do_scrape send status_raises BeautifulSoup storage_init storage_save u p w
         = (s', Ret res) /\
       T18.r_success res = false /\
       T18.r_data res = T18.r_data T18.initial_result /\
       length (List.filter T18.is_error (T18.r_logs res)) = 1 /\
       last (T18.r_logs res) =
         Some {| T18.type := T18.error;
                 T18.message := match r1 with
                                | Raise e => "Error: " +:+ msg e
                                | Ret _ => "Login failed. Check your credentials."
                                end |} /\
       trace s' = trace s1 ++ [Http.EvAclose] /\
       length (List.filter T18.is_post (trace s')) <= 1 /\
       existsb T18.is_save (trace s') = false) /\
  (forall s : Py.state Env' ETSLink.event ETSLink.ETSLinkScraper,
     exists s1 ok m, ETSLink.login D s = (s1, Ret (ok, m))) /\
  (forall u p locations w s1 m,
     ETSLink.login D
       {| env := w; trace := []; self := ETSLink.ETSLinkScraper_init u p |}
       = (s1, Ret (false, m)) ->
     exists s' res,
       ETSLink.call_scrape_etslink D u p locations w = (s', Ret res) /\
       ETSLink.r_success res = false /\
       ETSLink.r_locations res = ∅ /\
       ETSLink.r_logs res =
         [ {| ETSLink.type := ETSLink.info;
              ETSLink.message := "Connecting to ETSLink..." |};
           {| ETSLink.type := ETSLink.error;
              ETSLink.message := or_else m "Login failed. Check credentials." |} ] /\
       trace s' = trace s1 ++ ETSLink.closing (self s1) /\
       length (List.filter ETSLink.is_submit (trace s')) <= 1 /\
       existsb ETSLink.is_extraction (trace s') = false).
Proof.
  split; [|split].
  - intros u p w env0 s1 r1 M A N.
    exact (do_scrape_login_failed send status_raises BeautifulSoup storage_init
             storage_save u p w env0 s1 r1 M A N).
  - intros s. destruct (login_effect D s) as (s1 & ok & m & E & _). eauto.
  - intros u p locations w s1 m E.
    exact (etslink_login_failed D u p locations w s1 m E).
Qed.

(** C9.  Every call of an orchestrator closes its session before it
    returns.  [do_scrape]: at the end the client is closed in every case;
    when a result is returned it is the dictionary [result] and the closing
    of the client is the last event of the run, the only closing; the call
    ends without a result only when the directory of the store cannot be
    created, before any client was opened.  [scrape_etslink]: a result is
    always returned, it is the dictionary [result], every handle of the
    browser is released, and the closing events, one for each handle that
    was set, are the last events of the run. *)
Theorem guaranteed_cleanup :
  (forall u p w,
     exists s' r,
       T18.call_do_scrape send status_raises BeautifulSoup storage_init storage_save u p w
         = (s', r) /\
       Http._client (T18.scraper (self s')) = false /\
       match r with
       | Ret res =>
           res = T18.result (self s') /\
           exists tr, trace s' = tr ++ [Http.EvAclose] /\
                      existsb T18.is_aclose tr = false
       | Raise e =>
           snd (storage_init w) = Raise e /\ trace s' = [Http.EvMkdir]
       end) /\
  (forall u p locations w,
     exists s' s1 : Py.state Env' ETSLink.event (ETSLink.locals Grid FTable),
       ETSLink.call_scrape_etslink D u p locations w
         = (s', Ret (ETSLink.run (self s'))) /\
       ETSLink.playwright (ETSLink.scraper (self s')) = false /\
       ETSLink.browser (ETSLink.scraper (self s')) = false /\
       ETSLink.context (ETSLink.scraper (self s')) = false /\
       ETSLink.page (ETSLink.scraper (self s')) = false /\
       trace s' = trace s1 ++ ETSLink.closing (ETSLink.scraper (self s1)) /\
       existsb ETSLink.is_closing (ETSLink.closing (ETSLink.scraper (self s1)))
         = ETSLink.playwright (ETSLink.scraper (self s1))
           || ETSLink.browser (ETSLink.scraper (self s1))
           || ETSLink.context (ETSLink.scraper (self s1))
           || ETSLink.page (ETSLink.scraper (self s1))).
Proof.
  split.
  - intros u p w.
    exact (do_scrape_cleanup send status_raises BeautifulSoup storage_init
             storage_save u p w).
  - intros u p locations w. exact (etslink_cleanup D u p locations w).
Qed.

End OrchestratorClaims.

Section IsolationClaims.
Import PyStr Py ETSLink.

Context {Env Grid FTable : Type} (D : driver Env Grid FTable).

(** C4.  In a run of [scrape_etslink] whose login succeeded, failures stay
    where they happen.
    Frames: the extraction of one frame always returns to the loop; when a
    driver call inside the frame raises, the result collected so far is
    left as it is; so the loop starts every frame, in order, and what the
    earlier frames gave is kept.
    Targets: an exception inside the extraction of a known target becomes
    the error tag of that target's result; one turn of the loop over the
    targets always returns, stores what [scrape_location] returned under
    the target's key and logs it as an error or a success, without touching
    the scraper or the flag [success]; so the loop gives every target its
    entry.
    Run: when the store works, the run ends with [success] true and an
    entry for every target, whatever the entries hold. *)
Theorem failure_isolation :
  (forall code iframe (s : Py.state Env event (frame Grid FTable)),
     snd (scrape_frame D code iframe s) = Ret tt /\
     (forall e, snd (iframe_id D (env s) iframe) = Raise e ->
        self (fst (scrape_frame D code iframe s)) = self s) /\
     (forall e,
        snd (process_frame D (fst (iframe_id D (env s) iframe)) code iframe) = Raise e ->
        self (fst (scrape_frame D code iframe s)) = self s)) /\
  (forall code iframes (s : Py.state Env event (frame Grid FTable)),
     snd (for_each iframes (scrape_frame D code) s) = Ret tt /\
     frames_started (trace (fst (for_each iframes (scrape_frame D code) s)))
       = frames_started (trace s) ++ iframes /\
     r_error (result (self (fst (for_each iframes (scrape_frame D code) s))))
       = r_error (result (self s)) /\
     (exists more,
        r_tables (result (self (fst (for_each iframes (scrape_frame D code) s))))
          = r_tables (result (self s)) ++ more) /\
     (exists more,
        r_grids (result (self (fst (for_each iframes (scrape_frame D code) s))))
          = r_grids (result (self s)) ++ more)) /\
  (forall loc location (s : Py.state Env event ETSLinkScraper) e,
     logged_in (self s) = true -> page (self s) = true ->
     locations_get (upper loc) ETSLINK_LOCATIONS = Some location ->
     snd (scrape_body D loc
            {| env := env s; trace := trace s;
               self := {| this := self s; result := new_result location loc |} |})
       = Raise e ->
     exists s' r,
       scrape_location D loc s = (s', Ret (Scraped r)) /\
       r_error r = Some (msg e)) /\
  (forall total i loc (s : Py.state Env event (locals Grid FTable)),
     logged_in (scraper (self s)) = true -> page (scraper (self s)) = true ->
     exists s' d,
       scrape_one D total (i, loc) s = (s', Ret tt) /\
       snd (scrape_location D loc
              {| env := env s; trace := trace s; self := scraper (self s) |}) = Ret d /\
       scraper (self s') = scraper (self s) /\
       r_success (run (self s')) = r_success (run (self s)) /\
       r_locations (run (self s')) = <[loc := d]> (r_locations (run (self s))) /\
       exists e1 e2,
         r_logs (run (self s')) = r_logs (run (self s)) ++ [e1; e2] /\
         type e1 = info /\
         type e2 = match error_of d with Some _ => error | None => success end) /\
  (forall total k locs (s : Py.state Env event (locals Grid FTable)),
     logged_in (scraper (self s)) = true -> page (scraper (self s)) = true ->
     exists s',
       for_each (Extract.enumerate_from k locs) (scrape_one D total) s = (s', Ret tt) /\
       r_success (run (self s')) = r_success (run (self s)) /\
       dom (r_locations (run (self s')))
         = dom (r_locations (run (self s))) ∪ list_to_set locs) /\
  (forall u p locations w s1 m,
     (forall env, snd (storage_init D env) = Ret tt) ->
     (forall env d, snd (storage_save D env d) = Ret tt) ->
     login D {| env := w; trace := []; self := ETSLinkScraper_init u p |}
       = (s1, Ret (true, m)) ->
     exists s' res,
       call_scrape_etslink D u p locations w = (s', Ret res) /\
       r_success res = true /\
       dom (r_locations res)
         = list_to_set (match locations with Some l => l | None => locations_keys end)).
Proof.
  split; [|split; [|split; [|split; [|split]]]].
  - intros code iframe s.
    destruct (scrape_frame_effect D code iframe s) as (R & _ & _ & _ & _ & _ & A & B).
    auto.
  - intros code iframes s.
    destruct (frames_loop D code iframes s) as (R & _ & E & T & G & F). auto.
  - intros loc location s e L P K B.
    destruct (scrape_location_failure D loc location s e L P K B) as (s' & r & E & Er & _).
    eauto.
  - intros total i loc s L P. exact (scrape_one_effect D total i loc s L P).
  - intros total k locs s L P.
    destruct (targets_loop D total k locs s L P) as (s' & E & _ & Su & Lo & _). eauto.
  - intros u p locations w s1 m Hi Hs E.
    exact (etslink_run_success D u p locations w s1 m Hi Hs E).
Qed.

End IsolationClaims.

(** ** Runs on sample sites *)

Section RunExamples.
Import PyStr Py RunSamples.

(** [do_scrape] against a site that shows the login page again: the
    login fails, the run returns without success, with one error entry and
    nothing saved. *)
Lemma authentication_failure_witness :
  exists s' res,
    T18.call_do_scrape HttpSpec.scripted HttpSpec.not_2xx sample_parse
      store_init store_save "alice" "secret" rejecting_site = (s', Ret res) /\
    T18.r_success res = false /\
    length (List.filter T18.is_error (T18.r_logs res)) = 1 /\
    length (List.filter T18.is_post (trace s')) <= 1 /\
    existsb T18.is_save (trace s') = false.
Proof.
  assert (A : exists s1,
    T18.authenticate HttpSpec.scripted HttpSpec.not_2xx sample_parse "alice" "secret"
      {| env := rejecting_site; trace := [Http.EvMkdir]; self := T18.initial_locals |}
    = (s1, Ret false)).
  { eexists. vm_compute. reflexivity. }
  destruct A as [s1 A].
  destruct (proj1 (authentication_failure_aborts HttpSpec.scripted HttpSpec.not_2xx
                     sample_parse store_init store_save rejecting_driver)
              "alice" "secret" rejecting_site rejecting_site s1 (Ret false)
              eq_refl A)
    as (s' & res & E & S & _ & L & _ & _ & P & V).
  - discriminate.
  - exists s', res. auto.
Defined.

Example do_scrape_rejected :
  snd (T18.call_do_scrape HttpSpec.scripted HttpSpec.not_2xx sample_parse
         store_init store_save "alice" "secret" rejecting_site)
  = Ret {| T18.r_success := false;
           T18.r_logs :=
             [ {| T18.type := T18.info; T18.message := "Connecting to T18 Tideworks..." |};
               {| T18.type := T18.success; T18.message := "Found login form" |};
               {| T18.type := T18.info; T18.message := "Logging in as alice..." |};
               {| T18.type := T18.error;
                  T18.message := "Login failed. Check your credentials." |} ];
           T18.r_data := T18.r_data T18.initial_result |}.
Proof. vm_compute. reflexivity. Qed.

(** [scrape_etslink] with a rejected login: two log entries, no location,
    and the browser closed after the single submission. *)
Example etslink_rejected :
  snd (ETSLink.call_scrape_etslink rejecting_driver "alice" "secret" None tt)
  = Ret {| ETSLink.r_success := false;
           ETSLink.r_logs :=
             [ {| ETSLink.type := ETSLink.info;
                  ETSLink.message := "Connecting to ETSLink..." |};
               {| ETSLink.type := ETSLink.error;
                  ETSLink.message := "Invalid user id or password" |} ];
           ETSLink.r_locations := ∅ |} /\
  trace (fst (ETSLink.call_scrape_etslink rejecting_driver "alice" "secret" None tt))
  = [ ETSLink.EvStart; ETSLink.EvLaunch; ETSLink.EvNewContext; ETSLink.EvNewPage;
      ETSLink.EvSubmit; ETSLink.EvQueryError;
      ETSLink.EvClosePage; ETSLink.EvCloseContext; ETSLink.EvCloseBrowser;
      ETSLink.EvStop ].
Proof. split; vm_compute; reflexivity. Qed.

(** [scrape_etslink] over three targets after a successful login: the
    menu of [OAK] cannot be opened and [SEA] is unknown; the run is a
    success with an entry for each target. *)
Lemma failure_isolation_witness :
  exists s' res,
    ETSLink.call_scrape_etslink accepting_driver "alice" "secret"
      (Some ["LAX"; "OAK"; "SEA"]) tt = (s', Ret res) /\
    ETSLink.r_success res = true /\
    dom (ETSLink.r_locations res) = list_to_set ["LAX"; "OAK"; "SEA"].
Proof.
  refine (proj2 (proj2 (proj2 (proj2 (proj2 (failure_isolation accepting_driver)))))
            "alice" "secret" (Some ["LAX"; "OAK"; "SEA"]) tt _ _ _ _ _).
  - intros env. reflexivity.
  - intros env d. reflexivity.
  - vm_compute. reflexivity.
Defined.

(** In that run frame 2 of [LAX] fails: the tables of frames 1 and 3 are
    kept; [OAK] and [SEA] carry their error tags. *)
Example etslink_partial :
  exists res,
    snd (ETSLink.call_scrape_etslink accepting_driver "alice" "secret"
           (Some ["LAX"; "OAK"; "SEA"]) tt) = Ret res /\
    ETSLink.r_success res = true /\
    (exists r, ETSLink.r_locations res !! "LAX" = Some (ETSLink.Scraped r) /\
               ETSLink.r_error r = None /\
               ETSLink.r_tables r
                 = [("table of LAX", "frame1"); ("table of LAX", "frame3")]) /\
    (exists r, ETSLink.r_locations res !! "OAK" = Some (ETSLink.Scraped r) /\
               ETSLink.r_error r = Some "Timeout 30000ms exceeded") /\
    ETSLink.r_locations res !! "SEA" = Some (ETSLink.Unknown "Unknown location: SEA") /\
    map ETSLink.type (List.filter ETSLink.is_error (ETSLink.r_logs res))
      = [ETSLink.error; ETSLink.error].
Proof.
  eexists. split; [vm_compute; reflexivity|].
  split; [reflexivity|].
  split; [eexists; split; [vm_compute; reflexivity|split; reflexivity]|].
  split; [eexists; split; [vm_compute; reflexivity|reflexivity]|].
  split; vm_compute; reflexivity.
Qed.

End RunExamples.

(** ** Text and URL helpers *)

Section HelperFacts.
Import PyStr Helpers.

Lemma append_cons c (s t : string) : String c s +:+ t = String c (s +:+ t).
Proof. reflexivity. Qed.

Lemma append_empty_l (t : string) : EmptyString +:+ t = t.
Proof. reflexivity. Qed.

Lemma append_empty_r (s : string) : s +:+ EmptyString = s.
Proof.
  induction s as [|c s IH]; [reflexivity|]. now rewrite append_cons, IH.
Qed.

Lemma append_assoc_str (a b c : string) : (a +:+ b) +:+ c = a +:+ (b +:+ c).
Proof.
  induction a as [|x a IH]; [reflexivity|]. now rewrite !append_cons, IH.
Qed.

Lemma no_space_app a b : no_space (a +:+ b) = no_space a && no_space b.
Proof.
  induction a as [|c a IH]; [reflexivity|].
  rewrite append_cons. cbn [no_space]. now rewrite IH, andb_assoc.
Qed.

Lemma rstrip_no_space_app w x : no_space w = true -> rstrip (w +:+ x) = w +:+ rstrip x.
Proof.
  induction w as [|c w IH]; [reflexivity|].
  rewrite !append_cons. cbn [no_space rstrip].
  intros H. apply andb_true_iff in H as [Hc Hw]. apply negb_true_iff in Hc.
  rewrite Hc, IH by exact Hw. reflexivity.
Qed.

Lemma rstrip_no_space w : no_space w = true -> rstrip w = w.
Proof.
  intros H. rewrite <- (append_empty_r w) at 1.
  rewrite rstrip_no_space_app by exact H. apply append_empty_r.
Qed.

Lemma lstrip_sub_ws_true s : lstrip (sub_ws true s) = sub_ws true s.
Proof.
  induction s as [|c s IH]; [reflexivity|]. cbn [sub_ws].
  destruct (isspace c) eqn:E; [exact IH|]. cbn [lstrip]. now rewrite E.
Qed.

Lemma lstrip_sub_ws s : lstrip (sub_ws false s) = sub_ws true s.
Proof.
  destruct s as [|c s]; [reflexivity|]. cbn [sub_ws].
  destruct (isspace c) eqn:E.
  - change (lstrip (String " " (sub_ws true s))) with (lstrip (sub_ws true s)).
    apply lstrip_sub_ws_true.
  - cbn [lstrip]. now rewrite E.
Qed.

Lemma split_ws_aux_words cur s :
  no_space cur = true ->
  Forall (fun w => truthy w = true /\ no_space w = true) (split_ws_aux cur s).
Proof.
  revert cur. induction s as [|c s IH]; intros cur Hc; cbn [split_ws_aux].
  - destruct cur; repeat constructor. exact Hc.
  - destruct (isspace c) eqn:E.
    + apply Forall_app. split; [|now apply IH].
      destruct cur; repeat constructor. exact Hc.
    + apply IH. rewrite no_space_app, Hc. cbn [no_space]. now rewrite E.
Qed.

Lemma truthy_join_words l :
  Forall (fun w => truthy w = true /\ no_space w = true) l ->
  truthy (join " " l) = Extract.list_truthy l.
Proof.
  intros H. destruct H as [|w l [Hw _] _]; [reflexivity|]. cbn [join Extract.list_truthy].
  destruct l; [exact Hw|]. now rewrite truthy_append, Hw.
Qed.

(** The collapsed text, its trailing whitespace removed, is the list of the
    words joined by single spaces; [cur] is the word being read. *)
Lemma rstrip_sub_ws cur s :
  no_space cur = true ->
  rstrip (cur +:+ sub_ws (negb (truthy cur)) s) = join " " (split_ws_aux cur s).
Proof.
  revert cur. induction s as [|c s IH]; intros cur Hc.
  - cbn [sub_ws split_ws_aux]. rewrite append_empty_r, rstrip_no_space by exact Hc.
    now destruct cur.
  - cbn [sub_ws split_ws_aux]. destruct (isspace c) eqn:E.
    + pose proof (IH EmptyString eq_refl) as IH0.
      cbn [truthy negb] in IH0. rewrite append_empty_l in IH0.
      pose proof (split_ws_aux_words EmptyString s eq_refl) as W.
      apply truthy_join_words in W. rewrite <- IH0 in W.
      destruct cur as [|a cur]; cbn [truthy negb app].
      * rewrite append_empty_l. exact IH0.
      * rewrite rstrip_no_space_app by exact Hc.
        change (rstrip (String " " (sub_ws true s)))
          with (if isspace " " && negb (truthy (rstrip (sub_ws true s)))
                then EmptyString else String " " (rstrip (sub_ws true s))).
        rewrite W. change (isspace " ") with true. cbn [andb].
        destruct (split_ws_aux EmptyString s) as [|w l] eqn:S.
        -- cbn [Extract.list_truthy negb join]. apply append_empty_r.
        -- cbn [Extract.list_truthy negb]. rewrite IH0. reflexivity.
    + specialize (IH (cur +:+ String c EmptyString)).
      rewrite no_space_app, Hc in IH. cbn [no_space andb] in IH. rewrite E in IH.
      specialize (IH eq_refl).
      rewrite truthy_append in IH. cbn [truthy] in IH. rewrite orb_true_r in IH.
      cbn [negb] in IH. rewrite append_assoc_str, append_cons, append_empty_l in IH.
      destruct cur as [|a cur]; cbn [truthy negb]; exact IH.
Qed.

Lemma clean_text_join s : clean_text s = join " " (split_ws s).
Proof.
  unfold clean_text, strip, split_ws.
  rewrite lstrip_sub_ws. exact (rstrip_sub_ws EmptyString s eq_refl).
Qed.

(** Splitting words joined by single spaces gives the words back. *)
Lemma split_ws_aux_app cur w s :
  no_space w = true ->
  split_ws_aux cur (w +:+ s) = split_ws_aux (cur +:+ w) s.
Proof.
  revert cur. induction w as [|c w IH]; intros cur H.
  - now rewrite append_empty_r.
  - rewrite append_cons. cbn [split_ws_aux no_space] in *.
    apply andb_true_iff in H as [Hc Hw]. apply negb_true_iff in Hc. rewrite Hc.
    rewrite IH by exact Hw. now rewrite append_assoc_str.
Qed.

Lemma split_ws_join l :
  Forall (fun w => truthy w = true /\ no_space w = true) l ->
  split_ws (join " " l) = l.
Proof.
  unfold split_ws. induction 1 as [|w l [Hw Hn] Hl IH]; [reflexivity|].
  destruct l as [|w' l'].
  - cbn [join]. rewrite <- (append_empty_r w) at 1.
    rewrite split_ws_aux_app by exact Hn. cbn [split_ws_aux].
    rewrite append_empty_l. now rewrite Hw.
  - change (join " " (w :: w' :: l')) with (w +:+ " " +:+ join " " (w' :: l')).
    rewrite split_ws_aux_app by exact Hn. rewrite append_empty_l.
    change (split_ws_aux w (" " +:+ join " " (w' :: l')))
      with ((if truthy w then [w] else []) ++ split_ws_aux EmptyString (join " " (w' :: l'))).
    now rewrite Hw, IH.
Qed.

(** X1.  [clean_text(text)] is [" ".join(text.split())]: the words of the
    text, in order, separated by single spaces; each word is a non-empty
    run of characters that are not whitespace, so the result has no
    whitespace at either end, no whitespace other than the space and no two
    spaces in a row. *)
Theorem clean_text_words :
  forall text,
    clean_text text = join " " (split_ws text) /\
    Forall (fun w => truthy w = true /\ no_space w = true) (split_ws text).
Proof.
  intros text. split; [apply clean_text_join|].
  exact (split_ws_aux_words EmptyString text eq_refl).
Qed.

(** X2.  Cleaning a text twice changes nothing more, and a text that
    consists of whitespace only is cleaned to the empty text. *)
Theorem clean_text_idempotent :
  (forall text, clean_text (clean_text text) = clean_text text) /\
  (forall text, all_space text = true -> clean_text text = EmptyString).
Proof.
  split.
  - intros text. rewrite !clean_text_join.
    now rewrite split_ws_join by exact (split_ws_aux_words EmptyString text eq_refl).
  - intros text H. unfold clean_text.
    assert (A : forall b s, all_space s = true -> all_space (sub_ws b s) = true).
    { intros b s. revert b. induction s as [|c s IH]; intros b Hs; [reflexivity|].
      cbn [all_space sub_ws] in *. apply andb_true_iff in Hs as [Hc Hs]. rewrite Hc.
      destruct b; cbn [all_space]; [now apply IH|].
      change (isspace " ") with true. now apply IH. }
    specialize (A false text H).
    pose proof (truthy_strip (sub_ws false text)) as T. rewrite A in T.
    now destruct (strip (sub_ws false text)).
Qed.

(** The three cases of the tests. *)
Example clean_text_tests :
  clean_text "hello   world" = "hello world" /\
  clean_text ("hello" +:+ String (ascii_of_nat 10) (String (ascii_of_nat 10) "world"))
    = "hello world" /\
  clean_text "  hello  " = "hello".
Proof. repeat split; reflexivity. Qed.

Lemma clean_text_witness : clean_text (String (ascii_of_nat 9) "  ") = EmptyString.
Proof. apply (proj2 clean_text_idempotent). reflexivity. Defined.

(** *** URLs *)

Lemma rstrip_idempotent s : rstrip (rstrip s) = rstrip s.
Proof.
  induction s as [|c s IH]; [reflexivity|]. cbn [rstrip].
  destruct (isspace c && negb (truthy (rstrip s))) eqn:E; [reflexivity|].
  cbn [rstrip]. now rewrite IH, E.
Qed.

Lemma starts_clean_lstrip s : starts_clean (lstrip s) = true.
Proof.
  induction s as [|c s IH]; [reflexivity|]. cbn [lstrip].
  destruct (isspace c) eqn:E; [exact IH|]. cbn [starts_clean]. now rewrite E.
Qed.

Lemma lstrip_starts_clean s : starts_clean s = true -> lstrip s = s.
Proof.
  destruct s as [|c s]; [reflexivity|]. cbn [starts_clean lstrip].
  intros H. apply negb_true_iff in H. now rewrite H.
Qed.

Lemma starts_clean_rstrip s : starts_clean s = true -> starts_clean (rstrip s) = true.
Proof.
  destruct s as [|c s]; [reflexivity|]. cbn [starts_clean rstrip].
  intros H. apply negb_true_iff in H. rewrite H. cbn [andb starts_clean]. now rewrite H.
Qed.

Lemma strip_idempotent s : strip (strip s) = strip s.
Proof.
  unfold strip.
  rewrite (lstrip_starts_clean (rstrip (lstrip s)))
    by (apply starts_clean_rstrip, starts_clean_lstrip).
  apply rstrip_idempotent.
Qed.

Lemma prefix_cons c p d s :
  String.prefix (String c p) (String d s) = Ascii.eqb c d && String.prefix p s.
Proof.
  cbn [String.prefix].
  destruct (ascii_dec c d) as [->|N].
  - now rewrite Ascii.eqb_refl.
  - apply Ascii.eqb_neq in N. now rewrite N.
Qed.

(** A string that begins with [h] does not begin with two slashes. *)
Lemma not_relative_of_h u :
  String.prefix "h" u = true -> startswith u "//" = false.
Proof.
  unfold startswith. destruct u as [|c u]; [discriminate|].
  rewrite !prefix_cons. intros H. apply andb_true_iff in H as [H _].
  apply Ascii.eqb_eq in H. subst c. reflexivity.
Qed.

Lemma prefix_empty s : String.prefix EmptyString s = true.
Proof. now destruct s. Qed.

Lemma prefix_trans_h p u :
  String.prefix "h" p = true -> String.prefix p u = true -> String.prefix "h" u = true.
Proof.
  destruct p as [|a p]; [discriminate|]. destruct u as [|b u]; [discriminate|].
  rewrite !prefix_cons. intros H1 H2.
  apply andb_true_iff in H1 as [H1 _]. apply andb_true_iff in H2 as [H2 _].
  apply Ascii.eqb_eq in H1, H2. subst. now rewrite prefix_empty.
Qed.

Section UrlFacts.

Context (urljoin : string -> string -> checked string)
        (urlparse : string -> checked ParseResult).

(** X3.  [normalize_url] never returns a protocol-relative address: what
    it returns does not begin with [//], whatever [urljoin] answers.  An
    address that begins with [http://] or [https://] once stripped is
    returned stripped, with or without a base; one that begins with [//] is
    returned with [https:] in front. *)
Theorem normalize_url_absolute :
  (forall url base r,
     normalize_url urljoin url base = Value r -> startswith r "//" = false) /\
  (forall url base,
     startswith_any (strip url) ["http://"; "https://"] = true ->
     normalize_url urljoin url base = Value (strip url)) /\
  (forall url base,
     startswith (strip url) "//" = true ->
     normalize_url urljoin url base = Value ("https:" +:+ strip url)).
Proof.
  assert (F : forall r0 r,
    match r0 with
    | Value url => if startswith url "//" then Value ("https:" +:+ url) else Value url
    | ValueError m => ValueError m
    end = Value r -> startswith r "//" = false).
  { intros [u|m] r; [|discriminate].
    destruct (startswith u "//") eqn:E; intros H; injection H as <-; [reflexivity|exact E]. }
  split; [|split].
  - intros url base r. unfold normalize_url. apply F.
  - intros url base H. unfold normalize_url.
    set (u := strip url) in *.
    assert (N : startswith u "//" = false).
    { apply not_relative_of_h. unfold startswith_any, startswith in H.
      cbn [existsb] in H. rewrite orb_false_r in H.
      apply orb_true_iff in H as [H|H]; revert H; now apply prefix_trans_h. }
    assert (A : startswith_any u ["http://"; "https://"; "//"] = true).
    { unfold startswith_any in *. cbn [existsb] in *.
      rewrite orb_false_r in H. now rewrite orb_assoc, H. }
    rewrite A. cbn [negb]. destruct base; rewrite ?andb_false_r, N; reflexivity.
  - intros url base H. unfold normalize_url.
    set (u := strip url) in *.
    assert (A : startswith_any u ["http://"; "https://"; "//"] = true).
    { unfold startswith_any. cbn [existsb]. now rewrite H, !orb_true_r. }
    rewrite A. cbn [negb]. destruct base; rewrite ?andb_false_r, H; reflexivity.
Qed.

(** X4.  Without a base address (none given, or the empty one)
    [normalize_url] does not raise, and normalizing its result again
    leaves it as it is. *)
Theorem normalize_url_idempotent :
  forall url base,
    base = None \/ base = Some EmptyString ->
    exists r,
      normalize_url urljoin url base = Value r /\
      normalize_url urljoin r base = Value r.
Proof.
  intros url base Hb.
  assert (E : forall x, normalize_url urljoin x base =
                        if startswith (strip x) "//"
                        then Value ("https:" +:+ strip x) else Value (strip x)).
  { intros x. unfold normalize_url. destruct Hb as [->| ->]; reflexivity. }
  rewrite E. set (u := strip url).
  assert (U : strip u = u) by apply strip_idempotent.
  destruct (startswith u "//") eqn:S; eexists; (split; [reflexivity|]); rewrite E.
  - assert (K : strip ("https:" +:+ u) = "https:" +:+ u).
    { unfold strip.
      change (lstrip ("https:" +:+ u)) with ("https:" +:+ u).
      rewrite rstrip_no_space_app by reflexivity.
      f_equal. unfold u, strip. apply rstrip_idempotent. }
    rewrite K. reflexivity.
  - now rewrite U, S.
Qed.

(** X5.  [get_file_extension]: when the path of the address has no dot the
    result is [None]; otherwise it is what follows the last dot of the
    path, in lower case.  An extension never contains a dot. *)
Theorem file_extension_after_last_dot :
  forall url parsed,
    urlparse url = Value parsed ->
    (contains "." (path parsed) = false ->
       get_file_extension urlparse url = Value None) /\
    (forall stem ext,
       path parsed = stem +:+ "." +:+ ext -> contains "." ext = false ->
       get_file_extension urlparse url = Value (Some (lower ext))).
Proof.
  intros url parsed P. unfold get_file_extension. rewrite P. cbv zeta.
  split; [intros ->; reflexivity|].
  intros stem ext -> H.
  assert (C : forall s, contains "." (s +:+ "." +:+ ext) = true).
  { induction s as [|c s IH].
    - change (EmptyString +:+ "." +:+ ext) with (String "." ext).
      cbn [contains]. now rewrite prefix_cons, prefix_empty.
    - rewrite append_cons. cbn [contains]. rewrite IH. apply orb_true_r. }
  rewrite C. do 2 f_equal.
  induction stem as [|c stem IH].
  - rewrite append_empty_l.
    change ("." +:+ ext) with (String "." ext). cbn [rsplit_last]. now rewrite H.
  - rewrite append_cons. cbn [rsplit_last]. now rewrite C.
Qed.

(** [is_valid_url] does not raise: it answers [False] when
    [urlparse] raises [ValueError], where [extract_domain] and
    [get_file_extension] let the error through.  An address is valid
    exactly when [urlparse] finds a scheme and a host, and the domain
    extracted from a valid address is that host, which is not empty. *)
Theorem valid_url_has_domain :
  (forall url m,
     urlparse url = ValueError m ->
     is_valid_url urlparse url = false /\
     extract_domain urlparse url = ValueError m /\
     get_file_extension urlparse url = ValueError m) /\
  (forall url,
     is_valid_url urlparse url = true <->
     exists parsed, urlparse url = Value parsed /\
                    truthy (scheme parsed) = true /\ truthy (netloc parsed) = true) /\
  (forall url,
     is_valid_url urlparse url = true ->
     exists d, extract_domain urlparse url = Value d /\ truthy d = true).
Proof.
  split; [|split].
  - intros url m H. unfold is_valid_url, extract_domain, get_file_extension.
    now rewrite H.
  - intros url. unfold is_valid_url. destruct (urlparse url) as [parsed|m].
    + rewrite andb_true_iff. split.
      * intros [H1 H2]. now exists parsed.
      * intros (p & E & H1 & H2). injection E as <-. auto.
    + split; [discriminate|]. intros (p & E & _). discriminate.
  - intros url. unfold is_valid_url, extract_domain.
    destruct (urlparse url) as [parsed|m]; [|discriminate].
    intros H. apply andb_true_iff in H as [_ H]. eauto.
Qed.

End UrlFacts.

Lemma normalize_url_witness :
  exists r,
    normalize_url sample_urljoin " //cdn.example.com/lib.js " None = Value r /\
    normalize_url sample_urljoin r None = Value r.
Proof.
  apply (normalize_url_idempotent sample_urljoin " //cdn.example.com/lib.js " None).
  left. reflexivity.
Defined.

Lemma file_extension_witness :
  get_file_extension sample_urlparse "https://example.com/docs/file.PDF" = Value (Some "pdf").
Proof.
  refine (proj2 (file_extension_after_last_dot sample_urlparse
                   "https://example.com/docs/file.PDF"
                   {| scheme := "https"; netloc := "example.com"; path := "/docs/file.PDF" |}
                   _) "/docs/file" "PDF" _ _); reflexivity.
Defined.

(** The relative address of the tests is handed to [urljoin]; an absolute
    one is not. *)
Example normalize_url_tests :
  normalize_url sample_urljoin "/page" (Some "https://example.com")
    = Value "https://example.com/page" /\
  normalize_url sample_urljoin "https://example.com/page" None
    = Value "https://example.com/page" /\
  normalize_url sample_urljoin "//example.com/page" None
    = Value "https://example.com/page".
Proof. repeat split; reflexivity. Qed.

End HelperFacts.

(** ** The JSON file store *)

Section JSONStoreFacts.
Import Json Helpers JSONStore.

Lemma append_to_array data item :
  append item (Some (JArray data)) = (Some (JArray (data ++ [item])), Value tt).
Proof. unfold append, load, or_else. destruct data; reflexivity. Qed.

Lemma append_all_array items data :
  append_all items (Some (JArray data)) = (Some (JArray (data ++ items)), Value tt).
Proof.
  revert data. induction items as [|item items IH]; intros data.
  - now rewrite app_nil_r.
  - cbn [append_all]. rewrite append_to_array, IH, <- app_assoc. reflexivity.
Qed.

(** X6.  [append] builds an array: on a missing file a run of appends
    leaves exactly the appended items, in order; on a file that holds an
    array it adds the item at the end.  A file whose content is false in
    Python's sense ([null], [false], [0], an empty string, array or object)
    is replaced by the one-item array without any error; only a content
    that is true and not an array makes [append] raise [ValueError], and
    then the file is left as it was. *)
Theorem append_builds_array :
  (forall items, items <> [] ->
     append_all items None = (Some (JArray items), Value tt)) /\
  (forall items data,
     append_all items (Some (JArray data)) = (Some (JArray (data ++ items)), Value tt)) /\
  (forall item f,
     match load f with
     | JArray data => append item f = (Some (JArray (data ++ [item])), Value tt)
     | other =>
         if truthy other
         then append item f = (f, ValueError "Cannot append to non-array JSON file")
         else append item f = (Some (JArray [item]), Value tt)
     end).
Proof.
  split; [|split].
  - intros [|item items] H; [congruence|].
    cbn [append_all]. change (append item None) with (Some (JArray [item]), Value tt).
    apply append_all_array.
  - intros items data. apply append_all_array.
  - intros item f. unfold append, or_else.
    destruct (load f) as [|b|q|s|data|members] eqn:L.
    + reflexivity.
    + destruct b; reflexivity.
    + cbn [truthy]. destruct (negb (Qeq_bool q 0)); reflexivity.
    + cbn [truthy]. destruct (PyStr.truthy s); reflexivity.
    + destruct data; reflexivity.
    + cbn [truthy]. destruct (negb (size members =? 0)); reflexivity.
Qed.

Lemma append_builds_array_witness :
  append_all [JNumber 1; JNumber 2; JString "test"] None
    = (Some (JArray [JNumber 1; JNumber 2; JString "test"]), Value tt).
Proof. apply (proj1 append_builds_array). discriminate. Defined.

Lemma size_zero_empty (members : gmap string json) :
  (size members =? 0) = true -> members = ∅.
Proof. intros H. apply Nat.eqb_eq in H. now apply map_size_empty_iff. Qed.

Lemma update_answer key value f :
  update key value f =
    match load f with
    | JObject _ => (Some (JObject (<[key := value]> (old_members f))), Value tt)
    | other =>
        if truthy other
        then (f, ValueError "Cannot update non-object JSON file")
        else (Some (JObject (<[key := value]> ∅)), Value tt)
    end.
Proof.
  unfold update, or_else, old_members.
  destruct (load f) as [|b|q|s|data|members] eqn:L.
  - reflexivity.
  - destruct b; reflexivity.
  - cbn [truthy]. destruct (negb (Qeq_bool q 0)); reflexivity.
  - cbn [truthy]. destruct (PyStr.truthy s); reflexivity.
  - destruct data; reflexivity.
  - cbn [truthy]. destruct (size members =? 0) eqn:E; cbn [negb]; [|reflexivity].
    now rewrite (size_zero_empty members E).
Qed.

Lemma append_answer item f :
  append item f =
    match load f with
    | JArray data => (Some (JArray (data ++ [item])), Value tt)
    | other =>
        if truthy other
        then (f, ValueError "Cannot append to non-array JSON file")
        else (Some (JArray [item]), Value tt)
    end.
Proof.
  unfold append, or_else.
  destruct (load f) as [|b|q|s|data|members] eqn:L.
  - reflexivity.
  - destruct b; reflexivity.
  - cbn [truthy]. destruct (negb (Qeq_bool q 0)); reflexivity.
  - cbn [truthy]. destruct (PyStr.truthy s); reflexivity.
  - destruct data; reflexivity.
  - cbn [truthy]. destruct (negb (size members =? 0)); reflexivity.
Qed.

Lemma truthy_insert key value (members : gmap string json) :
  truthy (JObject (<[key := value]> members)) = true.
Proof.
  cbn [truthy]. destruct (size (<[key := value]> members) =? 0) eqn:E; [|reflexivity].
  apply size_zero_empty in E. apply (f_equal (lookup key)) in E.
  rewrite lookup_insert_eq, lookup_empty in E. discriminate.
Qed.

(** X7.  [update] sets one key of an object: when it returns, the file
    holds an object in which [key] has the new value and every other key
    has the value it had before (no value when the file was missing or held
    something false).  Updating the same key again keeps only the last
    value.  [update] raises [ValueError], leaving the file as it was,
    exactly when the file holds something true that is not an object. *)
Theorem update_sets_key :
  forall key value f,
    (forall f', update key value f = (f', Value tt) ->
       exists members,
         f' = Some (JObject members) /\
         members !! key = Some value /\
         (forall k, k <> key -> members !! k = old_members f !! k) /\
         (forall value', update key value' f' = update key value' f)) /\
    (forall f' m, update key value f = (f', ValueError m) ->
       f' = f /\ truthy (load f) = true /\
       forall members, load f <> JObject members) /\
    (truthy (load f) = false \/ (exists members, load f = JObject members) ->
       exists f', update key value f = (f', Value tt)).
Proof.
  intros key value f. rewrite update_answer.
  assert (K : forall members value',
    update key value' (Some (JObject (<[key := value]> members)))
      = (Some (JObject (<[key := value']> members)), Value tt)).
  { intros members value'. rewrite update_answer.
    change (load (Some (JObject (<[key := value]> members))))
      with (JObject (<[key := value]> members)).
    change (old_members (Some (JObject (<[key := value]> members))))
      with (<[key := value]> members).
    now rewrite insert_insert_eq. }
  split; [|split].
  - intros f' H.
    assert (E : f' = Some (JObject (<[key := value]> (old_members f))) /\
                (forall value', update key value' f
                   = (Some (JObject (<[key := value']> (old_members f))), Value tt))).
    { unfold old_members in *.
      destruct (load f) as [|b|q|s|data|members] eqn:L;
        try (destruct (truthy _) eqn:T; [discriminate|]);
        injection H as <-; (split; [reflexivity|]);
        intros value'; rewrite update_answer; unfold old_members; rewrite L, ?T;
        reflexivity. }
    destruct E as [-> E].
    eexists. split; [reflexivity|]. split; [apply lookup_insert_eq|].
    split; [intros k Hk; now apply lookup_insert_ne|].
    intros value'. now rewrite K, E.
  - intros f' m H.
    destruct (load f) as [|b|q|s|data|members] eqn:L; try discriminate;
      destruct (truthy _) eqn:T; try discriminate;
      injection H as <- _; repeat split; congruence.
  - intros [T|[members L]].
    + destruct (load f); cbn [truthy] in T |- *; rewrite ?T; eexists; reflexivity.
    + rewrite L. eexists; reflexivity.
Qed.

Lemma update_sets_key_witness :
  exists members,
    Some (JObject (<["b" := JNumber 2]> (<["a" := JNumber 1]> ∅))) = Some (JObject members) /\
    members !! "b" = Some (JNumber 2) /\
    (forall k, k <> "b" ->
       members !! k = old_members (Some (JObject (<["a" := JNumber 1]> ∅))) !! k) /\
    (forall value',
       update "b" value' (Some (JObject (<["b" := JNumber 2]> (<["a" := JNumber 1]> ∅))))
         = update "b" value' (Some (JObject (<["a" := JNumber 1]> ∅)))).
Proof.
  apply (proj1 (update_sets_key "b" (JNumber 2) (Some (JObject (<["a" := JNumber 1]> ∅))))).
  rewrite update_answer. reflexivity.
Defined.

(** X8.  The routes that read a store back report the data exactly when
    [load] returns something true: what a successful [append] or [update]
    left is always found, while a missing file and a stored empty object or
    array both give [No data found]. *)
Theorem saved_data_found :
  (forall f,
     get_saved_data f =
       if truthy (load f)
       then {| success := true; data := load f; message := None |}
       else {| success := false; data := JNull; message := Some "No data found" |}) /\
  (forall item f f',
     append item f = (f', Value tt) -> success (get_saved_data f') = true) /\
  (forall key value f f',
     update key value f = (f', Value tt) -> success (get_saved_data f') = true) /\
  success (get_saved_data None) = false /\
  success (get_saved_data (save (JObject ∅) None)) = false /\
  success (get_saved_data (save (JArray []) None)) = false.
Proof.
  split; [reflexivity|]. split; [|split; [|repeat split]].
  - intros item f f' H. rewrite append_answer in H.
    destruct (load f) as [|b|q|s|data|members];
      try (destruct (truthy _); [discriminate|]; injection H as <-; reflexivity).
    injection H as <-. unfold get_saved_data.
    change (load (Some (JArray (data ++ [item])))) with (JArray (data ++ [item])).
    cbn [truthy]. now destruct data.
  - intros key value f f' H. rewrite update_answer in H.
    assert (E : f' = Some (JObject (<[key := value]> (old_members f)))).
    { unfold old_members in *.
      destruct (load f) as [|b|q|s|data|members];
        try (destruct (truthy _); [discriminate|]); now injection H as <-. }
    subst f'. unfold get_saved_data.
    change (load (Some (JObject (<[key := value]> (old_members f)))))
      with (JObject (<[key := value]> (old_members f))).
    now rewrite truthy_insert.
Qed.

(** The cases of the tests. *)
Example json_store_tests :
  load (fst (append (JNumber 3) (save (JArray [JNumber 1; JNumber 2]) None)))
    = JArray [JNumber 1; JNumber 2; JNumber 3] /\
  load (fst (update "b" (JNumber 2) (save (JObject (<["a" := JNumber 1]> ∅)) None)))
    = JObject (<["b" := JNumber 2]> (<["a" := JNumber 1]> ∅)) /\
  exists_ None = false /\ exists_ (save (JObject ∅) None) = true.
Proof. repeat split; reflexivity. Qed.

End JSONStoreFacts.

(** ** The CSV file store *)

Section CSVStoreFacts.
Import PyStr Helpers CSVStore.

Context (header_text : list string -> string)
        (row_text : list string -> row -> checked string).

Abbreviation csv_writerows := (writerows row_text).
Abbreviation csv_save := (save header_text row_text).
Abbreviation csv_append := (append header_text row_text).
Abbreviation csv_append_rows := (append_rows header_text row_text).

Lemma writerows_app names a b f :
  csv_writerows names (a ++ b) f = and_then (csv_writerows names a f) (csv_writerows names b).
Proof.
  revert f. induction a as [|r a IH]; intros f; [reflexivity|].
  cbn [app writerows]. destruct (writerow row_text names r f) as [f' [[]|m]]; [apply IH|reflexivity].
Qed.

(** Writing rows to an open file leaves a file. *)
Lemma writerows_open names rows text :
  exists text', fst (csv_writerows names rows (Some text)) = Some text'.
Proof.
  revert text. induction rows as [|r rows IH]; intros text; [now exists text|].
  cbn [writerows]. unfold writerow. destruct (row_text names r) as [t|m].
  - cbn [write]. apply IH.
  - now exists text.
Qed.

(** X9.  Saving rows and then appending more rows with [append_rows]
    leaves the file that saving all the rows at once leaves, with the same
    outcome, provided the field names are the same for both calls (they
    are given to the store, or the first rows of the two lists have the
    same keys in the same order).  So the header is written once, by
    [save]. *)
Theorem save_then_append_rows :
  forall self data more f,
    data <> [] ->
    (forall r0 r1, head data = Some r0 -> head more = Some r1 ->
       fieldnames_for self r1 = fieldnames_for self r0) ->
    and_then (csv_save self data f) (csv_append_rows self more)
      = csv_save self (data ++ more) f.
Proof.
  intros self [|r0 data] more f Hd Hn; [congruence|].
  cbn [app save]. set (names := fieldnames_for self r0).
  set (f0 := writeheader header_text names (open_w f)).
  change (r0 :: data ++ more) with ((r0 :: data) ++ more).
  rewrite writerows_app.
  destruct (writerows_open names (r0 :: data) (EmptyString +:+ header_text names)) as [t Ht].
  change (Some (EmptyString +:+ header_text names)) with f0 in Ht.
  destruct (csv_writerows names (r0 :: data) f0) as [f1 [[]|m]]; [|reflexivity].
  cbn [and_then fst] in *. subst f1.
  destruct more as [|r1 more]; [reflexivity|].
  cbn [append_rows negb open_a default]. unfold names.
  now rewrite (Hn r0 r1 eq_refl eq_refl).
Qed.

(** X10.  [append] and [append_rows] of one row do the same on every file
    but one: on a file that exists and is empty [append] writes the header
    before the row and [append_rows] writes the row alone, so that the
    file it leaves has no header. *)
Theorem header_on_empty_file :
  forall self r,
    (forall f, f <> Some EmptyString ->
       csv_append_rows self [r] f = csv_append self r f) /\
    (forall text,
       row_text (fieldnames_for self r) r = Value text ->
       csv_append self r (Some EmptyString)
         = (Some (header_text (fieldnames_for self r) +:+ text), Value tt) /\
       csv_append_rows self [r] (Some EmptyString) = (Some text, Value tt) /\
       csv_append self r None
         = (Some (header_text (fieldnames_for self r) +:+ text), Value tt)).
Proof.
  intros self r. split.
  - intros f Hf. unfold append_rows, append. cbn [writerows].
    assert (E : forall g, (let (f', c) := writerow row_text (fieldnames_for self r) r g in
                           match c with
                           | Value _ => (f', Value tt)
                           | ValueError m => (f', ValueError m)
                           end) = writerow row_text (fieldnames_for self r) r g).
    { intros g. unfold writerow. destruct (row_text _ r); reflexivity. }
    rewrite E. destruct f as [[|c text]|]; [congruence|reflexivity|reflexivity].
  - intros text H. unfold append, append_rows. cbn [writerows].
    unfold writerow, writeheader, open_a. rewrite H. cbn [default truthy negb write].
    repeat split.
Qed.

End CSVStoreFacts.

Section CSVStoreExamples.
Import PyStr Helpers CSVStore.

(** With the sample writer: two rows saved and appended, and the row that
    [append_rows] leaves without a header in an empty file. *)
Example csv_sample_files :
  fst (save sample_header sample_row {| fieldnames := None |}
         [[("name", "Alice"); ("age", "30")]; [("name", "Bob"); ("age", "25")]] None)
    = Some ("name,age" +:+ String (ascii_of_nat 10)
            ("Alice,30" +:+ String (ascii_of_nat 10)
             ("Bob,25" +:+ String (ascii_of_nat 10) EmptyString))) /\
  fst (append_rows sample_header sample_row {| fieldnames := Some ["name"; "age"] |}
         [[("name", "Alice"); ("age", "30")]] (Some EmptyString))
    = Some ("Alice,30" +:+ String (ascii_of_nat 10) EmptyString) /\
  save sample_header sample_row {| fieldnames := None |} [] None = (None, Value tt).
Proof. repeat split; reflexivity. Qed.

Lemma save_then_append_rows_witness :
  and_then
    (save sample_header sample_row {| fieldnames := None |}
       [[("name", "Alice"); ("age", "30")]] None)
    (append_rows sample_header sample_row {| fieldnames := None |}
       [[("name", "Bob"); ("age", "25")]])
  = save sample_header sample_row {| fieldnames := None |}
      ([[("name", "Alice"); ("age", "30")]] ++ [[("name", "Bob"); ("age", "25")]]) None.
Proof.
  apply (save_then_append_rows sample_header sample_row).
  - discriminate.
  - intros r0 r1 H0 H1. injection H0 as <-. injection H1 as <-. reflexivity.
Defined.

End CSVStoreExamples.

(** ** The limiters: rates and degenerate parameters *)

Section LimiterRunFacts.
Import Limiter LimiterRuns.
Local Open Scope Q_scope.

Lemma Qmax_0_le a b : a <= b -> Qmax 0 a <= Qmax 0 b.
Proof. intros H. apply Q.max_le_compat_l. exact H. Qed.

Lemma Qmax_0_add a e : 0 <= e -> Qmax 0 (a + e) <= Qmax 0 a + e.
Proof.
  intros He. apply Q.max_lub.
  - pose proof (Q.le_max_l 0 a). lra.
  - pose proof (Q.le_max_r 0 a). lra.
Qed.

(** One turn: the tokens taken so far plus the tokens left grow by no more
    than the time elapsed times the rate. *)
Lemma turn_budget now l :
  0 <= rate l -> last_update l <= now ->
  match try_take now l with
  | Taken l' =>
      1 + Qmax 0 (tokens l') <= Qmax 0 (tokens l) + (now - last_update l) * rate l /\
      rate l' = rate l /\ last_update l' = now
  | Sleep l1 _ | ZeroDivisionError l1 =>
      Qmax 0 (tokens l1) <= Qmax 0 (tokens l) + (now - last_update l) * rate l /\
      rate l1 = rate l /\ last_update l1 = now
  end.
Proof.
  intros Hr Ht.
  assert (E : 0 <= (now - last_update l) * rate l).
  { apply Qmult_le_0_compat; lra. }
  assert (R : Qmax 0 (tokens (_refill_tokens now l))
              <= Qmax 0 (tokens l) + (now - last_update l) * rate l).
  { eapply Qle_trans; [|apply Qmax_0_add; exact E].
    apply Qmax_0_le. cbn [tokens _refill_tokens]. apply Q.le_min_r. }
  pose proof (try_take_cases now l) as T.
  destruct (try_take now l) as [l'|l1 w|l1].
  - destruct T as [T ->]. split; [|split; reflexivity].
    assert (M1 : Qmax 0 (tokens (_refill_tokens now l)) == tokens (_refill_tokens now l)).
    { apply Q.max_r. lra. }
    assert (M2 : Qmax 0 (tokens (take (_refill_tokens now l)))
                 == tokens (_refill_tokens now l) - 1).
    { cbn [take tokens]. apply Q.max_r. cbn [tokens _refill_tokens] in *. lra. }
    rewrite M2. rewrite M1 in R. lra.
  - destruct T as (-> & _). split; [exact R|split; reflexivity].
  - destruct T as (-> & _). split; [exact R|split; reflexivity].
Qed.

Lemma turns_budget nows l :
  0 <= rate l -> ascending (last_update l) nows ->
  inject_Z (Z.of_nat (fst (turns nows l))) + Qmax 0 (tokens (snd (turns nows l)))
    <= Qmax 0 (tokens l) + (last_update (snd (turns nows l)) - last_update l) * rate l.
Proof.
  revert l. induction nows as [|now rest IH]; intros l Hr Ha.
  - cbn [turns fst snd]. change (inject_Z (Z.of_nat 0)) with 0. lra.
  - cbn [turns]. destruct Ha as [Ht Ha].
    pose proof (turn_budget now l Hr Ht) as B.
    destruct (try_take now l) as [l'|l1 w|l1].
    + destruct B as (B & Er & Eu).
      specialize (IH l'). rewrite Er, Eu in IH. specialize (IH Hr Ha).
      destruct (turns rest l') as [n l'']. cbn [fst snd] in *.
      rewrite Nat2Z.inj_succ, <- Z.add_1_l, inject_Z_plus.
      change (inject_Z 1) with 1. nra.
    + destruct B as (B & Er & Eu).
      specialize (IH l1). rewrite Er, Eu in IH. specialize (IH Hr Ha). nra.
    + destruct B as (B & Er & Eu).
      specialize (IH l1). rewrite Er, Eu in IH. specialize (IH Hr Ha). nra.
Qed.

Context {Clock : Type} (monotonic : Clock -> Clock * Q) (sleep : Clock -> Q -> Clock).

(** A call of [acquire] that completes is a run of turns that takes one
    token. *)
Lemma acquire_turns fuel c l l' c' :
  acquire monotonic sleep fuel c l = Acquired l' c' ->
  exists nows, turns nows l = (1%nat, l').
Proof.
  unfold acquire. revert c l.
  induction fuel as [|fuel IH]; intros c l; cbn [_wait_for_token]; [discriminate|].
  destruct (monotonic c) as [c1 now].
  destruct (try_take now l) as [l1|l1 w|l1] eqn:T; [| |discriminate].
  - intros E. injection E as <- <-. exists [now]. cbn [turns]. now rewrite T.
  - intros E. destruct (IH _ _ E) as [nows Hn].
    exists (now :: nows). cbn [turns]. now rewrite T.
Qed.

(** X11.  The bucket bounds the rate.  Take any sequence of turns of the
    loop at clock readings that do not go back, on a bucket whose rate is
    not negative: the number of tokens taken is at most what the bucket
    held at the start plus the time elapsed until the last turn times the
    rate; for a new bucket that is [burst + elapsed * rate].  Every call
    of [acquire] that completes is such a sequence, taking one token. *)
Theorem tokens_taken_bounded :
  (forall nows l,
     0 <= rate l -> ascending (last_update l) nows ->
     inject_Z (Z.of_nat (fst (turns nows l)))
       <= Qmax 0 (tokens l)
          + (last_update (snd (turns nows l)) - last_update l) * rate l) /\
  (forall nows rps b t0,
     0 <= rate (RateLimiter_init rps b t0) -> ascending t0 nows ->
     inject_Z (Z.of_nat (fst (turns nows (RateLimiter_init rps b t0))))
       <= Qmax 0 (inject_Z (burst (RateLimiter_init rps b t0)))
          + (last_update (snd (turns nows (RateLimiter_init rps b t0))) - t0)
            * rate (RateLimiter_init rps b t0)) /\
  (forall fuel c l l' c',
     acquire monotonic sleep fuel c l = Acquired l' c' ->
     exists nows, turns nows l = (1%nat, l')).
Proof.
  split; [|split].
  - intros nows l Hr Ha. pose proof (turns_budget nows l Hr Ha) as B.
    pose proof (Q.le_max_l 0 (tokens (snd (turns nows l)))). lra.
  - intros nows rps b t0 Hr Ha.
    pose proof (turns_budget nows (RateLimiter_init rps b t0) Hr Ha) as B.
    pose proof (Q.le_max_l 0 (tokens (snd (turns nows (RateLimiter_init rps b t0))))).
    cbn [tokens last_update RateLimiter_init burst] in *. lra.
  - apply acquire_turns.
Qed.

(** X12.  Degenerate parameters.  A bucket whose burst is below one never
    lets a call of [acquire] complete, however long it runs.  A bucket
    whose rate is zero never waits: the call takes a token at once when the
    bucket holds one, and raises [ZeroDivisionError] when it does not. *)
Theorem degenerate_buckets :
  (forall fuel c l l' c',
     (burst l < 1)%Z -> acquire monotonic sleep fuel c l <> Acquired l' c') /\
  (forall fuel c l,
     rate l == 0 ->
     match acquire monotonic sleep (S fuel) c l with
     | Acquired l' _ => 1 <= tokens (_refill_tokens (snd (monotonic c)) l)
     | Raised l1 _ => tokens l1 < 1
     | Waiting _ _ => False
     end).
Proof.
  split.
  - intros fuel c l l' c' Hb. unfold acquire. revert c l Hb.
    induction fuel as [|fuel IH]; intros c l Hb; cbn [_wait_for_token]; [discriminate|].
    destruct (monotonic c) as [c1 now].
    pose proof (try_take_cases now l) as T.
    destruct (try_take now l) as [l1|l1 w|l1]; [| |discriminate].
    + exfalso. destruct T as [T _].
      pose proof (refill_le_burst now l) as B.
      assert (inject_Z (burst l) <= 0).
      { change 0 with (inject_Z 0). rewrite <- Zle_Qle. lia. }
      lra.
    + destruct T as (-> & _). apply IH. exact Hb.
  - intros fuel c l Hr. unfold acquire. cbn [_wait_for_token].
    destruct (monotonic c) as [c1 now]. cbn [snd].
    pose proof (try_take_cases now l) as T.
    destruct (try_take now l) as [l1|l1 w|l1].
    + now destruct T.
    + destruct T as (_ & _ & N & _). contradiction.
    + now destruct T as (_ & T & _).
Qed.

End LimiterRunFacts.

Section SyncLimiterFacts.
Import SyncLimiter.
Local Open Scope Q_scope.

Context {Clock : Type} (monotonic : Clock -> Clock * Q) (sleep : Clock -> Q -> Clock).

Lemma wait_keeps_interval c l : interval (snd (wait monotonic sleep c l)) = interval l.
Proof.
  unfold wait. destruct (monotonic _) as [c2 now]. reflexivity.
Qed.

Lemma wait_spacing c l last :
  steady monotonic sleep ->
  last_request l = Some last ->
  exists t, last_request (snd (wait monotonic sleep c l)) = Some t /\
            last + interval l <= t.
Proof.
  intros [Hm Hs] Hl. unfold wait. rewrite Hl.
  specialize (Hm c). specialize (Hs c).
  destruct (monotonic c) as [c' now]. cbn [fst snd] in *.
  destruct (Qle_bool (interval l) (now - last)) eqn:E.
  - apply Qle_bool_iff in E.
    destruct (monotonic c') as [c2 now2]. cbn [snd] in *.
    exists now2. split; [reflexivity|]. lra.
  - specialize (Hs (interval l - (now - last))).
    destruct (monotonic (sleep c' _)) as [c2 now2]. cbn [snd] in *.
    exists now2. split; [reflexivity|]. lra.
Qed.

(** X13.  The synchronous limiter spaces the requests: on a clock that
    does not go back and on which a sleep lasts at least as long as asked,
    each call of [wait] returns at least one interval after the time the
    call before it returned, so [n] further calls end at least [n]
    intervals later.  The first call of a new limiter does not sleep. *)
Theorem wait_spaces_requests :
  steady monotonic sleep ->
  (forall c l last,
     last_request l = Some last ->
     exists t, last_request (snd (wait monotonic sleep c l)) = Some t /\
               last + interval l <= t) /\
  (forall n c l last,
     last_request l = Some last ->
     exists t, last_request (snd (waits monotonic sleep n c l)) = Some t /\
               last + inject_Z (Z.of_nat n) * interval l <= t) /\
  (forall c l,
     last_request l = None ->
     wait monotonic sleep c l =
       (fst (monotonic c),
        {| interval := interval l; last_request := Some (snd (monotonic c)) |})).
Proof.
  intros St. split; [|split].
  - intros c l last. now apply wait_spacing.
  - intros n. induction n as [|n IH]; intros c l last Hl.
    + exists last. split; [exact Hl|]. change (inject_Z (Z.of_nat 0)) with 0. lra.
    + cbn [waits].
      destruct (wait_spacing c l last St Hl) as (t & Ht & Hle).
      pose proof (wait_keeps_interval c l) as Hi.
      destruct (wait monotonic sleep c l) as [c' l']. cbn [snd] in *.
      destruct (IH c' l' t Ht) as (t' & Ht' & Hle').
      exists t'. split; [exact Ht'|].
      rewrite Hi in Hle'. rewrite Nat2Z.inj_succ, <- Z.add_1_l, inject_Z_plus.
      change (inject_Z 1) with 1. lra.
  - intros c l Hl. unfold wait. rewrite Hl. now destruct (monotonic c).
Qed.

End SyncLimiterFacts.

Section SyncLimiterExamples.
Import SyncLimiter.
Local Open Scope Q_scope.

Lemma ideal_clock_steady : steady Limiter.ideal_monotonic Limiter.ideal_sleep.
Proof.
  split; [|exact ideal_clock_honest].
  intros c. unfold Limiter.ideal_monotonic. cbn [fst snd]. lra.
Qed.

Lemma wait_spaces_requests_witness :
  exists t,
    last_request (snd (waits Limiter.ideal_monotonic Limiter.ideal_sleep 3 0
                         {| interval := 1 # 2; last_request := Some 0 |})) = Some t /\
    0 + inject_Z (Z.of_nat 3) * (1 # 2) <= t.
Proof.
  exact (proj1 (proj2 (wait_spaces_requests Limiter.ideal_monotonic Limiter.ideal_sleep
                         ideal_clock_steady))
           3%nat 0 {| interval := 1 # 2; last_request := Some 0 |} 0 eq_refl).
Defined.

Lemma tokens_taken_bounded_witness :
  inject_Z (Z.of_nat (fst (LimiterRuns.turns [0; 0; 1 # 4; 1 # 2; 1]
                             (Limiter.RateLimiter_init (Some 2) (Some 1%Z) 0))))
    <= Qmax 0 (Limiter.tokens (Limiter.RateLimiter_init (Some 2) (Some 1%Z) 0))
       + (Limiter.last_update
            (snd (LimiterRuns.turns [0; 0; 1 # 4; 1 # 2; 1]
                    (Limiter.RateLimiter_init (Some 2) (Some 1%Z) 0)))
          - Limiter.last_update (Limiter.RateLimiter_init (Some 2) (Some 1%Z) 0))
         * Limiter.rate (Limiter.RateLimiter_init (Some 2) (Some 1%Z) 0).
Proof.
  apply (proj1 (tokens_taken_bounded Limiter.ideal_monotonic Limiter.ideal_sleep)).
  - vm_compute. discriminate.
  - cbn. repeat split; vm_compute; discriminate.
Defined.

Lemma degenerate_buckets_witness :
  Limiter.acquire Limiter.ideal_monotonic Limiter.ideal_sleep 5 0
    (Limiter.RateLimiter_init (Some 2) (Some 0%Z) 0)
  <> Limiter.Acquired (Limiter.RateLimiter_init (Some 2) (Some 0%Z) 0) 0.
Proof.
  apply (proj1 (degenerate_buckets Limiter.ideal_monotonic Limiter.ideal_sleep)).
  reflexivity.
Defined.

(** Rate 2, burst 1, turns at 0, 0, 1/4, 1/2 and 1: three tokens are
    taken, at 0, 1/2 and 1. *)
Example turns_sample :
  fst (LimiterRuns.turns [0; 0; 1 # 4; 1 # 2; 1]
         (Limiter.RateLimiter_init (Some 2) (Some 1%Z) 0)) = 3%nat.
Proof. vm_compute. reflexivity. Qed.

End SyncLimiterExamples.

(** ** The session client: addresses, requests, flags *)

Section SessionFacts.
Import PyStr Py Http HttpSpec SessionSpec.





Context {Env : Type} (send : Env -> request -> Env * result response)
        (status_raises : Z -> bool)
        {JSON : Type} (json_of : string -> option JSON)
        (BeautifulSoup : string -> Soup.node).

Abbreviation SSt := (Py.state Env event SessionScraper).

Ltac run_op client_flag :=
  cbv [get post json_post form_post_json bind try_except try_except2 read gets
       client_send call raise_for_status response_json raise ret _get_client
       emit update modify opened set_client get_url url_for];
  cbn [fst snd env trace self base_url timeout _client logged_in];
  destruct client_flag;
  cbn [fst snd env trace self base_url timeout _client logged_in];
  match goal with
  | |- context [send ?e ?r] => destruct (send e r) as [env' [r'|e']]
  end;
  cbn [fst snd env trace self base_url timeout _client logged_in];
  repeat match goal with
    | |- context [status_raises ?c] =>
        destruct (status_raises c);
        cbn [fst snd env trace self base_url timeout _client logged_in is_Exception]
    | |- context [is_HTTPError ?e] =>
        destruct (is_HTTPError e);
        cbn [fst snd env trace self base_url timeout _client logged_in is_Exception]
    | |- context [json_of ?t] =>
        destruct (json_of t);
        cbn [fst snd env trace self base_url timeout _client logged_in is_Exception]
    end;
  rewrite <- ?app_assoc; cbn [app]; repeat split; try reflexivity.

Lemma get_footprint path (st : SSt) :
  trace (fst (get send status_raises path st))
    = trace st ++ opened (self st) ++ [EvRequest (GET (get_url (self st) path))] /\
  self (fst (get send status_raises path st)) = set_client true (self st) /\
  env (fst (get send status_raises path st))
    = fst (send (env st) (GET (get_url (self st) path))).
Proof.
  destruct st as [w t [b tm c li]]. destruct (truthy path) eqn:P;
    run_op c; rewrite ?P; cbn [fst]; try reflexivity.
Qed.

Lemma post_footprint path data fr (st : SSt) :
  trace (fst (post send status_raises path data fr st))
    = trace st ++ opened (self st)
      ++ [EvRequest (POST (url_for (self st) path) (FormData data) fr)] /\
  self (fst (post send status_raises path data fr st)) = set_client true (self st) /\
  env (fst (post send status_raises path data fr st))
    = fst (send (env st) (POST (url_for (self st) path) (FormData data) fr)).
Proof. destruct st as [w t [b tm c li]]. run_op c. Qed.

Lemma json_post_footprint path json_data fr (st : SSt) :
  trace (fst (json_post send status_raises json_of path json_data fr st))
    = trace st ++ opened (self st)
      ++ [EvRequest (POST (url_for (self st) path) (JsonData json_data) fr)] /\
  self (fst (json_post send status_raises json_of path json_data fr st))
    = set_client true (self st) /\
  snd (json_post send status_raises json_of path json_data fr st)
    = Ret (json_answer status_raises json_of
             (snd (send (env st) (POST (url_for (self st) path) (JsonData json_data) fr)))).
Proof. destruct st as [w t [b tm c li]]. unfold json_answer. run_op c. Qed.

Lemma form_post_json_footprint path data fr (st : SSt) :
  trace (fst (form_post_json send status_raises json_of path data fr st))
    = trace st ++ opened (self st)
      ++ [EvRequest (POST (url_for (self st) path) (FormData data) fr)] /\
  self (fst (form_post_json send status_raises json_of path data fr st))
    = set_client true (self st) /\
  snd (form_post_json send status_raises json_of path data fr st)
    = Ret (json_answer status_raises json_of
             (snd (send (env st) (POST (url_for (self st) path) (FormData data) fr)))).
Proof. destruct st as [w t [b tm c li]]. unfold json_answer. run_op c. Qed.

Lemma session_close_effect (st : SSt) :
  close st =
    ({| env := env st;
        trace := trace st ++ (if _client (self st) then [EvAclose] else []);
        self := set_client false (self st) |}, Ret tt).
Proof.
  destruct st as [w t [b tm c li]].
  cbv [close bind read gets emit update modify ret set_client].
  cbn [fst snd env trace self base_url timeout _client logged_in].
  destruct c; [reflexivity|]. now rewrite app_nil_r.
Qed.

(** X15.  Every operation of the session sends exactly one request and
    never a second one, whatever the answer: [get], [post], [json_post] and
    [form_post_json] open a client when none is open, send their request
    to the joined address, leave the client open and change no other
    attribute.  [close] closes the client when one is open and does
    nothing otherwise, so closing twice is closing once; in particular it
    leaves the flag [logged_in] as it is. *)
Theorem one_request_per_call :
  (forall path (st : SSt),
     trace (fst (get send status_raises path st))
       = trace st ++ opened (self st) ++ [EvRequest (GET (get_url (self st) path))] /\
     self (fst (get send status_raises path st)) = set_client true (self st)) /\
  (forall path data fr (st : SSt),
     trace (fst (post send status_raises path data fr st))
       = trace st ++ opened (self st)
         ++ [EvRequest (POST (url_for (self st) path) (FormData data) fr)] /\
     self (fst (post send status_raises path data fr st)) = set_client true (self st)) /\
  (forall path json_data fr (st : SSt),
     trace (fst (json_post send status_raises json_of path json_data fr st))
       = trace st ++ opened (self st)
         ++ [EvRequest (POST (url_for (self st) path) (JsonData json_data) fr)] /\
     self (fst (json_post send status_raises json_of path json_data fr st))
       = set_client true (self st)) /\
  (forall path data fr (st : SSt),
     trace (fst (form_post_json send status_raises json_of path data fr st))
       = trace st ++ opened (self st)
         ++ [EvRequest (POST (url_for (self st) path) (FormData data) fr)] /\
     self (fst (form_post_json send status_raises json_of path data fr st))
       = set_client true (self st)) /\
  (forall st : SSt,
     close st =
       ({| env := env st;
           trace := trace st ++ (if _client (self st) then [EvAclose] else []);
           self := set_client false (self st) |}, Ret tt)) /\
  (forall st : SSt, close (fst (close st)) = (fst (close st), Ret tt)) /\
  (forall st : SSt, logged_in (self (fst (close st))) = logged_in (self st)).
Proof.
  split; [|split; [|split; [|split; [|split; [|split]]]]].
  - intros path st. destruct (get_footprint path st) as (T & S & _). auto.
  - intros path data fr st. destruct (post_footprint path data fr st) as (T & S & _). auto.
  - intros path jd fr st. destruct (json_post_footprint path jd fr st) as (T & S & _). auto.
  - intros path data fr st.
    destruct (form_post_json_footprint path data fr st) as (T & S & _). auto.
  - apply session_close_effect.
  - intros st. rewrite !session_close_effect.
    cbn [fst env trace self set_client _client]. now rewrite app_nil_r.
  - intros st. rewrite session_close_effect. reflexivity.
Qed.

Lemma fetch_json_answer url (st : Py.state Env event WebScraper) :
  snd (fetch_json send status_raises json_of url st) =
    match snd (send (env st) (GET url)) with
    | Ret r =>
        if status_raises (status_code r) then Ret None
        else match json_of (text r) with
             | Some j => Ret (Some j)
             | None => Raise {| cls := JSONDecodeError; msg := "Expecting value" |}
             end
    | Raise e => if is_HTTPError e then Ret None else Raise e
    end.
Proof.
  destruct st as [w t [tm c]].
  cbv [fetch_json bind try_except read gets client_send call raise_for_status
       response_json raise ret ws_get_client emit update modify].
  cbn [fst snd env trace self ws_client ws_timeout].
  destruct c; cbn [fst snd env trace self ws_client ws_timeout];
    destruct (send w (GET url)) as [env' [r'|e']];
    cbn [fst snd env trace self]; try (destruct (is_HTTPError e'); reflexivity);
    destruct (status_raises (status_code r')); try reflexivity;
    cbn [fst snd]; destruct (json_of (text r')); reflexivity.
Qed.

(** X16.  The two JSON operations of the session never raise: a failure of
    the transport of any kind, an error status and a body that is not JSON
    all give [None]; otherwise the result is the decoded body.
    [fetch_json] of the base scraper is different: a body that is not JSON
    under a good status makes it raise the decoding error. *)
Theorem json_operations_total :
  (forall path json_data fr (st : SSt),
     snd (json_post send status_raises json_of path json_data fr st)
       = Ret (json_answer status_raises json_of
                (snd (send (env st)
                        (POST (url_for (self st) path) (JsonData json_data) fr))))) /\
  (forall path data fr (st : SSt),
     snd (form_post_json send status_raises json_of path data fr st)
       = Ret (json_answer status_raises json_of
                (snd (send (env st) (POST (url_for (self st) path) (FormData data) fr))))) /\
  (forall url (st : Py.state Env event WebScraper) r,
     snd (send (env st) (GET url)) = Ret r ->
     status_raises (status_code r) = false ->
     json_of (text r) = None ->
     snd (fetch_json send status_raises json_of url st)
       = Raise {| cls := JSONDecodeError; msg := "Expecting value" |}).
Proof.
  split; [|split].
  - intros path jd fr st. apply json_post_footprint.
  - intros path data fr st. apply form_post_json_footprint.
  - intros url st r H S J. now rewrite fetch_json_answer, H, S, J.
Qed.

(** *** Login: the request and the flag *)

Lemma form_data_lookup uf u pf p extra k :
  form_data uf u pf p extra !! k = credentials_lookup uf u pf p extra k.
Proof.
  unfold form_data, credentials_lookup.
  assert (B : (<[pf := p]> (<[uf := u]> (∅ : gmap string string))) !! k =
              if String.eqb k pf then Some p
              else if String.eqb k uf then Some u else None).
  { destruct (String.eqb_spec k pf) as [->|N1]; [apply lookup_insert_eq|].
    rewrite lookup_insert_ne by congruence.
    destruct (String.eqb_spec k uf) as [->|N2]; [apply lookup_insert_eq|].
    rewrite lookup_insert_ne by congruence. apply lookup_empty. }
  destruct extra as [e|]; cbn [default from_option id].
  - destruct (bool_decide (e = ∅)) eqn:D.
    + apply bool_decide_eq_true in D. subst e. now rewrite lookup_empty.
    + destruct (e !! k) as [v|] eqn:L.
      * now apply lookup_union_Some_l.
      * now rewrite lookup_union_r.
  - now rewrite lookup_empty.
Qed.

(** X17.  The form posted by the two login methods is the dictionary of
    the credentials updated by the extra fields: an extra field replaces a
    credential of the same name, and when the two credential fields have
    one name the password is the one that is sent. *)
Theorem credentials_can_be_overridden :
  (forall uf u pf p extra k,
     form_data uf u pf p extra !! k = credentials_lookup uf u pf p extra k) /\
  (forall uf u pf p extra k v,
     default ∅ extra !! k = Some v -> form_data uf u pf p extra !! k = Some v) /\
  (forall f u p extra, form_data f u f p extra !! f = Some (default p (default ∅ extra !! f))).
Proof.
  split; [exact form_data_lookup|]. split.
  - intros uf u pf p extra k v H. rewrite form_data_lookup.
    unfold credentials_lookup. now rewrite H.
  - intros f u p extra. rewrite form_data_lookup. unfold credentials_lookup.
    destruct (default ∅ extra !! f); [reflexivity|]. now rewrite String.eqb_refl.
Qed.

Ltac failed_login S :=
  split; [reflexivity|]; cbv [ret]; cbn [fst snd success];
  rewrite S, orb_false_r; reflexivity.

Lemma login_footprint lp u p uf pf extra (st : SSt) :
  trace (fst (login send status_raises BeautifulSoup lp u p uf pf extra st))
    = trace st ++ opened (self st)
      ++ [EvRequest (POST (url_for (self st) lp) (FormData (form_data uf u pf p extra)) true)] /\
  self (fst (login send status_raises BeautifulSoup lp u p uf pf extra st))
    = set_flag (logged_in (self st) ||
                match snd (login send status_raises BeautifulSoup lp u p uf pf extra st) with
                | Ret true => true
                | _ => false
                end)
               (set_client true (self st)).
Proof.
  unfold login, bind.
  destruct (post_footprint lp (form_data uf u pf p extra) true st) as (T & S & _).
  destruct (post send status_raises lp _ true st) as [s1 [[html|]|e]];
    cbn [fst snd] in *; rewrite <- T; clear T; try failed_login S.
  destruct (truthy html); [|failed_login S].
  destruct (login_form (BeautifulSoup html)); [failed_login S|].
  destruct (error_by_class (BeautifulSoup html)); [failed_login S|].
  cbv [set_logged_in bind update modify ret]. cbn [fst snd trace self].
  split; [reflexivity|]. rewrite S, orb_true_r. reflexivity.
Qed.

Lemma details_footprint lp u p uf pf extra (st : SSt) :
  trace (fst (login_with_details send status_raises BeautifulSoup lp u p uf pf extra st))
    = trace st ++ opened (self st)
      ++ [EvRequest (POST (url_for (self st) lp) (FormData (form_data uf u pf p extra)) true)] /\
  self (fst (login_with_details send status_raises BeautifulSoup lp u p uf pf extra st))
    = set_flag (logged_in (self st) ||
                match snd (login_with_details send status_raises BeautifulSoup
                             lp u p uf pf extra st) with
                | Ret d => success d
                | Raise _ => false
                end)
               (set_client true (self st)).
Proof.
  unfold login_with_details, bind.
  destruct (post_footprint lp (form_data uf u pf p extra) true st) as (T & S & _).
  destruct (post send status_raises lp _ true st) as [s1 [[html|]|e]];
    cbn [fst snd] in *; rewrite <- T; clear T; try failed_login S.
  destruct (truthy html); [|failed_login S].
  destruct (login_form (BeautifulSoup html)); [failed_login S|].
  destruct (first_error_text (error_selectors (BeautifulSoup html))); [failed_login S|].
  cbv [set_logged_in bind update modify ret]. cbn [fst snd trace self success].
  split; [reflexivity|]. rewrite S, orb_true_r. reflexivity.
Qed.

(** X18.  A login is one POST of the credentials form to the joined
    address of the login path, redirects followed; nothing else is sent.
    Afterwards the flag [logged_in] is set when the method reported
    success and is otherwise what it was before: a failed login never
    clears the flag of a session that was logged in. *)
Theorem login_sets_flag_only :
  (forall lp u p uf pf extra (st : SSt),
     trace (fst (login send status_raises BeautifulSoup lp u p uf pf extra st))
       = trace st ++ opened (self st)
         ++ [EvRequest (POST (url_for (self st) lp)
                             (FormData (form_data uf u pf p extra)) true)] /\
     logged_in (self (fst (login send status_raises BeautifulSoup lp u p uf pf extra st)))
       = logged_in (self st) ||
         match snd (login send status_raises BeautifulSoup lp u p uf pf extra st) with
         | Ret true => true
         | _ => false
         end) /\
  (forall lp u p uf pf extra (st : SSt),
     trace (fst (login_with_details send status_raises BeautifulSoup lp u p uf pf extra st))
       = trace st ++ opened (self st)
         ++ [EvRequest (POST (url_for (self st) lp)
                             (FormData (form_data uf u pf p extra)) true)] /\
     logged_in (self (fst (login_with_details send status_raises BeautifulSoup
                             lp u p uf pf extra st)))
       = logged_in (self st) ||
         match snd (login_with_details send status_raises BeautifulSoup
                      lp u p uf pf extra st) with
         | Ret d => success d
         | Raise _ => false
         end).
Proof.
  split; intros lp u p uf pf extra st.
  - destruct (login_footprint lp u p uf pf extra st) as [T S]. split; [exact T|].
    rewrite S. reflexivity.
  - destruct (details_footprint lp u p uf pf extra st) as [T S]. split; [exact T|].
    rewrite S. reflexivity.
Qed.

End SessionFacts.

Section SessionExamples.
Import PyStr Py Http HttpSpec SessionSpec.

(** A body that is not JSON, under status 200. *)
Lemma json_operations_total_witness :
  snd (fetch_json scripted not_2xx (fun _ : string => @None unit) "https://site.example/api"
         {| env := [ok "<html>"]; trace := []; self := WebScraper_init None |})
    = Raise {| cls := JSONDecodeError; msg := "Expecting value" |}.
Proof.
  refine (proj2 (proj2 (json_operations_total scripted not_2xx
                          (fun _ : string => @None unit)))
            "https://site.example/api"
            {| env := [ok "<html>"]; trace := []; self := WebScraper_init None |}
            {| status_code := 200; text := "<html>" |} _ _ _); reflexivity.
Defined.

Lemma credentials_witness :
  form_data "j_username" "alice" "j_password" "secret"
    (Some (<["j_username" := "root"]> (<["csrf" := "tok123"]> ∅))) !! "j_username"
  = Some "root".
Proof.
  refine (proj1 (proj2 credentials_can_be_overridden)
            "j_username" "alice" "j_password" "secret"
            (Some (<["j_username" := "root"]> (<["csrf" := "tok123"]> ∅)))
            "j_username" "root" _).
  reflexivity.
Defined.

(** Two requests and two closings on one session: one client is opened,
    one is closed. *)
Example session_trace :
  trace (fst (close (fst (close
    (fst (post scripted not_2xx "login" ∅ true
       (fst (get scripted not_2xx "/status"
          (start [ok "a"; not_found] (SessionScraper_init "https://site.example/app/" None))))))))))
  = [ EvOpen 30;
      EvRequest (GET "https://site.example/app/status");
      EvRequest (POST "https://site.example/app/login" (FormData ∅) true);
      EvAclose ].
Proof. reflexivity. Qed.

End SessionExamples.

(** ** The parser *)

Section ParserFacts.
Import PyStr Soup Extract HTMLParser ParserSpec.

Lemma headings_keys soup l :
  map fst (flat_map (fun tag_name =>
                       let found := find_all tag_name soup in
                       if list_truthy found
                       then [(tag_name, map get_text_strip found)]
                       else []) l)
  = List.filter (fun tag_name => list_truthy (find_all tag_name soup)) l.
Proof.
  cbv zeta. induction l as [|x l IH]; [reflexivity|]. cbn [flat_map List.filter].
  rewrite map_app, IH.
  destruct (list_truthy (find_all x soup)); reflexivity.
Qed.

Lemma headings_members soup l k v :
  In (k, v) (flat_map (fun tag_name =>
                         let found := find_all tag_name soup in
                         if list_truthy found
                         then [(tag_name, map get_text_strip found)]
                         else []) l)
  <-> In k l /\ list_truthy (find_all k soup) = true /\
      v = map get_text_strip (find_all k soup).
Proof.
  rewrite in_flat_map. split.
  - intros (x & Hx & H). cbv zeta in H.
    destruct (list_truthy (find_all x soup)) eqn:E; [|destruct H].
    destruct H as [H|[]]. injection H as <- <-. auto.
  - intros (Hk & E & ->). exists k. split; [exact Hk|]. cbv zeta. rewrite E. now left.
Qed.

(** X19.  The headings dictionary has a key for a level exactly when the
    page has a heading of that level; the value is then the list of the
    stripped texts of those headings, in document order, and is never
    empty; the keys come in the order [h1] to [h6], each once. *)
Theorem headings_by_level :
  forall soup,
    (forall k v,
       In (k, v) (get_headings soup) <->
       In k levels /\ find_all k soup <> [] /\
       v = map get_text_strip (find_all k soup)) /\
    map fst (get_headings soup)
      = List.filter (fun k => list_truthy (find_all k soup)) levels /\
    (forall k v, In (k, v) (get_headings soup) -> v <> []).
Proof.
  intros soup.
  assert (T : forall A (l : list A), list_truthy l = true <-> l <> []).
  { intros A [|x l]; cbn; split; congruence. }
  split; [|split].
  - intros k v. unfold get_headings. fold levels. rewrite headings_members, T. tauto.
  - unfold get_headings. apply headings_keys.
  - intros k v H. unfold get_headings in H. fold levels in H.
    apply headings_members in H as (_ & E & ->). apply T in E.
    destruct (find_all k soup); [congruence|discriminate].
Qed.

Lemma flat_map_filter_map {A B} (p : A -> bool) (f : A -> B) l :
  flat_map (fun a => if p a then [f a] else []) l = map f (List.filter p l).
Proof.
  induction l as [|a l IH]; [reflexivity|]. cbn [flat_map List.filter].
  rewrite IH. now destruct (p a).
Qed.

Lemma filter_map_comm {A B} (q : B -> bool) (g : A -> B) l :
  List.filter q (map g l) = map g (List.filter (fun a => q (g a)) l).
Proof.
  induction l as [|a l IH]; [reflexivity|]. cbn [map List.filter].
  rewrite IH. now destruct (q (g a)).
Qed.

(** X20.  The links of the two scrapers are the links of the parser,
    filtered: [scrape_t18] lists exactly the links of [HTMLParser.get_links]
    that have a text and a target other than a script, a fragment or a
    mail address, in the same order and unchanged; [do_scrape] lists the
    same links with the same texts, the targets made absolute.  Neither
    adds a link or changes the order. *)
Theorem links_are_filtered_parser_links :
  forall base_url soup,
    nav_links_t18 soup = List.filter kept (get_links soup) /\
    nav_links base_url soup = map (absolute base_url) (List.filter kept (get_links soup)) /\
    map text (nav_links base_url soup) = map text (nav_links_t18 soup) /\
    length (nav_links base_url soup) <= length (get_links soup).
Proof.
  intros base_url soup.
  assert (E1 : nav_links_t18 soup = List.filter kept (get_links soup)).
  { unfold nav_links_t18, nav_link_t18, get_links.
    rewrite filter_map_comm.
    exact (flat_map_filter_map
             (fun a => link_kept (get_text_strip a) (get_default "href" "" a))
             (fun a => {| text := get_text_strip a; href := get_default "href" "" a |})
             (select_a_href soup)). }
  assert (E2 : nav_links base_url soup
               = map (absolute base_url) (List.filter kept (get_links soup))).
  { unfold nav_links, nav_link, get_links.
    rewrite filter_map_comm, map_map.
    exact (flat_map_filter_map
             (fun a => link_kept (get_text_strip a) (get_default "href" "" a))
             (fun a => {| text := get_text_strip a;
                          href := absolute_href base_url (get_default "href" "" a) |})
             (select_a_href soup)). }
  split; [exact E1|]. split; [exact E2|]. split.
  - rewrite E2, E1, map_map. reflexivity.
  - rewrite E2, length_map. apply filter_length_le.
Qed.

(** The tests of the parser. *)
Example parser_tests :
  title (parse sample_html) = Some "Test Page" /\
  meta_description (parse sample_html) = Some "A test page for scraping" /\
  links (parse sample_html)
    = [ {| text := "Example Link"; href := "https://example.com" |};
        {| text := "About Page"; href := "/about" |} ] /\
  headings (parse sample_html)
    = [ ("h1", ["Main Heading"]); ("h2", ["Subheading 1"; "Subheading 2"]) ].
Proof. repeat split; reflexivity. Qed.

End ParserFacts.

(** ** Table records and their positions *)

Section TableIdFacts.
Import PyStr Soup Extract TableIds.

Lemma enumerate_flat_map {A B} (f : nat -> A -> list B) k l e :
  In e (flat_map (fun '(i, x) => f i x) (enumerate_from k l)) <->
  exists i x, nth_error l i = Some x /\ In e (f (k + i) x).
Proof.
  revert k. induction l as [|a l IH]; intros k.
  - split; [intros []|]. intros (i & x & H & _). now destruct i.
  - cbn [enumerate_from flat_map]. rewrite in_app_iff, IH. split.
    + intros [H|(i & x & Hn & H)].
      * exists 0, a. rewrite Nat.add_0_r. auto.
      * exists (S i), x. rewrite Nat.add_succ_r. auto.
    + intros ([|i] & x & Hn & H).
      * injection Hn as <-. rewrite Nat.add_0_r in H. auto.
      * right. exists i, x. rewrite Nat.add_succ_r in H. auto.
Qed.

Lemma ascending_weaken k k' l : k' <= k -> ascending_from k l -> ascending_from k' l.
Proof. destruct l; [auto|]. cbn. intros ? [? ?]. split; [lia|assumption]. Qed.

Lemma enumerate_ascending {A B} (key : B -> nat) (f : nat -> A -> list B) k l :
  (forall i x, f i x = [] \/ exists e, f i x = [e] /\ key e = i) ->
  ascending_from k (map key (flat_map (fun '(i, x) => f i x) (enumerate_from k l))).
Proof.
  intros Hf. revert k. induction l as [|a l IH]; intros k; [exact I|].
  cbn [enumerate_from flat_map]. rewrite map_app.
  destruct (Hf k a) as [->|(e & -> & <-)]; cbn [map app].
  - apply (ascending_weaken (S k)); [lia|apply IH].
  - split; [lia|]. apply IH.
Qed.

(** X21.  The [id] of a table record of [do_scrape], and the
    [table_index] of one of [scrape_t18], is the position of the table
    among all the tables of the page, the tables that give no record
    included: every record is the one of the table at that position, every
    table that has a row (or, for [do_scrape], headers) has its record, and
    the records come in the order of the page, their numbers going up
    strictly. *)
Theorem table_ids_are_positions :
  forall soup,
    (forall e,
       In e (table_data soup) <->
       exists table,
         nth_error (find_all "table" soup) (id e) = Some table /\
         In e (table_record (id e) table)) /\
    (forall e table,
       In e (table_record (id e) table) ->
       (headers e, rows e) = scan_rows table /\ (rows e <> [] \/ headers e <> [])) /\
    ascending_from 0 (map id (table_data soup)) /\
    (forall e,
       In e (T18Cli.table_data soup) <->
       exists table,
         nth_error (find_all "table" soup) (T18Cli.table_index e) = Some table /\
         T18Cli.table_rows table <> [] /\
         e = {| T18Cli.table_index := T18Cli.table_index e;
                T18Cli.rows := T18Cli.table_rows table |}) /\
    ascending_from 0 (map T18Cli.table_index (T18Cli.table_data soup)).
Proof.
  intros soup.
  assert (R : forall i table e, In e (table_record i table) -> id e = i).
  { intros i table e. unfold table_record. destruct (scan_rows table) as [h r].
    destruct (list_truthy r || list_truthy h); [|intros []].
    intros [<-|[]]. reflexivity. }
  assert (R' : forall i table e, In e (T18Cli.table_record i table) <->
                 T18Cli.table_rows table <> [] /\
                 e = {| T18Cli.table_index := i; T18Cli.rows := T18Cli.table_rows table |}).
  { intros i table e. unfold T18Cli.table_record. cbv zeta.
    destruct (T18Cli.table_rows table) as [|r rs]; cbn [list_truthy In].
    - split; [intros []|]. intros [H _]. congruence.
    - split.
      + intros [<-|[]]. split; [discriminate|reflexivity].
      + intros [_ ->]. now left. }
  split; [|split; [|split; [|split]]].
  - intros e. unfold table_data. rewrite enumerate_flat_map. cbn [Nat.add]. split.
    + intros (i & table & Hn & H). rewrite (R i table e H). eauto.
    + intros (table & Hn & H). eauto.
  - intros e table. unfold table_record. destruct (scan_rows table) as [h r].
    destruct (list_truthy r || list_truthy h) eqn:E; [|intros []].
    intros [<-|[]]. cbn [headers rows]. split; [reflexivity|].
    apply orb_true_iff in E as [E|E]; [left|right];
      [destruct r|destruct h]; try discriminate; congruence.
  - unfold table_data. apply enumerate_ascending. intros i table.
    unfold table_record. destruct (scan_rows table) as [h r].
    destruct (list_truthy r || list_truthy h); [right|left; reflexivity].
    eexists. split; reflexivity.
  - intros e. unfold T18Cli.table_data. rewrite enumerate_flat_map. cbn [Nat.add]. split.
    + intros (i & table & Hn & H). apply R' in H as [Hr ->]. cbn [T18Cli.table_index]. eauto.
    + intros (table & Hn & Hr & He). exists (T18Cli.table_index e), table.
      split; [exact Hn|]. apply R'. auto.
  - unfold T18Cli.table_data. apply enumerate_ascending. intros i table.
    unfold T18Cli.table_record. cbv zeta.
    destruct (list_truthy (T18Cli.table_rows table)); [right|left; reflexivity].
    eexists. split; reflexivity.
Qed.

(** A page with an empty table between two tables: the records keep the
    positions 0 and 2. *)
Example table_ids_sample :
  map id (table_data
            (Tag "body" []
               [ Tag "table" [] [TableSpec.tr [TableSpec.td "A"]];
                 Tag "table" [] [];
                 Tag "table" [] [TableSpec.tr [TableSpec.td "B"]] ])) = [0; 2].
Proof. reflexivity. Qed.

End TableIdFacts.

(** ** The browser scraper: targets, closing, login messages *)

Section ETSLinkScraperFacts.
Import PyStr Py ETSLink ETSLinkSpec.

Context {Env Grid FTable : Type} (D : driver Env Grid FTable).

Abbreviation BSc := (Py.state Env event ETSLinkScraper).
Abbreviation BFr := (Py.state Env event (frame Grid FTable)).
Abbreviation hdr := (@header_is Env Grid FTable).

Lemma scrape_location_refused loc (s : BSc) :
  logged_in (self s) && page (self s) = false ->
  scrape_location D loc s = (s, Raise not_logged_in).
Proof.
  intros H. unfold scrape_location, bind, read, gets. cbn [fst snd self].
  now rewrite H.
Qed.

Lemma guarded_scrape_returns code (s : BSc) :
  exists s' d,
    try_except (scrape_location D code) is_Exception
               (fun e => ret (Unknown (msg e))) s = (s', Ret d).
Proof.
  destruct (returns_try_except (scrape_location D code)
              (fun e => ret (@Unknown Grid FTable (msg e)))
              (fun e => returns_ret _) s) as [d H].
  destruct (try_except _ _ _ s) as [s' r]. cbn [snd] in H. subst r. eauto.
Qed.

Lemma all_locations_run codes results (s : BSc) :
  exists s' res,
    scrape_all_locations D codes results s = (s', Ret res) /\
    dom res = dom results ∪ list_to_set codes /\
    (forall k, ~ In k codes -> res !! k = results !! k).
Proof.
  revert results s. induction codes as [|code codes IH]; intros results s.
  - exists s, results. split; [reflexivity|]. split; [set_solver|auto].
  - cbn [scrape_all_locations]. unfold bind.
    destruct (guarded_scrape_returns code s) as (s1 & d & E). rewrite E.
    destruct (IH (<[code := d]> results) s1) as (s' & res & E' & Dm & Fr).
    exists s', res. split; [exact E'|]. split.
    + rewrite Dm, dom_insert_L. cbn [list_to_set]. set_solver.
    + intros k Hk. rewrite Fr by (intros H; apply Hk; now right).
      apply lookup_insert_ne. intros ->. apply Hk. now left.
Qed.

(** X22.  [scrape_all_locations] never raises and returns an entry for
    every code it was given, next to the entries it started from; entries
    under other keys are untouched.  On a scraper that is not logged in or
    has no page it touches nothing and every code gets the error entry
    [Not logged in. Call login() first.]. *)
Theorem scrape_all_locations_total :
  (forall codes results (s : BSc),
     exists s' res,
       scrape_all_locations D codes results s = (s', Ret res) /\
       dom res = dom results ∪ list_to_set codes /\
       (forall k, ~ In k codes -> res !! k = results !! k)) /\
  (forall codes results (s : BSc),
     logged_in (self s) && page (self s) = false ->
     exists res,
       scrape_all_locations D codes results s = (s, Ret res) /\
       forall code, In code codes -> res !! code = Some (Unknown (msg not_logged_in))).
Proof.
  split; [exact all_locations_run|].
  intros codes. induction codes as [|code codes IH]; intros results s H.
  - exists results. split; [reflexivity|]. intros code [].
  - cbn [scrape_all_locations]. unfold bind, try_except.
    rewrite (scrape_location_refused code s H). cbn [is_Exception ret].
    destruct (IH (<[code := Unknown (msg not_logged_in)]> results) s H) as (res & E & A).
    exists res. split; [exact E|].
    intros c [<-|Hc]; [|now apply A].
    destruct (in_dec string_dec code codes) as [I|N]; [now apply A|].
    destruct (all_locations_run codes (<[code := Unknown (msg not_logged_in)]> results) s)
      as (s2 & res2 & E2 & _ & Fr).
    rewrite E in E2. injection E2 as <- <-.
    rewrite Fr by exact N. apply lookup_insert_eq.
Qed.

(** *** One target *)

(** The name, the code and the page data of [result] are not touched by
    the frames. *)
Lemma header_call {A} c l d (e : event) (f : Env -> Env * Py.result A) :
  preserves (hdr c l d) (call e f).
Proof. intros st H. unfold call. destruct (f (env st)) as [env' out]. exact H. Qed.

Lemma header_frame c l d code iframe :
  preserves (hdr c l d) (scrape_frame D code iframe).
Proof.
  unfold scrape_frame. apply preserves_try_except; [|intros e; apply preserves_ret].
  apply preserves_bind; [apply header_call|]. intros id.
  apply preserves_bind; [apply header_call|]. intros [gd|]; [|apply preserves_ret].
  intros st H. exact H.
Qed.

Lemma bind_run {S A B} (m : M S A) (k : A -> M S B) s :
  bind m k s = match m s with
               | (s', Ret a) => k a s'
               | (s', Raise e) => (s', Raise e)
               end.
Proof. reflexivity. Qed.

Lemma call_self {A} (e : event) (f : Env -> Env * Py.result A) (st : BFr) :
  self (fst (call e f st)) = self st.
Proof. unfold call. now destruct (f (env st)). Qed.

Lemma inspect_loop_self iframes (st : BFr) :
  self (fst (for_each iframes (fun iframe =>
          let! _ := call (EvInspect iframe) (fun env => iframe_id D env iframe) in ret tt)%py
          st)) = self st.
Proof.
  apply (preserves_for_each (fun x : BFr => self x = self st)); [|reflexivity].
  intros i. apply preserves_bind; [|intros _; apply preserves_ret].
  apply (preserves_call (fun o : frame Grid FTable => o = self st)).
Qed.

(** The name and the code of the target stay as [scrape_location] set
    them. *)
Lemma body_keeps_code c l loc :
  preserves (fun st : BFr => r_code (result (self st)) = c /\
                             r_location (result (self st)) = l)
            (scrape_body D loc).
Proof.
  set (P := fun o : frame Grid FTable => r_code (result o) = c /\ r_location (result o) = l).
  assert (S : forall f, (forall r, r_code (f r) = r_code r /\ r_location (f r) = r_location r) ->
                        preserves (fun st : BFr => P (self st)) (set_result f)).
  { intros f Hf. unfold set_result. apply preserves_update.
    intros o [H1 H2]. unfold P. cbn [result]. destruct (Hf (result o)) as [-> ->]. auto. }
  change (preserves (fun st : BFr => P (self st)) (scrape_body D loc)).
  unfold scrape_body.
  repeat first
    [ apply preserves_bind; [|intros ?]
    | apply (preserves_call P)
    | apply preserves_gets
    | apply preserves_ret
    | apply S; intros r; split; reflexivity
    | apply preserves_for_each; intros ? ].
  match goal with
  | |- preserves _ (scrape_frame D ?code ?i) =>
      intros st [H1 H2];
      destruct (header_frame c l (r_data (result (self st))) code i st) as (A & B & _);
      [repeat split; assumption|]; split; assumption
  end.
Qed.

(** When the extraction of a target goes through, the page data is
    complete and its counts are those of the lists collected. *)
Lemma body_completes loc (st : BFr) s' :
  scrape_body D loc st = (s', Ret tt) ->
  r_error (result (self s')) = r_error (result (self st)) /\
  (r_data (result (self st)) = empty_page_data -> complete loc (result (self s'))).
Proof.
  unfold scrape_body. rewrite bind_run.
  pose proof (call_self (EvNavigate (upper loc)) (fun env => navigate D env (upper loc)) st) as E1.
  destruct (call (EvNavigate (upper loc)) _ st) as [s1 [[]|e1]]; [|discriminate].
  rewrite bind_run.
  pose proof (call_self EvListFrames (query_iframes D) s1) as E2.
  destruct (call EvListFrames (query_iframes D) s1) as [s2 [iframes|e2]]; [|discriminate].
  rewrite bind_run.
  pose proof (inspect_loop_self iframes s2) as E3.
  destruct (for_each iframes _ s2) as [s3 [[]|e3]]; [|discriminate].
  rewrite bind_run.
  pose proof (frames_loop D (upper loc) iframes s3) as (_ & _ & E4 & _).
  assert (D4 : r_data (result (self (fst (for_each iframes (scrape_frame D (upper loc)) s3))))
               = r_data (result (self s3))).
  { apply (preserves_for_each
             (hdr (r_code (result (self s3))) (r_location (result (self s3)))
                        (r_data (result (self s3))))
             iframes (scrape_frame D (upper loc))).
    - intros i. apply header_frame.
    - repeat split. }
  destruct (for_each iframes (scrape_frame D (upper loc)) s3) as [s4 [[]|e4]]; [|discriminate].
  cbn [fst snd] in *.
  cbv [bind gets set_result update modify].
  cbn [fst snd env trace self].
  pose proof (call_self EvTitle (page_title D)
                {| env := env s4; trace := trace s4;
                   self := {| this := this (self s4);
                              result := set_data (with_url (page_url D (env s4))
                                                           (r_data (result (self s4))))
                                                 (result (self s4)) |} |}) as E5.
  destruct (call EvTitle (page_title D) _) as [s5 [t|e5]]; [|discriminate].
  cbn [fst snd env trace self] in *.
  match goal with
  | |- context [call (EvScreenshot ?p) ?f ?x] =>
      pose proof (call_self (EvScreenshot p) f x) as E6;
      destruct (call (EvScreenshot p) f x) as [s6 [[]|e6]]; [|discriminate]
  end.
  cbn [fst snd env trace self] in *.
  intros H. injection H as <-. cbn [self result].
  rewrite E6. cbn [result this set_data r_error r_data r_tables r_grids].
  rewrite E5. cbn [result this set_data r_error r_data r_tables r_grids].
  split; [congruence|].
  intros H0. unfold complete.
  cbn [r_data r_tables r_grids set_data with_screenshot with_title with_url
       url title total_grids total_tables screenshot_path].
  repeat split; discriminate.
Qed.

(** X23.  On a scraper that is logged in, [scrape_location] raises
    nothing and leaves the scraper as it was.  The code is looked up in
    upper case: for an unknown code the result is the error entry
    [Unknown location: ...] and the browser is not touched; for a known
    one the result carries the code in upper case and the name of the
    location, and, when it has no error tag, complete page data: the
    address and the title of the page, the path of the screenshot, and
    counts of grids and tables equal to the lengths of the lists
    collected. *)
Theorem scrape_location_by_code :
  forall loc (s : BSc),
    logged_in (self s) = true -> page (self s) = true ->
    match locations_get (upper loc) ETSLINK_LOCATIONS with
    | None => scrape_location D loc s = (s, Ret (Unknown ("Unknown location: " +:+ loc)))
    | Some location =>
        exists s' r,
          scrape_location D loc s = (s', Ret (Scraped r)) /\
          self s' = self s /\
          r_code r = upper loc /\ r_location r = name location /\
          (r_error r = None -> complete loc r)
    end.
Proof.
  intros loc s L P. unfold scrape_location. rewrite bind_run.
  unfold read, gets. cbn [fst snd self]. rewrite L, P. cbn [andb negb].
  destruct (locations_get (upper loc) ETSLINK_LOCATIONS) as [location|]; [|reflexivity].
  unfold zoom. cbn [env trace self].
  set (s0 := {| env := env s; trace := trace s;
                self := {| this := self s; result := new_result location loc |} |}).
  rewrite bind_run. unfold try_except.
  pose proof (body_keeps_code (upper loc) (name location) loc s0 (conj eq_refl eq_refl))
    as [Kc Kl].
  pose proof (preserves_this_body D (self s) loc s0 eq_refl) as Kt.
  pose proof (body_completes loc s0) as Kd.
  destruct (scrape_body D loc s0) as [s1 [[]|e]]; cbn [fst snd is_Exception] in *.
  - destruct (Kd s1 eq_refl) as [Ke Kcomp].
    eexists _, _. split; [reflexivity|]. cbn [self].
    split; [exact Kt|]. split; [exact Kc|]. split; [exact Kl|].
    intros _. now apply Kcomp.
  - cbv [set_result update modify bind read gets ret]. cbn [fst snd env trace self].
    eexists _, _. split; [reflexivity|]. cbn [self this result set_error r_code r_location r_error].
    split; [exact Kt|]. split; [exact Kc|]. split; [exact Kl|]. discriminate.
Qed.

(** X24.  [close] releases the handles in the order page, context,
    browser, driver, each one that is set and no other; closing again does
    nothing.  It leaves the flag [logged_in] as it is, but since the page
    is gone every later [scrape_location] raises [RuntimeError] without
    touching anything. *)
Theorem close_then_nothing_works :
  (forall s : BSc,
     close s =
       ({| env := env s; trace := trace s ++ closing (self s);
           self := set_handles false false false false (self s) |}, Ret tt)) /\
  (forall s : BSc, close (fst (close s)) = (fst (close s), Ret tt)) /\
  (forall s : BSc, logged_in (self (fst (close s))) = logged_in (self s)) /\
  (forall loc (s : BSc),
     scrape_location D loc (fst (close s)) = (fst (close s), Raise not_logged_in)).
Proof.
  split; [apply ets_close_effect|]. split; [|split].
  - intros s. rewrite !ets_close_effect. cbn [fst env trace self].
    unfold closing, set_handles. cbn [page context browser playwright app].
    now rewrite app_nil_r.
  - intros s. rewrite ets_close_effect. reflexivity.
  - intros loc s. apply scrape_location_refused.
    rewrite ets_close_effect. cbn [fst self set_handles page]. apply andb_false_r.
Qed.

Ltac step_login :=
  cbv [login bind ret raise gets modify read update emit call try_except
       set_handles set_logged_in];
  cbn [fst snd env trace self negb is_Exception
       username password base_url logged_in playwright browser context page];
  cbv beta iota.

Ltac case_login :=
  match goal with
  | |- context [PLAYWRIGHT_AVAILABLE D] => destruct (PLAYWRIGHT_AVAILABLE D) eqn:?
  | |- context [pw_start D ?e] => destruct (pw_start D e) as [? [[]|?]]
  | |- context [pw_launch D ?e] => destruct (pw_launch D e) as [? [[]|?]]
  | |- context [pw_new_context D ?e] => destruct (pw_new_context D e) as [? [[]|?]]
  | |- context [pw_new_page D ?e] => destruct (pw_new_page D e) as [? [[]|?]]
  | |- context [submit_credentials D ?e ?u ?p] =>
      destruct (submit_credentials D e u p) as [? [?|?]]
  | |- context [query_error D ?e] => destruct (query_error D e) as [? [[?|]|?]]
  | |- context [password_visible D ?e] =>
      destruct (password_visible D e) as [? [[|]|?]]
  | |- context [contains "main" (lower ?u) || contains "home" (lower ?u)] =>
      destruct (contains "main" (lower u) || contains "home" (lower u))
  end.

Lemma truthy_or_else x d : truthy d = true -> truthy (or_else x d) = true.
Proof. unfold or_else. destruct (truthy x) eqn:E; auto. Qed.

(** X25.  [login] always answers a pair, and its message tells the
    outcome: the message is empty exactly when the login succeeded, so the
    fallback message of [scrape_etslink] is never the one that is logged.
    Without the browser driver installed [login] fails without touching
    anything.  When it succeeds the scraper is logged in and holds all four
    handles. *)
Theorem login_message_tells_outcome :
  forall s : BSc,
    exists s1 ok m,
      login D s = (s1, Ret (ok, m)) /\
      truthy m = negb ok /\
      (ok = false -> or_else m "Login failed. Check credentials." = m) /\
      (PLAYWRIGHT_AVAILABLE D = false -> ok = false /\ s1 = s) /\
      (ok = true ->
         logged_in (self s1) = true /\ playwright (self s1) = true /\
         browser (self s1) = true /\ context (self s1) = true /\ page (self s1) = true).
Proof.
  intros s.
  repeat (progress step_login || case_login);
  (eexists _, _, _; split; [reflexivity|]);
  cbn [self logged_in playwright browser context page negb];
  (split; [first [reflexivity | apply truthy_or_else; reflexivity]|]);
  (split; [intros H; first [discriminate H
                           | unfold or_else at 1;
                             first [reflexivity
                                   | rewrite truthy_or_else by reflexivity; reflexivity]]
          |]);
  (split; [intros; first [discriminate | congruence
                         | split; [reflexivity|destruct s; reflexivity]]|]);
  intros; try discriminate; repeat split.
Qed.

End ETSLinkScraperFacts.

Section ETSLinkScraperExamples.
Import PyStr Py ETSLink ETSLinkSpec RunSamples.

(** The code is looked up in upper case: [lax] is Los Angeles. *)
Lemma scrape_location_by_code_witness :
  exists s' r,
    scrape_location accepting_driver "lax"
      {| env := tt; trace := []; self := ready "alice" "secret" |} = (s', Ret (Scraped r)) /\
    self s' = ready "alice" "secret" /\
    r_code r = "LAX" /\ r_location r = "Los Angeles" /\
    (r_error r = None -> complete "lax" r).
Proof.
  exact (scrape_location_by_code accepting_driver "lax"
           {| env := tt; trace := []; self := ready "alice" "secret" |} eq_refl eq_refl).
Defined.

(** Without a login every code gets the same error entry and the browser
    is not touched. *)
Example scrape_all_not_logged_in :
  scrape_all_locations accepting_driver ["LAX"; "SEA"] ∅
    {| env := tt; trace := []; self := ETSLinkScraper_init "alice" "secret" |}
  = ({| env := tt; trace := []; self := ETSLinkScraper_init "alice" "secret" |},
     Ret (<["SEA" := Unknown "Not logged in. Call login() first."]>
            (<["LAX" := Unknown "Not logged in. Call login() first."]> ∅))).
Proof. reflexivity. Qed.

End ETSLinkScraperExamples.

(** ** Whole runs: what is sent, what is saved, what is closed *)

(** Symbolic execution of a run: unfold the statements, then split on what
    the world or the page decides next. *)
Ltac exec_step :=
  cbv [T18.do_scrape T18.call_do_scrape T18.authenticate T18.try_block T18.extract_dashboard
       T18.log T18.set_result T18.on_scraper T18.storage_save_ T18.JSONStorage_init
       T18.initial_locals T18.initial_result
       T18Cli.call_scrape_t18 T18Cli.scrape_t18 T18Cli.try_block
       Main.call_main Main.main
       Http.fetch Http.ws_get_client Http.ws_close Http.WebScraper_init
       Http.get_login_form_fields Http.login Http.get Http.post Http._get_client
       Http.close Http.set_logged_in Http.client_send Http.raise_for_status
       Http.SessionScraper_init
       Recording.lift_send Recording.record_init Recording.record_save
       Py.bind Py.ret Py.raise Py.gets Py.modify Py.read Py.update Py.emit Py.call Py.zoom
       Py.try_except Py.try_finally Py.when];
  cbn [fst snd Py.env Py.trace Py.self
       T18.scraper T18.result T18.r_success T18.r_logs T18.r_data
       Http._client Http.logged_in Http.base_url Http.timeout
       Http.ws_client Http.ws_timeout negb Py.is_Exception];
  rewrite ?status_error_is_http;
  change (PyStr.truthy "default.do") with true;
  cbv beta iota.

Ltac exec_case send status_raises :=
  match goal with
  | |- context [send ?e ?r] => destruct (send e r) as [? [?|?]]
  | |- context [status_raises ?c] => destruct (status_raises c)
  | |- context [Py.is_HTTPError ?e] => is_var e; destruct (Py.is_HTTPError e)
  | |- context [PyStr.truthy (Http.text ?r)] => destruct (PyStr.truthy (Http.text r))
  | |- context [Soup.find "form" ?x] => destruct (Soup.find "form" x)
  | |- context [Http.login_form ?x] => destruct (Http.login_form x)
  | |- context [Http.error_by_class ?x] => destruct (Http.error_by_class x)
  end.

Ltac exec_store storage_init storage_save :=
  match goal with
  | |- context [storage_init ?e] => destruct (storage_init e) as [? [[]|?]]
  | |- context [storage_save ?e ?d] => destruct (storage_save e d) as [? [[]|?]]
  end.

Section RecordedRuns.
Import PyStr Py Http Recording.

Context {Net : Type} (send : Net -> request -> Net * Py.result response)
        (status_raises : Z -> bool) (BeautifulSoup : string -> Soup.node).

(** X26.  [do_scrape] against a store that records what it is given and
    does not fail.  The call always returns.  When it reports success, the
    store was given exactly one dictionary, the one made of the title, the
    links, the tables and the headings the call returns, and the log holds
    no error entry and ends with [Scraping complete!].  When it reports no
    success, nothing was saved, the data returned is the empty initial
    data, and the log holds exactly one error entry, the last one. *)
Theorem do_scrape_saves_what_it_returns :
  forall u p (n0 : Net),
    exists s' res,
      T18.call_do_scrape (lift_send send) status_raises BeautifulSoup
        record_init record_save u p (n0, []) = (s', Ret res) /\
      (T18.r_success res = true ->
         snd (env s') = [saved_of (T18.r_data res)] /\
         List.filter T18.is_error (T18.r_logs res) = [] /\
         last (T18.r_logs res)
           = Some {| T18.type := T18.success; T18.message := "Scraping complete!" |}) /\
      (T18.r_success res = false ->
         snd (env s') = [] /\
         T18.r_data res = T18.r_data T18.initial_result /\
         length (List.filter T18.is_error (T18.r_logs res)) = 1 /\
         exists e, last (T18.r_logs res) = Some e /\ T18.is_error e = true).
Proof.
  intros u p n0. repeat (progress exec_step || exec_case send status_raises).
  all: eexists _, _; (split; [reflexivity|]).
  all: cbn [T18.r_success T18.r_logs T18.r_data env snd fst app].
  all: split; intros H; try discriminate H.
  all: repeat split; try reflexivity.
  all: eexists; split; reflexivity.
Qed.

(** X27.  [scrape_t18] against the recording store: the store is given at
    most one dictionary, and only by a call that returns with the session
    logged in; the dictionary is the one of a page the site answered, and
    its navigation links are the first twenty links of that page, never
    more than twenty. *)
Theorem scrape_t18_saves_twenty_links :
  forall u p (n0 : Net),
    exists s' r,
      T18Cli.call_scrape_t18 (lift_send send) status_raises BeautifulSoup
        record_init record_save u p (n0, []) = (s', r) /\
      match snd (env s') with
      | [] => True
      | [d] =>
          r = Ret tt /\ logged_in (self s') = true /\
          length (T18Cli.navigation_links d) <= 20 /\
          exists html,
            d = T18Cli.result_of (HTMLParser.parse (BeautifulSoup html)) (BeautifulSoup html) /\
            T18Cli.navigation_links d
              = firstn 20 (Extract.nav_links_t18 (BeautifulSoup html))
      | _ => False
      end.
Proof.
  intros u p n0. repeat (progress exec_step || exec_case send status_raises).
  all: eexists _, _; (split; [reflexivity|]).
  all: cbn [env snd fst app self logged_in]; try exact I.
  all: split; [reflexivity|]; split; [reflexivity|].
  all: split; [apply firstn_le_length|].
  all: eexists; split; reflexivity.
Qed.

End RecordedRuns.

Section StoredRuns.
Import PyStr Py Http.

Context {Env : Type} (send : Env -> request -> Env * Py.result response)
        (status_raises : Z -> bool) (BeautifulSoup : string -> Soup.node)
        (storage_init : Env -> Env * Py.result unit).

(** The [try] block of [scrape_t18] leaves the client open and closes
    nothing. *)
Lemma t18_try_block_effect
  (storage_save : Env -> T18Cli.saved -> Env * Py.result unit) u p
  (s : Py.state Env event SessionScraper) :
  _client (self (fst (T18Cli.try_block send status_raises BeautifulSoup storage_save u p s)))
    = true /\
  exists evs,
    trace (fst (T18Cli.try_block send status_raises BeautifulSoup storage_save u p s))
      = trace s ++ evs /\
    existsb T18.is_aclose evs = false.
Proof.
  destruct s as [w t [b tm c li]]. destruct c.
  all: repeat (progress exec_step || exec_case send status_raises
               || exec_store storage_init storage_save).
  all: split; [reflexivity|].
  all: eexists; split; [rewrite <- ?app_assoc; reflexivity|reflexivity].
Qed.

(** X28.  [scrape_t18] closes its client in every case, and swallows
    nothing: when the directory of the store cannot be created the error
    comes out before any client is opened; otherwise the call ends as its
    [try] block ends, with the same exception when that raises, and the
    closing of the client is the last event of the run, the only closing. *)
Theorem scrape_t18_closes_and_reraises
  (storage_save : Env -> T18Cli.saved -> Env * Py.result unit) :
  forall u p w,
    exists s' r,
      T18Cli.call_scrape_t18 send status_raises BeautifulSoup storage_init storage_save u p w
        = (s', r) /\
      _client (self s') = false /\
      match snd (storage_init w) with
      | Ret _ =>
          r = snd (T18Cli.try_block send status_raises BeautifulSoup storage_save u p
                     {| env := fst (storage_init w); trace := [EvMkdir];
                        self := SessionScraper_init T18Cli.base_url None |}) /\
          exists tr, trace s' = tr ++ [EvAclose] /\ existsb T18.is_aclose tr = false
      | Raise e => r = Raise e /\ trace s' = [EvMkdir]
      end.
Proof.
  intros u p w.
  unfold T18Cli.call_scrape_t18, T18Cli.scrape_t18, bind, call, try_finally.
  cbn [env trace self app].
  destruct (storage_init w) as [w0 [[]|e]]; cbn [fst snd].
  2:{ eexists _, _. split; [reflexivity|]. repeat split. }
  set (s0 := {| env := w0; trace := [EvMkdir]; self := SessionScraper_init T18Cli.base_url None |}).
  destruct (t18_try_block_effect storage_save u p s0) as (C & evs & T & N).
  destruct (T18Cli.try_block send status_raises BeautifulSoup storage_save u p s0) as [s1 r1].
  cbn [fst snd] in *.
  rewrite session_close_effect, C. cbn [fst snd].
  eexists _, _. split; [destruct r1; reflexivity|].
  cbn [self trace SessionSpec.set_client _client].
  split; [reflexivity|]. split; [reflexivity|].
  exists (trace s1). split; [reflexivity|].
  rewrite T. unfold s0. cbn [trace app existsb T18.is_aclose orb]. exact N.
Qed.

(** X29.  In [do_scrape] the login form that was resolved decides what is
    posted: after the page of the form was asked for, the only further
    request of the authentication is one POST of the credentials to the
    action of the form ([j_security_check] when the page has no form or the
    form no action), and every hidden field of the form is sent with it
    unchanged.  When the resolver raises, nothing is posted. *)
Theorem login_post_carries_hidden_fields :
  forall u p (s : Py.state Env event T18.locals),
    (forall info,
       snd (get_login_form_fields send status_raises BeautifulSoup "default.do"
              {| env := env s; trace := trace s; self := T18.scraper (self s) |}) = Ret info ->
       trace (fst (T18.authenticate send status_raises BeautifulSoup u p s))
         = trace (fst (get_login_form_fields send status_raises BeautifulSoup "default.do"
                         {| env := env s; trace := trace s; self := T18.scraper (self s) |}))
           ++ [EvRequest (RunSpec.login_request (T18.scraper (self s)) u p info)]) /\
    (forall e,
       snd (get_login_form_fields send status_raises BeautifulSoup "default.do"
              {| env := env s; trace := trace s; self := T18.scraper (self s) |}) = Raise e ->
       T18.authenticate send status_raises BeautifulSoup u p s
         = (fst (T18.authenticate send status_raises BeautifulSoup u p s), Raise e) /\
       trace (fst (T18.authenticate send status_raises BeautifulSoup u p s))
         = trace (fst (get_login_form_fields send status_raises BeautifulSoup "default.do"
                         {| env := env s; trace := trace s; self := T18.scraper (self s) |}))) /\
    (forall f n v,
       hidden_fields f !! n = Some v ->
       RunSpec.login_fields u p (Some f) !! n = Some v).
Proof.
  intros u p s. split; [|split].
  - destruct s as [w t [[b tm c li] res]]. cbn [env trace self T18.scraper].
    unfold RunSpec.login_request, RunSpec.login_fields, url_for. destruct c.
    all: repeat (progress exec_step || exec_case send status_raises).
    all: intros info H; try discriminate H; injection H as <-.
    all: rewrite <- ?app_assoc; reflexivity.
  - destruct s as [w t [[b tm c li] res]]. cbn [env trace self T18.scraper]. destruct c.
    all: repeat (progress exec_step || exec_case send status_raises).
    all: intros e' H; try discriminate H; injection H as <-.
    all: split; reflexivity.
  - intros f n v H. unfold RunSpec.login_fields. rewrite form_data_lookup.
    unfold SessionSpec.credentials_lookup. cbn [default from_option id]. now rewrite H.
Qed.

(** X30.  The example program [main] has no [finally]: when it returns
    the client is closed, but when an exception comes out of it (the
    transport raises something that is not an HTTP error, or the store
    fails) the client that was opened is left open and is never closed. *)
Theorem main_leaves_client_open
  (storage_save : Env -> HTMLParser.parsed -> Env * Py.result unit) :
  forall w,
    exists s' r,
      Main.call_main send status_raises BeautifulSoup storage_init storage_save w = (s', r) /\
      match r with
      | Ret _ =>
          ws_client (self s') = false /\
          exists tr, trace s' = tr ++ [EvAclose] /\ existsb T18.is_aclose tr = false
      | Raise e =>
          existsb T18.is_aclose (trace s') = false /\
          (snd (storage_init w) = Raise e /\ trace s' = [EvMkdir] \/
           ws_client (self s') = true)
      end.
Proof.
  intros w.
  repeat (progress exec_step || exec_case send status_raises
          || exec_store storage_init storage_save).
  all: eexists _, _; (split; [reflexivity|]).
  all: cbn [self ws_client trace fst snd].
  all: split; [reflexivity|].
  all: first [ eexists; split; reflexivity
             | right; reflexivity
             | left; split; reflexivity ].
Qed.

End StoredRuns.

Section StoredRunExamples.
Import PyStr Py Http HttpSpec RunSamples RunSpec.

(** [scrape_t18] against a transport that refuses the address: the error
    comes out of the call, after the client was closed. *)
Example scrape_t18_reraises :
  T18Cli.call_scrape_t18 scripted not_2xx sample_parse store_init store_save
    "alice" "secret" [invalid_url]
  = ({| env := [];
        trace := [ EvMkdir; EvOpen 30;
                   EvRequest (GET "https://t18.tideworks.com/fc-T18/default.do");
                   EvAclose ];
        self := SessionScraper_init T18Cli.base_url None |},
     Raise {| cls := InvalidURL; msg := "Invalid URL" |}).
Proof. vm_compute. reflexivity. Qed.

(** [main] against a store that fails: the error comes out and the client
    stays open. *)
Example main_store_fails :
  Main.call_main scripted not_2xx sample_parse store_init failing_save [ok "login"]
  = ({| env := [];
        trace := [EvMkdir; EvOpen 30; EvRequest (GET "https://example.com"); EvSave];
        self := {| ws_timeout := 30; ws_client := true |} |},
     Raise {| cls := OSError; msg := "No space left on device" |}).
Proof. vm_compute. reflexivity. Qed.

End StoredRunExamples.
